(** * vmpinning: the libvirt connector and the scheduler loop

    A shallow embedding of [schedulerlocal/domain/libvirtconnector.py]
    (class [LibvirtConnector]) and of [schedulerlocal/schedulerlocal.py]
    (class [SchedulerLocal]), with the properties of the hypervisor state
    adapter and of the control loop stated over it.

    Conventions of the embedding:
    - Python [int] is [Z]; counters that libvirt reports as unsigned
      integers are [N].
    - The result of a true division [a / b] is the exact rational
      quotient, in lowest terms ([Q] through [Qred]). CPython rounds that
      quotient to the nearest binary64; rounding is monotone and keeps
      [0] and [1], so the order facts proved here carry over.
    - Where a quotient is cut to an integer, in
      [int((time_begin-launch_at)/(10**9))] of the loop, the rounding
      decides the integer and is written out: [b64_round] is rounding to
      the nearest binary64, ties to even.
    - A Python exception is a [Raise] result; the state reached when the
      exception is raised is kept, as in Python.
    - [DomainEntity] objects live in a store and are handed around by
      reference, because [get_usage_cpu] mutates the object that the
      cache also holds. *)

From Stdlib Require Import ZArith NArith QArith Qreduction Qminmax Qround Qpower.
From Stdlib Require Import SpecFloat List Lia Lqa String.
From stdpp Require Import gmap strings list fin_maps.

(** ** Exceptions and results *)

Inductive exn : Type :=
| LibvirtError        (* libvirt.libvirtError *)
| ConsumerNotAlived   (* class ConsumerNotAlived(Exception) *)
| ZeroDivisionError
| IndexError
| KeyError
| DanglingReference   (* a reference to no object: no Python program holds one *).

Inductive result (A : Type) : Type :=
| Ok (a : A)
| Raise (e : exn).
Arguments Ok {A} a.
Arguments Raise {A} e.

(** ** Python sequences *)

(** [l[i]] for a Python list of length [len]: indices [0 .. len-1] are
    themselves, [-len .. -1] count from the end, anything else is an
    [IndexError]. *)
Definition py_index (len : nat) (i : Z) : option nat :=
  if ((0 <=? i) && (i <? Z.of_nat len))%Z then Some (Z.to_nat i)
  else if ((- Z.of_nat len <=? i) && (i <? 0))%Z then Some (Z.to_nat (Z.of_nat len + i))
  else None.

(** [l[i] = x] *)
Definition py_setitem {A : Type} (l : list A) (i : Z) (x : A) : result (list A) :=
  match py_index (length l) i with
  | Some k => Ok (<[k := x]> l)
  | None => Raise IndexError
  end.

(** ** Pinning templates *)

(** Modelled from the spec: [ServerCPU], the element type of the authorised
    CPU list, is declared outside the two modules embedded here; the
    connector only calls [get_cpu_id()] on it, so it is a record carrying
    that id. *)
Record ServerCPU : Type := { cpu_id : Z }.

Definition get_cpu_id (cpu : ServerCPU) : Z := cpu_id cpu.

(** [for cpu in cpu_list: template_pin[cpu.get_cpu_id()] = True] *)
Fixpoint pin_authorised (cpu_list : list ServerCPU) (template_pin : list bool)
  : result (list bool) :=
  match cpu_list with
  | [] => Ok template_pin
  | cpu :: rest =>
      match py_setitem template_pin (get_cpu_id cpu) true with
      | Ok template_pin' => pin_authorised rest template_pin'
      | Raise e => Raise e
      end
  end.

(** [LibvirtConnector.build_cpu_pinning]. [range(host_config)] is empty for
    a negative [host_config], hence [Z.to_nat]. The method reads and writes
    nothing of the connector, so it is a function of its two arguments. *)
Definition build_cpu_pinning (cpu_list : list ServerCPU) (host_config : Z)
  : result (list bool) :=
  let template_pin := replicate (Z.to_nat host_config) false in
  pin_authorised cpu_list template_pin.

(** ** True division *)

Definition Qgtb (x y : Q) : bool := negb (Qle_bool x y).

(** [a / b] on two [int]s. *)
Definition int_truediv (a b : Z) : result Q :=
  if (b =? 0)%Z then Raise ZeroDivisionError
  else Ok (Qred (inject_Z a / inject_Z b)).

(** [x / b] for a float [x] and an [int] [b]. *)
Definition float_truediv (x : Q) (b : Z) : result Q :=
  if (b =? 0)%Z then Raise ZeroDivisionError
  else Ok (Qred (x / inject_Z b)).

(** ** Rounding to binary64 *)

Section Binary64.

Local Open Scope Q_scope.

(** [2^e], for any integer [e]. *)
Definition pow2 (e : Z) : Q := 2 ^ e.

(** The binary exponent of a positive rational: the [l] with
    [2^l <= x < 2^(l+1)]. *)
Definition Qlog2 (x : Q) : Z :=
  let k := (Z.log2 (Qnum x) - Z.log2 (Zpos (Qden x)))%Z in
  if Qle_bool (pow2 k) x then k else (k - 1)%Z.

(** The nearest integer, the even one of the two when [x] lies halfway. *)
Definition round_half_even (x : Q) : Z :=
  let f := Qfloor x in
  match Qcompare (x - inject_Z f) (1 # 2) with
  | Lt => f
  | Gt => (f + 1)%Z
  | Eq => if Z.even f then f else (f + 1)%Z
  end.

(** The exponent of the spacing of the binary64 numbers around a positive
    [x]: 53 significant bits, and no spacing below [2^-1074], that of the
    subnormal numbers. *)
Definition b64_quantum (x : Q) : Z := Z.max (Qlog2 x - 52) (-1074).

(** The binary64 nearest to a positive [x]. *)
Definition b64_round_pos (x : Q) : Q :=
  let e := b64_quantum x in
  inject_Z (round_half_even (x / pow2 e)) * pow2 e.

(** The binary64 nearest to [x], ties to even. The overflow threshold
    [2^1024], at which [a / b] raises [OverflowError], is not part of it:
    the quotients rounded here are those of two readings of
    [time.time_ns()], a 64-bit counter, by [10**9]. *)
Definition b64_round (x : Q) : Q :=
  match Qcompare x 0 with
  | Eq => 0
  | Gt => Qred (b64_round_pos x)
  | Lt => Qred (- b64_round_pos (- x))
  end.

(** [int(x)] of a float: the fraction is cut off, towards zero. *)
Definition py_int (x : Q) : Z := if Qle_bool 0 x then Qfloor x else Qceiling x.

(** The same division through the Standard Library's specification of
    IEEE 754 arithmetic, to compare with: the value of the binary64 that
    [SFdiv] gives for two positive integers, when it is finite. *)
Definition SFdiv_value (a b : positive) : option Q :=
  match SFdiv 53 1024 (S754_finite false a 0) (S754_finite false b 0) with
  | S754_zero _ => Some 0
  | S754_finite s m e =>
      Some (Qred ((if s then - inject_Z (Z.pos m) else inject_Z (Z.pos m)) * pow2 e))
  | _ => None
  end.

End Binary64.

(** ** The domain descriptor and its oversubscription metadata *)

(** Modelled from the spec: the descriptor document of a VM, as far as the
    connector looks at it: the VM it describes and the optional CPU
    oversubscription ratio of its metadata. *)
Record Descriptor : Type := {
  xml_uuid : string;
  xml_oversub_cpu : option Q
}.

(** Modelled from the spec: [xmlDomainMetaData] of
    [schedulerlocal/domain/libvirtxmlmodifier.py], a module that is not
    embedded here. The spec says: the oversubscription metadata is read from
    the descriptor; if it is absent a default ratio is generated and the
    descriptor is rewritten with it. [updated()] tells whether that
    happened. *)
Record xmlDomainMetaData : Type := {
  xml_as_str : Descriptor;
  oversub_cpu : option Q;
  was_updated : bool
}.

Definition xmlDomainMetaData_init (xml : Descriptor) : xmlDomainMetaData :=
  {| xml_as_str := xml; oversub_cpu := None; was_updated := false |}.

Definition updated (m : xmlDomainMetaData) : bool := was_updated m.

Definition convert_to_str_xml (m : xmlDomainMetaData) : Descriptor := xml_as_str m.

(** [get_oversub_ratios()['cpu']] *)
Definition get_oversub_ratios_cpu (m : xmlDomainMetaData) : result Q :=
  match oversub_cpu m with
  | Some r => Ok r
  | None => Raise KeyError
  end.

(** ** The resource entity *)

(** Modelled from the spec: [DomainEntity] of
    [schedulerlocal/domain/domainentity.py], a module that is not embedded
    here. Its fields are the keyword arguments the connector builds it
    from, plus the last usage sample [(epoch_ns, total, system, user)],
    absent until [set_time] stores one. *)
Record DomainEntity : Type := {
  de_uuid : string;
  de_name : string;
  de_mem : Z;
  de_cpu : Z;
  de_cpu_pin : list (list bool);
  de_cpu_ratio : Q;
  de_time : option (Z * N * N * N)
}.

Definition new_DomainEntity (uuid name : string) (mem cpu : Z)
    (cpu_pin : list (list bool)) (cpu_ratio : Q) : DomainEntity :=
  {| de_uuid := uuid; de_name := name; de_mem := mem; de_cpu := cpu;
     de_cpu_pin := cpu_pin; de_cpu_ratio := cpu_ratio; de_time := None |}.

Definition get_uuid (vm : DomainEntity) : string := de_uuid vm.
Definition get_cpu (vm : DomainEntity) : Z := de_cpu vm.
Definition has_time (vm : DomainEntity) : bool :=
  match de_time vm with Some _ => true | None => false end.
Definition get_time (vm : DomainEntity) : option (Z * N * N * N) := de_time vm.
Definition set_time (vm : DomainEntity) (epoch_ns : Z) (total system user : N)
  : DomainEntity :=
  {| de_uuid := de_uuid vm; de_name := de_name vm; de_mem := de_mem vm;
     de_cpu := de_cpu vm; de_cpu_pin := de_cpu_pin vm;
     de_cpu_ratio := de_cpu_ratio vm;
     de_time := Some (epoch_ns, total, system, user) |}.

(** ** The hypervisor, seen through libvirt *)

(** [getCPUStats(total=True)[0]]: cumulative nanoseconds. *)
Record CPUStats : Type := { cpu_time : N; system_time : N; user_time : N }.

(** [memoryStats()]: the two keys the connector reads. *)
Record MemoryStats : Type := { rss : N; actual : N }.

(** What the hypervisor knows of one defined domain. A domain that is
    defined but not running answers the configuration queries, and refuses
    the statistics queries and the pin writes with a [libvirtError]. *)
Record Domain : Type := {
  d_name : string;
  d_maxMemory : Z;
  d_maxVcpus : Z;
  d_vcpuPinInfo : list (list bool);
  d_XMLDesc : Descriptor;
  d_defined : Descriptor;   (* the persistent definition, used at the next start *)
  d_running : bool;
  d_cpu : CPUStats;
  d_mem : MemoryStats
}.

Definition with_vcpuPinInfo (d : Domain) (pin : list (list bool)) : Domain :=
  {| d_name := d_name d; d_maxMemory := d_maxMemory d; d_maxVcpus := d_maxVcpus d;
     d_vcpuPinInfo := pin; d_XMLDesc := d_XMLDesc d; d_defined := d_defined d;
     d_running := d_running d; d_cpu := d_cpu d; d_mem := d_mem d |}.

Definition with_defined (d : Domain) (xml : Descriptor) : Domain :=
  {| d_name := d_name d; d_maxMemory := d_maxMemory d; d_maxVcpus := d_maxVcpus d;
     d_vcpuPinInfo := d_vcpuPinInfo d; d_XMLDesc := d_XMLDesc d; d_defined := xml;
     d_running := d_running d; d_cpu := d_cpu d; d_mem := d_mem d |}.

(** A [libvirt.virDomain] handle. It holds the UUID of its domain;
    [UUIDString()] reads it from the handle, every other method asks the
    hypervisor. *)
Record virDomain : Type := { UUIDString : string }.

Inductive LvQuery : Type :=
| QLookupByUUIDString | QName | QMaxMemory | QMaxVcpus | QVcpuPinInfo
| QXMLDesc | QGetCPUStats | QMemoryStats.

(** What the program does to the outside, in order. *)
Inductive Event : Type :=
| LvRead (uuid : string) (q : LvQuery)
| LvPinVcpu (uuid : string) (vcpu : nat) (cpumap : list bool)
| LvDefineXML (xml : Descriptor)
| Stdout (line : string)
| StdoutOverlap (seconds : Q)    (* 'Warning: overlap iteration', seconds, 's' *)
| PoolIterate (timestamp : Z)    (* managers_pool.iterate(timestamp=...) *)
| Sleep (seconds : Q).           (* time.sleep(seconds) *)

(** The state the two classes run in. [clock k] is what the [k]-th call of
    [time.time_ns()] returns: the wall clock is whatever the environment
    makes it, it need not even be monotone. *)
Record World : Type := {
  conn : gmap string Domain;          (* self.conn: uuid -> domain *)
  heap : list DomainEntity;           (* the DomainEntity objects, by reference *)
  cache_entity : gmap string nat;     (* self.cache_entity: uuid -> reference *)
  clock : nat -> Z;
  clock_reads : nat;
  trace : list Event
}.

Definition with_conn (w : World) (c : gmap string Domain) : World :=
  {| conn := c; heap := heap w; cache_entity := cache_entity w;
     clock := clock w; clock_reads := clock_reads w; trace := trace w |}.
Definition with_heap (w : World) (h : list DomainEntity) : World :=
  {| conn := conn w; heap := h; cache_entity := cache_entity w;
     clock := clock w; clock_reads := clock_reads w; trace := trace w |}.
Definition with_cache_entity (w : World) (c : gmap string nat) : World :=
  {| conn := conn w; heap := heap w; cache_entity := c;
     clock := clock w; clock_reads := clock_reads w; trace := trace w |}.
Definition with_clock_reads (w : World) (n : nat) : World :=
  {| conn := conn w; heap := heap w; cache_entity := cache_entity w;
     clock := clock w; clock_reads := n; trace := trace w |}.
Definition with_trace (w : World) (t : list Event) : World :=
  {| conn := conn w; heap := heap w; cache_entity := cache_entity w;
     clock := clock w; clock_reads := clock_reads w; trace := t |}.

(** ** The monad of the methods: state and exceptions *)

Definition M (A : Type) : Type := World -> result A * World.

Definition ret {A : Type} (a : A) : M A := fun w => (Ok a, w).
Definition raise {A : Type} (e : exn) : M A := fun w => (Raise e, w).
Definition bind {A B : Type} (m : M A) (k : A -> M B) : M B :=
  fun w => match m w with
           | (Ok a, w') => k a w'
           | (Raise e, w') => (Raise e, w')
           end.
Definition lift {A : Type} (r : result A) : M A := fun w => (r, w).

(** [try: m  except libvirt.libvirtError: handler] *)
Definition try_except_libvirtError {A : Type} (m : M A) (handler : M A) : M A :=
  fun w => match m w with
           | (Raise LibvirtError, w') => handler w'
           | r => r
           end.

Declare Scope py_scope.
Delimit Scope py_scope with py.
Notation "x <- m ;; k" := (bind m (fun x => k))
  (at level 100, m at next level, right associativity) : py_scope.
Notation "m ;;; k" := (bind m (fun _ => k))
  (at level 100, right associativity) : py_scope.
Local Open Scope py_scope.

Definition emit (ev : Event) : M unit :=
  fun w => (Ok tt, with_trace w (trace w ++ [ev])).

(** [for x in l: body(x)] *)
Fixpoint for_each {A : Type} (l : list A) (body : A -> M unit) : M unit :=
  match l with
  | [] => ret tt
  | x :: rest => body x ;;; for_each rest body
  end.

(** [time.time_ns()] *)
Definition time_ns : M Z :=
  fun w => (Ok (clock w (clock_reads w)), with_clock_reads w (S (clock_reads w))).

(** [print(...)] *)
Definition print (line : string) : M unit := emit (Stdout line).

(** *** libvirt calls *)

(** A read of domain [uuid]: recorded, refused when the hypervisor has no
    such domain, answered by [answer] otherwise. *)
Definition lv_read {A : Type} (uuid : string) (q : LvQuery)
    (answer : Domain -> result A) : M A :=
  emit (LvRead uuid q) ;;;
  fun w => match conn w !! uuid with
           | Some d => (answer d, w)
           | None => (Raise LibvirtError, w)
           end.

Definition lookupByUUIDString (uuid : string) : M virDomain :=
  lv_read uuid QLookupByUUIDString (fun _ => Ok {| UUIDString := uuid |}).
(** [virDomain.name()] *)
Definition lv_name (dom : virDomain) : M string :=
  lv_read (UUIDString dom) QName (fun d => Ok (d_name d)).
Definition maxMemory (dom : virDomain) : M Z :=
  lv_read (UUIDString dom) QMaxMemory (fun d => Ok (d_maxMemory d)).
Definition maxVcpus (dom : virDomain) : M Z :=
  lv_read (UUIDString dom) QMaxVcpus (fun d => Ok (d_maxVcpus d)).
Definition vcpuPinInfo (dom : virDomain) : M (list (list bool)) :=
  lv_read (UUIDString dom) QVcpuPinInfo (fun d => Ok (d_vcpuPinInfo d)).
Definition XMLDesc (dom : virDomain) : M Descriptor :=
  lv_read (UUIDString dom) QXMLDesc (fun d => Ok (d_XMLDesc d)).
Definition getCPUStats (dom : virDomain) : M CPUStats :=
  lv_read (UUIDString dom) QGetCPUStats
    (fun d => if d_running d then Ok (d_cpu d) else Raise LibvirtError).
Definition memoryStats (dom : virDomain) : M MemoryStats :=
  lv_read (UUIDString dom) QMemoryStats
    (fun d => if d_running d then Ok (d_mem d) else Raise LibvirtError).

(** [virDomain.pinVcpu(vcpu, cpumap)]: changes the live pinning of one
    vCPU, on a running domain only. *)
Definition pinVcpu (dom : virDomain) (vcpu : nat) (cpumap : list bool) : M unit :=
  emit (LvPinVcpu (UUIDString dom) vcpu cpumap) ;;;
  fun w => match conn w !! UUIDString dom with
           | Some d =>
               if d_running d
               then (Ok tt, with_conn w (<[UUIDString dom :=
                       with_vcpuPinInfo d (<[vcpu := cpumap]> (d_vcpuPinInfo d))]> (conn w)))
               else (Raise LibvirtError, w)
           | None => (Raise LibvirtError, w)
           end.

(** [conn.defineXML(xml)]: replaces the persistent definition of the domain
    the document describes; the running domain is not affected. *)
Definition defineXML (xml : Descriptor) : M unit :=
  emit (LvDefineXML xml) ;;;
  fun w => (Ok tt, with_conn w (alter (fun d => with_defined d xml) (xml_uuid xml) (conn w))).

(** *** Objects *)

(** Read the object behind a reference. *)
Definition deref (vm : nat) : M DomainEntity :=
  fun w => match heap w !! vm with
           | Some e => (Ok e, w)
           | None => (Raise DanglingReference, w)
           end.

(** Allocate a new object. *)
Definition alloc (e : DomainEntity) : M nat :=
  fun w => (Ok (length (heap w)), with_heap w (heap w ++ [e])).

(** [vm.set_time(...)]: the object is changed where it is. *)
Definition vm_set_time (vm : nat) (epoch_ns : Z) (total system user : N) : M unit :=
  fun w => match heap w !! vm with
           | Some e => (Ok tt, with_heap w (<[vm := set_time e epoch_ns total system user]> (heap w)))
           | None => (Raise DanglingReference, w)
           end.

(** [uuid in self.cache_entity] *)
Definition cache_contains (uuid : string) : M bool :=
  fun w => (Ok (bool_decide (is_Some (cache_entity w !! uuid))), w).

(** [self.cache_entity[uuid]] *)
Definition cache_getitem (uuid : string) : M nat :=
  fun w => match cache_entity w !! uuid with
           | Some vm => (Ok vm, w)
           | None => (Raise KeyError, w)
           end.

(** [self.cache_entity[uuid] = vm] *)
Definition cache_setitem (uuid : string) (vm : nat) : M unit :=
  fun w => (Ok tt, with_cache_entity w (<[uuid := vm]> (cache_entity w))).

Section Vmpinning.

(** The ratio the metadata manager generates when the descriptor has none.
    Its value is decided in [libvirtxmlmodifier.py]. *)
Variable default_cpu_ratio : Q.

(** Modelled from the spec: [xmlDomainMetaData.convert_to_object()], of the
    same module: read the ratio of the descriptor; when there is none,
    generate the default, put it in the descriptor and remember that the
    descriptor was changed. *)
Definition convert_to_object (m : xmlDomainMetaData) : xmlDomainMetaData :=
  match xml_oversub_cpu (xml_as_str m) with
  | Some r =>
      {| xml_as_str := xml_as_str m; oversub_cpu := Some r; was_updated := was_updated m |}
  | None =>
      {| xml_as_str := {| xml_uuid := xml_uuid (xml_as_str m);
                          xml_oversub_cpu := Some default_cpu_ratio |};
         oversub_cpu := Some default_cpu_ratio;
         was_updated := true |}
  end.

(** ** class LibvirtConnector *)

Definition warning_no_oversubscription (name : string) : string :=
  ("Warning, no oversubscription found on domain" ++ " " ++ name ++ " "
   ++ ": defaults were generated")%string.

(** [LibvirtConnector.convert_to_entitydomain] *)
Definition convert_to_entitydomain (virDomain : virDomain) (force_update : bool)
  : M nat :=
  (* Cache management *)
  let uuid := UUIDString virDomain in
  cached <- (if negb force_update then cache_contains uuid else ret false) ;;
  if cached then cache_getitem uuid
  else
    (* General info *)
    name <- lv_name virDomain ;;
    mem <- maxMemory virDomain ;;
    cpu <- maxVcpus virDomain ;;
    cpu_pin <- vcpuPinInfo virDomain ;;
    (* Custom metadata *)
    xml <- XMLDesc virDomain ;;
    let xml_manager := convert_to_object (xmlDomainMetaData_init xml) in
    (if updated xml_manager
     then defineXML (convert_to_str_xml xml_manager) ;;;
          print (warning_no_oversubscription name)
     else ret tt) ;;;
    cpu_ratio <- lift (get_oversub_ratios_cpu xml_manager) ;;
    (* Build entity *)
    vm <- alloc (new_DomainEntity uuid name mem cpu cpu_pin cpu_ratio) ;;
    cache_setitem uuid vm ;;;
    cache_getitem uuid.

(** The test of [update_cpu_pinning]:
    [for vcpu_pin in vm_pin: if vcpu_pin != template_pin: update_needed = True; break] *)
Fixpoint update_needed (vm_pin : list (list bool)) (template_pin : list bool) : bool :=
  match vm_pin with
  | [] => false
  | vcpu_pin :: rest =>
      if bool_decide (vcpu_pin ≠ template_pin) then true
      else update_needed rest template_pin
  end.

(** [LibvirtConnector.update_cpu_pinning] *)
Definition update_cpu_pinning (vm : nat) (template_pin : list bool) : M unit :=
  (* Retrieve VM *)
  e <- deref vm ;;
  virDomain <- lookupByUUIDString (get_uuid e) ;;
  vm_pin <- vcpuPinInfo virDomain ;;
  (* Update *)
  if update_needed vm_pin template_pin
  then for_each (seq 0 (length vm_pin)) (fun vcpu => pinVcpu virDomain vcpu template_pin)
  else ret tt.

(** [LibvirtConnector.cache_purge] *)
Definition cache_purge : M unit :=
  fun w => (Ok tt, with_cache_entity w ∅).

(** [LibvirtConnector.get_usage_cpu] *)
Definition get_usage_cpu (vm : nat) : M (option Q) :=
  e <- deref vm ;;
  virDomain <- lookupByUUIDString (get_uuid e) ;;
  epoch_ns <- time_ns ;;
  stats <- try_except_libvirtError (getCPUStats virDomain)
             (raise ConsumerNotAlived) ;;   (* VM is not alived *)
  let total := cpu_time stats in
  let system := system_time stats in
  let user := user_time stats in
  e <- deref vm ;;
  cpu_usage_norm <-
    match get_time e with
    | Some (prev_epoch, prev_total, prev_system, prev_user) =>   (* Compute delta *)
        cpu_usage <- lift (int_truediv (Z.of_N total - Z.of_N prev_total)
                                       (epoch_ns - prev_epoch)) ;;
        cpu_usage_norm <- lift (float_truediv cpu_usage (get_cpu e)) ;;
        ret (Some (if Qgtb cpu_usage_norm 1 then 1%Q else cpu_usage_norm))
    | None => ret None
    end ;;
  vm_set_time vm epoch_ns total system user ;;;
  ret cpu_usage_norm.

(** [LibvirtConnector.get_usage_mem] *)
Definition get_usage_mem (vm : nat) : M Q :=
  e <- deref vm ;;
  virDomain <- lookupByUUIDString (get_uuid e) ;;
  stats <- try_except_libvirtError (memoryStats virDomain)
             (raise ConsumerNotAlived) ;;   (* VM is not alived *)
  usage <- lift (int_truediv (Z.of_N (rss stats)) (Z.of_N (actual stats))) ;;
  if Qgtb usage 1 then ret 1%Q else ret usage.

(** ** class SchedulerLocal *)

(** [SchedulerLocal.__iteration]: the pool is an outside collaborator, its
    call is recorded with its argument. *)
Definition iteration (time_since_launch : Z) : M unit :=
  emit (PoolIterate time_since_launch).

(** [time.sleep(seconds)] *)
Definition sleep (seconds : Q) : M unit := emit (Sleep seconds).

Definition ns_per_s : Z := 10 ^ 9.

(** [int((time_begin-launch_at)/(10**9))]: the quotient of the two
    integers is a float, the binary64 nearest to the exact quotient, and
    [int] cuts its fraction off. *)
Definition time_since_launch (launch_at time_begin : Z) : Z :=
  py_int (b64_round (inject_Z (time_begin - launch_at) / inject_Z ns_per_s)).

(** One turn of the [while True] of [SchedulerLocal.run]. *)
Definition run_iteration (delay : Q) (launch_at : Z) : M unit :=
  time_begin <- time_ns ;;
  iteration (time_since_launch launch_at time_begin) ;;;
  time_end <- time_ns ;;
  let time_to_sleep := (delay * inject_Z ns_per_s - inject_Z (time_end - time_begin))%Q in
  if Qgtb time_to_sleep 0
  then sleep (Qred (time_to_sleep / inject_Z ns_per_s))
  else emit (StdoutOverlap (Qred (- (time_to_sleep / inject_Z ns_per_s)))).

(** The first [n] turns of the loop. *)
Fixpoint run_loop (delay : Q) (launch_at : Z) (n : nat) : M unit :=
  match n with
  | O => ret tt
  | S n' => run_iteration delay launch_at ;;; run_loop delay launch_at n'
  end.

(** [SchedulerLocal.run], followed for [n] turns of its loop; the loop of
    the source has no exit. *)
Definition run (delay : Q) (n : nat) : M unit :=
  launch_at <- time_ns ;;
  run_loop delay launch_at n.

End Vmpinning.

(** ** Reading the trace *)

(** The pin-mask writes issued, in order. *)
Definition pin_writes (t : list Event) : list (string * nat * list bool) :=
  flat_map (fun ev => match ev with
                      | LvPinVcpu uuid vcpu cpumap => [(uuid, vcpu, cpumap)]
                      | _ => []
                      end) t.

(** The descriptor writes issued, in order. *)
Definition xml_writes (t : list Event) : list Descriptor :=
  flat_map (fun ev => match ev with LvDefineXML xml => [xml] | _ => [] end) t.

(** The lines printed, in order. *)
Definition stdout_lines (t : list Event) : list string :=
  flat_map (fun ev => match ev with Stdout line => [line] | _ => [] end) t.

(** The reads the hypervisor was asked, in order. *)
Definition lv_reads (t : list Event) : list (string * LvQuery) :=
  flat_map (fun ev => match ev with LvRead uuid q => [(uuid, q)] | _ => [] end) t.

(** The ratio an entity built from descriptor [xml] carries. *)
Definition resolved_cpu_ratio (default_cpu_ratio : Q) (xml : Descriptor) : Q :=
  match xml_oversub_cpu xml with
  | Some r => r
  | None => default_cpu_ratio
  end.

(** ** What the methods leave behind *)

(** What a resolution that goes to the hypervisor leaves behind. *)
Definition resolved_world (default_cpu_ratio : Q) (uuid : string) (d : Domain)
    (w : World) : World :=
  let xml := d_XMLDesc d in
  let generated := {| xml_uuid := xml_uuid xml; xml_oversub_cpu := Some default_cpu_ratio |} in
  let absent := bool_decide (xml_oversub_cpu xml = None) in
  {| conn := if absent
             then alter (fun d' => with_defined d' generated) (xml_uuid xml) (conn w)
             else conn w;
     heap := heap w ++ [new_DomainEntity uuid (d_name d) (d_maxMemory d) (d_maxVcpus d)
                          (d_vcpuPinInfo d) (resolved_cpu_ratio default_cpu_ratio xml)];
     cache_entity := <[uuid := length (heap w)]> (cache_entity w);
     clock := clock w;
     clock_reads := clock_reads w;
     trace := trace w
              ++ [LvRead uuid QName; LvRead uuid QMaxMemory; LvRead uuid QMaxVcpus;
                  LvRead uuid QVcpuPinInfo; LvRead uuid QXMLDesc]
              ++ (if absent
                  then [LvDefineXML generated;
                        Stdout (warning_no_oversubscription (d_name d))]
                  else []) |}.

Definition generates_default (virDomain : virDomain) (force_update : bool)
    (w : World) : Prop :=
  exists d : Domain,
    conn w !! UUIDString virDomain = Some d /\
    xml_oversub_cpu (d_XMLDesc d) = None /\
    (force_update = true \/ cache_entity w !! UUIDString virDomain = None).

(** The state after the two libvirt calls and the clock reading of
    [get_usage_cpu]. *)
Definition cpu_queried (uuid : string) (w : World) : World :=
  {| conn := conn w; heap := heap w; cache_entity := cache_entity w;
     clock := clock w; clock_reads := S (clock_reads w);
     trace := trace w ++ [LvRead uuid QLookupByUUIDString; LvRead uuid QGetCPUStats] |}.

(** The state after the two libvirt calls of [get_usage_mem]. *)
Definition mem_queried (uuid : string) (w : World) : World :=
  with_trace w (trace w ++ [LvRead uuid QLookupByUUIDString; LvRead uuid QMemoryStats]).

(** The value [get_usage_cpu] computes from the stored sample and the new
    reading, before it is stored. *)
Definition cpu_usage_of (e : DomainEntity) (epoch_ns : Z) (total : N)
  : result (option Q) :=
  match get_time e with
  | Some (prev_epoch, prev_total, _, _) =>
      match int_truediv (Z.of_N total - Z.of_N prev_total) (epoch_ns - prev_epoch) with
      | Ok cpu_usage =>
          match float_truediv cpu_usage (get_cpu e) with
          | Ok cpu_usage_norm =>
              Ok (Some (if Qgtb cpu_usage_norm 1 then 1%Q else cpu_usage_norm))
          | Raise ex => Raise ex
          end
      | Raise ex => Raise ex
      end
  | None => Ok None
  end.

(** The pinning of a domain after the vCPUs of [vcpus] were pinned to
    [template_pin], one after the other. *)
Definition pinned (template_pin : list bool) (vcpus : list nat)
    (pin : list (list bool)) : list (list bool) :=
  foldl (fun pin vcpu => <[vcpu := template_pin]> pin) pin vcpus.

(** What one turn of the loop does after the pool has returned, from the
    two clock readings of the turn. *)
Definition budget_event (delay : Q) (time_begin time_end : Z) : Event :=
  let time_to_sleep := (delay * inject_Z ns_per_s - inject_Z (time_end - time_begin))%Q in
  if Qgtb time_to_sleep 0
  then Sleep (Qred (time_to_sleep / inject_Z ns_per_s))
  else StdoutOverlap (Qred (- (time_to_sleep / inject_Z ns_per_s))).

(** The state [n] clock readings later, with [evs] added to the trace. *)
Definition later (w : World) (n : nat) (evs : list Event) : World :=
  {| conn := conn w; heap := heap w; cache_entity := cache_entity w;
     clock := clock w; clock_reads := n + clock_reads w;
     trace := trace w ++ evs |}.

(** The events of turns [first .. first + n - 1] of the loop, the reading
    [k] being the launch reading. *)
Fixpoint loop_events (delay : Q) (clock : nat -> Z) (k : nat) (first n : nat)
  : list Event :=
  match n with
  | O => []
  | S n' =>
      [PoolIterate (time_since_launch (clock k) (clock (k + 2 * first + 1)%nat));
       budget_event delay (clock (k + 2 * first + 1)%nat) (clock (k + 2 * first + 2)%nat)]
      ++ loop_events delay clock k (S first) n'
  end.

(** ** Sample states *)

Definition uuid1 : string := "9f1c2d5e-vm1".

Definition pin01 : list bool := [true; true; false; false].

Definition pin23 : list bool := [false; false; true; true].

(** A VM with two vCPUs, both pinned to cores 0 and 1, with no
    oversubscription ratio in its descriptor. *)
Definition domain1 (running : bool) (cpu_time_ns : N) : Domain :=
  {| d_name := "vm1"; d_maxMemory := 1048576; d_maxVcpus := 2;
     d_vcpuPinInfo := [pin01; pin01];
     d_XMLDesc := {| xml_uuid := uuid1; xml_oversub_cpu := None |};
     d_defined := {| xml_uuid := uuid1; xml_oversub_cpu := None |};
     d_running := running;
     d_cpu := {| cpu_time := cpu_time_ns; system_time := 0; user_time := 0 |};
     d_mem := {| rss := 3145728; actual := 2097152 |} |}.

Definition entity1 : DomainEntity :=
  new_DomainEntity uuid1 "vm1" 1048576 2 [pin01; pin01] 1.

(** [entity1] after a usage read at second 100, the VM having used 50 s of
    CPU. *)
Definition entity1_sampled : DomainEntity :=
  set_time entity1 100000000000 50000000000 0 0.

(** One VM, its entity cached, the wall clock at [now]. *)
Definition world1 (d : Domain) (e : DomainEntity) (now : Z) : World :=
  {| conn := {[ uuid1 := d ]}; heap := [e]; cache_entity := {[ uuid1 := 0%nat ]};
     clock := fun _ => now; clock_reads := 0; trace := [] |}.

(** The VM was shut down and started again after the sample was taken: it
    runs, and its CPU-time counter has started again from zero (1 s used,
    one second after the sample). The entity is still the cached one. *)
Definition world_restarted : World :=
  world1 (domain1 true 1000000000) entity1_sampled 101000000000.

(** The VM was enumerated and sampled while it ran; it has stopped since
    and the hypervisor has no domain of that UUID any more (a transient
    domain is dropped when it stops, a persistent one may be undefined).
    The entity is still the cached one. *)
Definition world_vanished : World :=
  {| conn := ∅; heap := [entity1_sampled]; cache_entity := {[ uuid1 := 0%nat ]};
     clock := fun _ => 101000000000%Z; clock_reads := 0; trace := [] |}.

(** The hypervisor knows the VM, nothing is cached yet. *)
Definition world_uncached : World :=
  {| conn := {[ uuid1 := domain1 true 1000000000 ]}; heap := []; cache_entity := ∅;
     clock := fun _ => 0%Z; clock_reads := 0; trace := [] |}.

(** A loop whose first pool call takes 1.5 s and whose second takes 0.2 s:
    the readings of [time.time_ns()], in order. *)
Definition world_overrun : World :=
  {| conn := ∅; heap := []; cache_entity := ∅;
     clock := fun k => nth k [0; 0; 1500000000; 1500000000; 1700000000]%Z 0%Z;
     clock_reads := 0; trace := [] |}.

(** ** Enumerating the domains *)

(** [[f(x) for x in l]] *)
Fixpoint map_M {A B : Type} (f : A -> M B) (l : list A) : M (list B) :=
  match l with
  | [] => ret []
  | x :: rest =>
      y <- f x ;;
      ys <- map_M f rest ;;
      ret (y :: ys)
  end.

Definition is_running (ud : string * Domain) : bool := d_running (snd ud).

Definition handle_of (ud : string * Domain) : virDomain := {| UUIDString := fst ud |}.

Section Enumeration.

(** The id that libvirt has given to the running domain of a UUID. *)
Variable domain_id : string -> Z.

(** The ratio of the metadata manager, as above. *)
Variable default_cpu_ratio : Q.

(** [conn.listDomainsID()]: the ids of the running domains, in the order
    in which the hypervisor lists its domains. The four enumeration calls
    are not recorded in the trace. *)
Definition listDomainsID : M (list Z) :=
  fun w => (Ok ((fun ud => domain_id (fst ud))
                <$> filter (fun ud => is_running ud = true) (map_to_list (conn w))), w).

(** [conn.lookupByID(vmid)] *)
Definition lookupByID (vmid : Z) : M virDomain :=
  fun w => match List.find (fun ud => is_running ud && (domain_id (fst ud) =? vmid)%Z)
                   (map_to_list (conn w)) with
           | Some ud => (Ok (handle_of ud), w)
           | None => (Raise LibvirtError, w)
           end.

(** [conn.listDefinedDomains()]: the names of the defined domains that do
    not run. *)
Definition listDefinedDomains : M (list string) :=
  fun w => (Ok ((fun ud => d_name (snd ud))
                <$> filter (fun ud => is_running ud = false) (map_to_list (conn w))), w).

(** [conn.lookupByName(name)] *)
Definition lookupByName (name : string) : M virDomain :=
  fun w => match List.find (fun ud => String.eqb (d_name (snd ud)) name)
                   (map_to_list (conn w)) with
           | Some ud => (Ok (handle_of ud), w)
           | None => (Raise LibvirtError, w)
           end.

(** [LibvirtConnector.get_vm_alive] *)
Definition get_vm_alive : M (list virDomain) :=
  ids <- listDomainsID ;;
  map_M lookupByID ids.

(** [LibvirtConnector.get_vm_alive_as_entity] *)
Definition get_vm_alive_as_entity : M (list nat) :=
  vms <- get_vm_alive ;;
  map_M (fun vm_virDomain => convert_to_entitydomain default_cpu_ratio vm_virDomain false) vms.

(** [LibvirtConnector.get_vm_shutdown] *)
Definition get_vm_shutdown : M (list virDomain) :=
  names <- listDefinedDomains ;;
  map_M lookupByName names.

(** [LibvirtConnector.get_all_vm] *)
Definition get_all_vm : M (list virDomain) :=
  vm_list <- get_vm_alive ;;
  more <- get_vm_shutdown ;;
  ret (vm_list ++ more).

(** libvirt gives different ids to different running domains. *)
Definition ids_unique (w : World) : Prop :=
  forall (u1 u2 : string) (d1 d2 : Domain),
    conn w !! u1 = Some d1 -> conn w !! u2 = Some d2 ->
    d_running d1 = true -> d_running d2 = true ->
    domain_id u1 = domain_id u2 -> u1 = u2.

End Enumeration.

(** libvirt keeps the names of the defined domains different. *)
Definition names_unique (w : World) : Prop :=
  forall (u1 u2 : string) (d1 d2 : Domain),
    conn w !! u1 = Some d1 -> conn w !! u2 = Some d2 ->
    d_name d1 = d_name d2 -> u1 = u2.

(** Every running VM has its entity in the cache. *)
Definition running_cached (w : World) : Prop :=
  forall (u : string) (d : Domain),
    conn w !! u = Some d -> d_running d = true -> is_Some (cache_entity w !! u).

(** ** Constructing the scheduler *)

Section Construction.

(** The Python objects passed as keyword arguments. *)
Variable V : Type.

Inductive ctor_exn : Type :=
| ValueError (message : string) (arguments : list string)
| KeyErrorOn (key : string).

(** What an attribute of the new object holds: an object that was passed
    as a keyword argument, or one of the two collaborators the constructor
    builds, known by the arguments it was built from. *)
Inductive attr_value : Type :=
| Passed (v : V)
| SubsetManagerPoolObject (kwargs : gmap string V)
| ApiEndpointObject (subset_manager_pool : attr_value) (api_url api_port : V).

(** The calls to the outside collaborators; as for the pool in [run], a
    call is recorded and returns. *)
Inductive ctor_event : Type :=
| NewSubsetManagerPool (kwargs : gmap string V)   (* SubsetManagerPool, given every keyword argument *)
| NewApiEndpoint (subset_manager_pool : attr_value) (api_url api_port : V)
| ApiEndpointRun (api_endpoint : attr_value).      (* self.api_endpoint.run() *)

Definition req_attributes : list string :=
  ["cpuset"%string; "memset"%string; "connector"%string; "delay"%string].

(** [[for req_attribute in req_attributes:
        if req_attribute not in kwargs: raise ValueError('Missing required argument', req_attributes)
        setattr(self, req_attribute, kwargs[req_attribute])]]
    on the attributes [self] has so far. *)
Fixpoint set_required (todo : list string) (kwargs : gmap string V)
    (self : gmap string attr_value) : ctor_exn + gmap string attr_value :=
  match todo with
  | [] => inr self
  | req_attribute :: rest =>
      match kwargs !! req_attribute with
      | None => inl (ValueError "Missing required argument" req_attributes)
      | Some v => set_required rest kwargs (<[req_attribute := Passed v]> self)
      end
  end.

(** [SchedulerLocal.__init__]: the outcome (the exception, or the
    attributes of the object) and the calls made. [self.managers_pool] is
    set before the arguments of [ApiEndpoint] are evaluated, and these are
    evaluated in the order written: the pool attribute, [kwargs['api_url']],
    [kwargs['api_port']]. *)
Definition SchedulerLocal_init (kwargs : gmap string V)
  : (ctor_exn + gmap string attr_value) * list ctor_event :=
  match set_required req_attributes kwargs ∅ with
  | inl ex => (inl ex, [])
  | inr self =>
      let managers_pool := SubsetManagerPoolObject kwargs in
      let self := <["managers_pool"%string := managers_pool]> self in
      match kwargs !! "api_url"%string with
      | None => (inl (KeyErrorOn "api_url"), [NewSubsetManagerPool kwargs])
      | Some api_url =>
          match kwargs !! "api_port"%string with
          | None => (inl (KeyErrorOn "api_port"), [NewSubsetManagerPool kwargs])
          | Some api_port =>
              let api_endpoint := ApiEndpointObject managers_pool api_url api_port in
              let self := <["api_endpoint"%string := api_endpoint]> self in
              (inr self,
               [NewSubsetManagerPool kwargs;
                NewApiEndpoint managers_pool api_url api_port;
                ApiEndpointRun api_endpoint])
          end
      end
  end.

End Construction.

Arguments Passed {V} v.
Arguments SubsetManagerPoolObject {V} kwargs.
Arguments ApiEndpointObject {V} subset_manager_pool api_url api_port.
Arguments NewSubsetManagerPool {V} kwargs.
Arguments NewApiEndpoint {V} subset_manager_pool api_url api_port.
Arguments ApiEndpointRun {V} api_endpoint.

(** ** Well-formed states and more readings of the trace *)

(** Every cached reference leads to an entity of the store, and that entity
    is the one of the UUID it is cached under. *)
Definition cache_wf (w : World) : Prop :=
  forall (uuid : string) (vm : nat),
    cache_entity w !! uuid = Some vm ->
    exists e : DomainEntity, heap w !! vm = Some e /\ get_uuid e = uuid.

(** The arguments of the pool calls, in order. *)
Definition pool_timestamps (t : list Event) : list Z :=
  flat_map (fun ev => match ev with PoolIterate ts => [ts] | _ => [] end) t.

(** The arguments of the [time.sleep] calls, in order. *)
Definition sleeps (t : list Event) : list Q :=
  flat_map (fun ev => match ev with Sleep s => [s] | _ => [] end) t.

(** The overlaps printed, in order. *)
Definition overlaps (t : list Event) : list Q :=
  flat_map (fun ev => match ev with StdoutOverlap s => [s] | _ => [] end) t.

(** ** More sample states *)

(** The state of a second usage read: the entity holds the sample of a
    first read (clock 7 ns, counter at 1 s), four seconds have passed and
    the VM has used one more second of CPU. *)
Definition world_second_call : World :=
  {| conn := {[ uuid1 := domain1 true 2000000000 ]};
     heap := [set_time entity1 7 1000000000 0 0];
     cache_entity := {[ uuid1 := 0%nat ]};
     clock := fun _ => 4000000007%Z; clock_reads := 1; trace := [] |}.

(** A loop under a clock that advances 0.6 s from one reading to the
    next. *)
Definition world_steady : World :=
  {| conn := ∅; heap := []; cache_entity := ∅;
     clock := fun k => (Z.of_nat k * 600000000)%Z; clock_reads := 0; trace := [] |}.

(** Two VMs, the first running with id 1, the second stopped. *)
Definition uuid2 : string := "4b7a90c3-vm2".

Definition domain2 : Domain :=
  {| d_name := "vm2"; d_maxMemory := 2097152; d_maxVcpus := 1;
     d_vcpuPinInfo := [pin23];
     d_XMLDesc := {| xml_uuid := uuid2; xml_oversub_cpu := Some (2 # 1) |};
     d_defined := {| xml_uuid := uuid2; xml_oversub_cpu := Some (2 # 1) |};
     d_running := false;
     d_cpu := {| cpu_time := 0; system_time := 0; user_time := 0 |};
     d_mem := {| rss := 0; actual := 0 |} |}.

Definition world_two_vms : World :=
  {| conn := <[ uuid2 := domain2 ]> {[ uuid1 := domain1 true 1000000000 ]};
     heap := []; cache_entity := ∅;
     clock := fun _ => 0%Z; clock_reads := 0; trace := [] |}.

Definition sample_domain_id (uuid : string) : Z :=
  if String.eqb uuid uuid1 then 1 else 2.

(** * Properties *)

(** ** Pinning templates *)

Example build_cpu_pinning_2_5 :
  build_cpu_pinning [ {| cpu_id := 2 |}; {| cpu_id := 5 |} ] 8
  = Ok [false; false; true; false; false; true; false; false].
Proof. reflexivity. Qed.

(** A negative id is not refused: Python counts it from the end. *)
Example build_cpu_pinning_negative_id :
  build_cpu_pinning [ {| cpu_id := -1 |} ] 4 = Ok [false; false; false; true].
Proof. reflexivity. Qed.

Lemma py_index_in_range (len : nat) (i : Z) :
  (0 <= i < Z.of_nat len)%Z -> py_index len i = Some (Z.to_nat i).
Proof.
  intros [Hlo Hhi]. unfold py_index.
  apply Z.leb_le in Hlo. apply Z.ltb_lt in Hhi.
  now rewrite Hlo, Hhi.
Qed.

Lemma py_index_too_large (len : nat) (i : Z) :
  (Z.of_nat len <= i)%Z -> py_index len i = None.
Proof.
  intros Hge. unfold py_index.
  replace (i <? Z.of_nat len)%Z with false by (symmetry; apply Z.ltb_ge; lia).
  replace (i <? 0)%Z with false by (symmetry; apply Z.ltb_ge; lia).
  now rewrite !andb_false_r.
Qed.

Lemma py_setitem_length {A : Type} (l l' : list A) (i : Z) (x : A) :
  py_setitem l i x = Ok l' -> length l' = length l.
Proof.
  unfold py_setitem. destruct (py_index (length l) i); [|discriminate].
  intros [= <-]. apply length_insert.
Qed.

Lemma py_setitem_raises {A : Type} (l : list A) (i : Z) (x : A) (e : exn) :
  py_setitem l i x = Raise e -> e = IndexError.
Proof.
  unfold py_setitem. destruct (py_index (length l) i); [discriminate|].
  now intros [= <-].
Qed.

(** Inside the range, the loop marks the ids of the list and keeps the
    rest of the template. *)
Lemma pin_authorised_in_range (cpu_list : list ServerCPU) (template_pin : list bool) :
  Forall (fun cpu => (0 <= get_cpu_id cpu < Z.of_nat (length template_pin))%Z) cpu_list ->
  exists template,
    pin_authorised cpu_list template_pin = Ok template /\
    length template = length template_pin /\
    forall (i : nat) (b : bool), template_pin !! i = Some b ->
      template !! i = Some (b || bool_decide (Z.of_nat i ∈ get_cpu_id <$> cpu_list)).
Proof.
  revert template_pin. induction cpu_list as [|cpu rest IH]; intros template_pin Hall.
  - exists template_pin. split; [reflexivity|]. split; [reflexivity|].
    intros i b Hi. rewrite Hi. f_equal. cbn.
    rewrite bool_decide_eq_false_2 by (apply not_elem_of_nil). now rewrite orb_false_r.
  - apply Forall_cons in Hall as [Hcpu Hrest]. cbn [pin_authorised].
    unfold py_setitem. rewrite (py_index_in_range _ _ Hcpu).
    destruct (IH (<[Z.to_nat (get_cpu_id cpu) := true]> template_pin)) as (t & Hrun & Hlen & Hget).
    { now rewrite length_insert. }
    exists t. rewrite Hrun. split; [reflexivity|]. split.
    { now rewrite Hlen, length_insert. }
    intros i b Hi. rewrite fmap_cons.
    destruct (decide (i = Z.to_nat (get_cpu_id cpu))) as [->|Hne].
    + erewrite Hget; last first.
      { apply list_lookup_insert_eq. now apply lookup_lt_Some in Hi. }
      f_equal. rewrite (bool_decide_eq_true_2 (_ ∈ _ :: _)).
      * now rewrite orb_true_r.
      * rewrite Z2Nat.id by lia. apply list_elem_of_here.
    + erewrite Hget; last first.
      { rewrite list_lookup_insert_ne by congruence. exact Hi. }
      f_equal. f_equal. apply bool_decide_ext. rewrite elem_of_cons.
      split; [tauto|]. intros [Heq|Hin]; [|exact Hin].
      exfalso. apply Hne. rewrite <- Heq. now rewrite Nat2Z.id.
Qed.

Lemma py_index_beyond_core_count (host_config i : Z) :
  (host_config <= i)%Z -> py_index (Z.to_nat host_config) i = None.
Proof.
  intros Hge. destruct (Z.le_gt_cases 0 host_config) as [Hpos|Hneg].
  - apply py_index_too_large. rewrite Z2Nat.id; lia.
  - replace (Z.to_nat host_config) with 0%nat by lia.
    unfold py_index. change (- Z.of_nat 0)%Z with 0%Z. change (Z.of_nat 0) with 0%Z.
    destruct (0 <=? i)%Z eqn:H0, (i <? 0)%Z eqn:H1; try reflexivity.
    apply Z.leb_le in H0. apply Z.ltb_lt in H1. lia.
Qed.

(** An id that is no index of the template stops the loop with an
    [IndexError], wherever it stands in the list. *)
Lemma pin_authorised_out_of_range (cpu_list : list ServerCPU) (template_pin : list bool) :
  Exists (fun cpu => py_index (length template_pin) (get_cpu_id cpu) = None) cpu_list ->
  pin_authorised cpu_list template_pin = Raise IndexError.
Proof.
  revert template_pin. induction cpu_list as [|cpu rest IH]; intros template_pin Hex.
  - now apply Exists_nil in Hex.
  - cbn [pin_authorised].
    destruct (py_setitem template_pin (get_cpu_id cpu) true) as [t|e] eqn:Hset.
    + apply Exists_cons in Hex as [Hcpu|Hrest].
      * unfold py_setitem in Hset. now rewrite Hcpu in Hset.
      * apply IH. now rewrite (py_setitem_length _ _ _ _ Hset).
    + now rewrite (py_setitem_raises _ _ _ _ Hset).
Qed.

(** C5. [build_cpu_pinning] is a function of its two arguments alone. When
    every id of the authorised list is a core of the host
    ([0 <= id < host_config]) it returns a boolean vector of length
    [host_config] that is true exactly at the ids of the list; when some id
    is [>= host_config] it raises [IndexError] and returns no template. *)
Theorem build_cpu_pinning_template (cpu_list : list ServerCPU) (host_config : Z) :
  (Forall (fun cpu => (0 <= get_cpu_id cpu < host_config)%Z) cpu_list ->
   exists template,
     build_cpu_pinning cpu_list host_config = Ok template /\
     length template = Z.to_nat host_config /\
     forall i : nat, (i < Z.to_nat host_config)%nat ->
       template !! i = Some (bool_decide (Z.of_nat i ∈ get_cpu_id <$> cpu_list)))
  /\
  (Exists (fun cpu => (host_config <= get_cpu_id cpu)%Z) cpu_list ->
   build_cpu_pinning cpu_list host_config = Raise IndexError).
Proof.
  unfold build_cpu_pinning. split.
  - intros Hall.
    destruct (pin_authorised_in_range cpu_list (replicate (Z.to_nat host_config) false))
      as (t & Hrun & Hlen & Hget).
    { rewrite length_replicate. eapply Forall_impl; [exact Hall|].
      intros cpu ?. cbv beta in *. rewrite Z2Nat.id; lia. }
    exists t. split; [exact Hrun|]. rewrite length_replicate in Hlen.
    split; [exact Hlen|]. intros i Hi.
    rewrite (Hget i false); [reflexivity|].
    now apply lookup_replicate_2.
  - intros Hex. apply pin_authorised_out_of_range.
    rewrite length_replicate. eapply Exists_impl; [exact Hex|].
    intros cpu ?. now apply py_index_beyond_core_count.
Qed.

Lemma build_cpu_pinning_template_witness :
  (exists template,
     build_cpu_pinning [ {| cpu_id := 2 |}; {| cpu_id := 5 |} ] 8 = Ok template /\
     length template = 8%nat /\
     template !! 5%nat = Some true /\ template !! 4%nat = Some false)
  /\ build_cpu_pinning [ {| cpu_id := 2 |}; {| cpu_id := 8 |} ] 8 = Raise IndexError.
Proof.
  split.
  - destruct (proj1 (build_cpu_pinning_template
                       [ {| cpu_id := 2 |}; {| cpu_id := 5 |} ] 8))
      as (t & Hrun & Hlen & Hget).
    { repeat constructor; cbn; lia. }
    exists t. split; [exact Hrun|]. split; [exact Hlen|]. split.
    + rewrite (Hget 5%nat) by (cbn; lia). reflexivity.
    + rewrite (Hget 4%nat) by (cbn; lia). reflexivity.
  - apply (proj2 (build_cpu_pinning_template
                    [ {| cpu_id := 2 |}; {| cpu_id := 8 |} ] 8)).
    apply Exists_cons_tl, Exists_cons_hd. cbn. lia.
Defined.

(** ** Running the methods *)

Lemma bind_ok {A B : Type} (m : M A) (k : A -> M B) (w w' : World) (a : A) :
  m w = (Ok a, w') -> bind m k w = k a w'.
Proof. intros H. unfold bind. now rewrite H. Qed.

Lemma bind_raise {A B : Type} (m : M A) (k : A -> M B) (w w' : World) (e : exn) :
  m w = (Raise e, w') -> bind m k w = (Raise e, w').
Proof. intros H. unfold bind. now rewrite H. Qed.

Lemma lv_read_defined {A : Type} (uuid : string) (q : LvQuery)
    (answer : Domain -> result A) (w : World) (d : Domain) :
  conn w !! uuid = Some d ->
  lv_read uuid q answer w = (answer d, with_trace w (trace w ++ [LvRead uuid q])).
Proof. intros H. unfold lv_read, bind, emit. cbn. now rewrite H. Qed.

Lemma lv_read_undefined {A : Type} (uuid : string) (q : LvQuery)
    (answer : Domain -> result A) (w : World) :
  conn w !! uuid = None ->
  lv_read uuid q answer w = (Raise LibvirtError, with_trace w (trace w ++ [LvRead uuid q])).
Proof. intros H. unfold lv_read, bind, emit. cbn. now rewrite H. Qed.

Lemma pin_writes_app (t1 t2 : list Event) :
  pin_writes (t1 ++ t2) = pin_writes t1 ++ pin_writes t2.
Proof. unfold pin_writes. apply flat_map_app. Qed.

Lemma xml_writes_app (t1 t2 : list Event) :
  xml_writes (t1 ++ t2) = xml_writes t1 ++ xml_writes t2.
Proof. unfold xml_writes. apply flat_map_app. Qed.

Lemma stdout_lines_app (t1 t2 : list Event) :
  stdout_lines (t1 ++ t2) = stdout_lines t1 ++ stdout_lines t2.
Proof. unfold stdout_lines. apply flat_map_app. Qed.

Lemma lv_reads_app (t1 t2 : list Event) :
  lv_reads (t1 ++ t2) = lv_reads t1 ++ lv_reads t2.
Proof. unfold lv_reads. apply flat_map_app. Qed.

(** Run the libvirt read at the head of the goal, on a domain that the
    hypervisor knows by [Hd]. *)
Ltac step_read Hd :=
  match goal with
  | |- context [bind (lv_read ?u ?q ?ans) ?k ?w] =>
      rewrite (bind_ok (lv_read u q ans) k w _ _ (lv_read_defined u q ans w _ Hd));
      cbv beta
  end.

(** ** Entity resolution *)

Lemma convert_to_entitydomain_fresh (default_cpu_ratio : Q) (virDomain : virDomain)
    (force_update : bool) (w : World) (d : Domain) :
  conn w !! UUIDString virDomain = Some d ->
  force_update = true \/ cache_entity w !! UUIDString virDomain = None ->
  convert_to_entitydomain default_cpu_ratio virDomain force_update w
  = (Ok (length (heap w)), resolved_world default_cpu_ratio (UUIDString virDomain) d w).
Proof.
  intros Hd Hfresh. unfold convert_to_entitydomain.
  assert (Hc : (if negb force_update then cache_contains (UUIDString virDomain) else ret false) w
               = (Ok false, w)).
  { destruct Hfresh as [->|Hnone]; [reflexivity|].
    destruct force_update; [reflexivity|]. cbn. unfold cache_contains.
    rewrite Hnone. reflexivity. }
  rewrite (bind_ok _ _ _ _ _ Hc).
  unfold lv_name, maxMemory, maxVcpus, vcpuPinInfo, XMLDesc.
  do 5 step_read Hd.
  unfold resolved_world, resolved_cpu_ratio, convert_to_object, xmlDomainMetaData_init.
  cbn [xml_as_str].
  destruct (xml_oversub_cpu (d_XMLDesc d)) as [r|] eqn:Hr.
  - cbn. unfold cache_getitem. cbn. rewrite lookup_insert_eq.
    unfold with_cache_entity, with_heap, with_trace. cbn.
    rewrite <- !app_assoc. reflexivity.
  - cbn. unfold cache_getitem. cbn. rewrite lookup_insert_eq.
    unfold with_cache_entity, with_heap, with_trace, with_conn. cbn.
    rewrite <- !app_assoc. reflexivity.
Qed.

Lemma convert_to_entitydomain_cached (default_cpu_ratio : Q) (virDomain : virDomain)
    (w : World) (vm : nat) :
  cache_entity w !! UUIDString virDomain = Some vm ->
  convert_to_entitydomain default_cpu_ratio virDomain false w = (Ok vm, w).
Proof.
  intros Hhit. unfold convert_to_entitydomain, bind, cache_contains, cache_getitem.
  cbn. rewrite Hhit. cbn. now rewrite Hhit.
Qed.

Lemma convert_to_entitydomain_undefined (default_cpu_ratio : Q) (virDomain : virDomain)
    (force_update : bool) (w : World) :
  conn w !! UUIDString virDomain = None ->
  force_update = true \/ cache_entity w !! UUIDString virDomain = None ->
  convert_to_entitydomain default_cpu_ratio virDomain force_update w
  = (Raise LibvirtError, with_trace w (trace w ++ [LvRead (UUIDString virDomain) QName])).
Proof.
  intros Hd Hfresh. unfold convert_to_entitydomain.
  assert (Hc : (if negb force_update then cache_contains (UUIDString virDomain) else ret false) w
               = (Ok false, w)).
  { destruct Hfresh as [->|Hnone]; [reflexivity|].
    destruct force_update; [reflexivity|]. cbn. unfold cache_contains.
    rewrite Hnone. reflexivity. }
  rewrite (bind_ok _ _ _ _ _ Hc). unfold lv_name.
  apply bind_raise. now apply lv_read_undefined.
Qed.

(** Whatever the path, a resolution that returns leaves its result in the
    cache under the UUID of the handle. *)
Lemma convert_to_entitydomain_caches (default_cpu_ratio : Q) (virDomain : virDomain)
    (force_update : bool) (w w' : World) (vm : nat) :
  convert_to_entitydomain default_cpu_ratio virDomain force_update w = (Ok vm, w') ->
  cache_entity w' !! UUIDString virDomain = Some vm.
Proof.
  intros Hrun.
  assert (Hfresh_case :
    force_update = true \/ cache_entity w !! UUIDString virDomain = None ->
    cache_entity w' !! UUIDString virDomain = Some vm).
  { intros Hfresh. destruct (conn w !! UUIDString virDomain) as [d|] eqn:Hd.
    - rewrite (convert_to_entitydomain_fresh _ _ _ _ _ Hd Hfresh) in Hrun.
      injection Hrun as <- <-. cbn. apply lookup_insert_eq.
    - rewrite (convert_to_entitydomain_undefined _ _ _ _ Hd Hfresh) in Hrun.
      discriminate. }
  destruct force_update; [apply Hfresh_case; now left|].
  destruct (cache_entity w !! UUIDString virDomain) as [vm0|] eqn:Hhit.
  - rewrite (convert_to_entitydomain_cached _ _ _ _ Hhit) in Hrun.
    injection Hrun as <- <-. exact Hhit.
  - apply Hfresh_case. now right.
Qed.

(** C4. After a resolution of a handle has returned entity [vm], a
    resolution of the same UUID without [force_update] returns the very same
    reference [vm] and leaves the whole state as it was (the entity is
    unchanged, the hypervisor is asked nothing), in any later state that
    still caches [vm], whatever the hypervisor has become. With
    [force_update] the resolution returns a reference to a new object,
    populated from what the hypervisor answers now, and the cache entry of
    the UUID is overwritten with it. *)
Theorem convert_to_entitydomain_cache_identity (default_cpu_ratio : Q)
    (virDomain : virDomain) (force_update : bool) (w w1 : World) (vm : nat) :
  convert_to_entitydomain default_cpu_ratio virDomain force_update w = (Ok vm, w1) ->
  (forall w2 : World,
     cache_entity w2 !! UUIDString virDomain = cache_entity w1 !! UUIDString virDomain ->
     convert_to_entitydomain default_cpu_ratio virDomain false w2 = (Ok vm, w2))
  /\
  (forall d : Domain,
     conn w1 !! UUIDString virDomain = Some d ->
     exists (vm' : nat) (w2 : World),
       convert_to_entitydomain default_cpu_ratio virDomain true w1 = (Ok vm', w2) /\
       heap w1 !! vm' = None /\
       (is_Some (heap w1 !! vm) -> vm' <> vm) /\
       heap w2 !! vm' = Some (new_DomainEntity (UUIDString virDomain) (d_name d)
                                (d_maxMemory d) (d_maxVcpus d) (d_vcpuPinInfo d)
                                (resolved_cpu_ratio default_cpu_ratio (d_XMLDesc d))) /\
       cache_entity w2 !! UUIDString virDomain = Some vm' /\
       lv_reads (trace w2) = lv_reads (trace w1)
         ++ [(UUIDString virDomain, QName); (UUIDString virDomain, QMaxMemory);
             (UUIDString virDomain, QMaxVcpus); (UUIDString virDomain, QVcpuPinInfo);
             (UUIDString virDomain, QXMLDesc)]).
Proof.
  intros Hrun. apply convert_to_entitydomain_caches in Hrun. split.
  - intros w2 Hsame. apply convert_to_entitydomain_cached. now rewrite Hsame.
  - intros d Hd. eexists _, _. split.
    { apply (convert_to_entitydomain_fresh _ _ _ _ d Hd). now left. }
    split; [apply lookup_ge_None_2; lia|].
    split; [intros [e He]; apply lookup_lt_Some in He; lia|].
    split; [cbn; apply list_lookup_middle; reflexivity|].
    split; [cbn; apply lookup_insert_eq|].
    cbn. rewrite !lv_reads_app. cbn.
    destruct (bool_decide _); cbn; now rewrite ?app_nil_r.
Qed.

Lemma convert_to_entitydomain_cache_identity_witness :
  let first := convert_to_entitydomain 1 {| UUIDString := uuid1 |} false world_uncached in
  fst first = Ok 0%nat /\
  convert_to_entitydomain 1 {| UUIDString := uuid1 |} false (snd first)
  = (Ok 0%nat, snd first) /\
  exists w2 : World,
    convert_to_entitydomain 1 {| UUIDString := uuid1 |} true (snd first) = (Ok 1%nat, w2) /\
    cache_entity w2 !! uuid1 = Some 1%nat.
Proof.
  cbv zeta.
  destruct (convert_to_entitydomain 1 {| UUIDString := uuid1 |} false world_uncached)
    as [r w1] eqn:Hrun.
  assert (Hr : r = Ok 0%nat)
    by (apply (f_equal fst) in Hrun; vm_compute in Hrun; congruence).
  assert (Hw1 : w1 = resolved_world 1 uuid1 (domain1 true 1000000000) world_uncached).
  { apply (f_equal snd) in Hrun. cbn [snd] in Hrun. rewrite <- Hrun.
    now rewrite (convert_to_entitydomain_fresh 1 {| UUIDString := uuid1 |} false
                   world_uncached (domain1 true 1000000000) eq_refl (or_intror eq_refl)). }
  subst r.
  destruct (convert_to_entitydomain_cache_identity 1 {| UUIDString := uuid1 |} false
              world_uncached w1 0 Hrun) as [Hagain Hforce].
  split; [reflexivity|]. split; [exact (Hagain w1 eq_refl)|].
  destruct (Hforce (with_defined (domain1 true 1000000000)
                      {| xml_uuid := uuid1; xml_oversub_cpu := Some 1%Q |}))
    as (vm' & w2 & Hrun2 & Hnone & _ & _ & Hcache & _).
  { rewrite Hw1. reflexivity. }
  assert (Hvm' : vm' = 1%nat).
  { pose proof (f_equal fst Hrun2) as Hv. rewrite Hw1 in Hv.
    vm_compute in Hv. congruence. }
  subst vm'. exists w2. split; [exact Hrun2|exact Hcache].
Defined.

(** C6. A resolution that goes to the hypervisor (forced, or of a UUID that
    is not cached) for a VM whose descriptor has no oversubscription ratio
    returns an entity that carries the generated default ratio, issues
    exactly one descriptor write (the descriptor with the default in it) and
    prints exactly one warning, which names the VM. In every other case of
    the method (cached entity returned, descriptor with a ratio, VM unknown
    to the hypervisor) no descriptor write is issued. *)
Theorem convert_to_entitydomain_default_ratio (default_cpu_ratio : Q)
    (virDomain : virDomain) (force_update : bool) (w : World) :
  let r := convert_to_entitydomain default_cpu_ratio virDomain force_update w in
  (forall d : Domain,
     conn w !! UUIDString virDomain = Some d ->
     xml_oversub_cpu (d_XMLDesc d) = None ->
     force_update = true \/ cache_entity w !! UUIDString virDomain = None ->
     exists (vm : nat) (e : DomainEntity),
       fst r = Ok vm /\
       heap (snd r) !! vm = Some e /\
       de_cpu_ratio e = default_cpu_ratio /\
       xml_writes (trace (snd r))
       = xml_writes (trace w)
           ++ [ {| xml_uuid := xml_uuid (d_XMLDesc d);
                   xml_oversub_cpu := Some default_cpu_ratio |} ] /\
       stdout_lines (trace (snd r))
       = stdout_lines (trace w) ++ [warning_no_oversubscription (d_name d)])
  /\
  (~ generates_default virDomain force_update w ->
   xml_writes (trace (snd r)) = xml_writes (trace w) /\
   stdout_lines (trace (snd r)) = stdout_lines (trace w)).
Proof.
  cbv zeta. split.
  - intros d Hd Habsent Hfresh.
    rewrite (convert_to_entitydomain_fresh _ _ _ _ d Hd Hfresh).
    eexists _, _. split; [reflexivity|].
    split; [cbn; apply list_lookup_middle; reflexivity|].
    split; [cbn; unfold resolved_cpu_ratio; now rewrite Habsent|].
    cbn. rewrite Habsent, !xml_writes_app, !stdout_lines_app. cbn.
    now rewrite ?app_nil_r.
  - intros Hnot.
    assert (Hfresh_case :
      force_update = true \/ cache_entity w !! UUIDString virDomain = None ->
      xml_writes (trace (snd (convert_to_entitydomain default_cpu_ratio virDomain
                                force_update w))) = xml_writes (trace w) /\
      stdout_lines (trace (snd (convert_to_entitydomain default_cpu_ratio virDomain
                                  force_update w))) = stdout_lines (trace w)).
    { intros Hfresh. destruct (conn w !! UUIDString virDomain) as [d|] eqn:Hd.
      - rewrite (convert_to_entitydomain_fresh _ _ _ _ d Hd Hfresh). cbn.
        destruct (xml_oversub_cpu (d_XMLDesc d)) as [ratio|] eqn:Hratio.
        + rewrite !xml_writes_app, !stdout_lines_app. cbn. now rewrite !app_nil_r.
        + exfalso. apply Hnot. now exists d.
      - rewrite (convert_to_entitydomain_undefined _ _ _ _ Hd Hfresh). cbn.
        rewrite xml_writes_app, stdout_lines_app. cbn. now rewrite !app_nil_r. }
    destruct force_update; [apply Hfresh_case; now left|].
    destruct (cache_entity w !! UUIDString virDomain) as [vm0|] eqn:Hhit.
    + now rewrite (convert_to_entitydomain_cached _ _ _ _ Hhit).
    + apply Hfresh_case. now right.
Qed.

Lemma convert_to_entitydomain_default_ratio_witness :
  (let r := convert_to_entitydomain (3 # 2) {| UUIDString := uuid1 |} false world_uncached in
   xml_writes (trace (snd r)) = [ {| xml_uuid := uuid1; xml_oversub_cpu := Some (3 # 2) |} ] /\
   stdout_lines (trace (snd r))
   = ["Warning, no oversubscription found on domain vm1 : defaults were generated"%string])
  /\
  (let r := convert_to_entitydomain (3 # 2) {| UUIDString := uuid1 |} false
              (world1 (domain1 true 0) entity1 0) in
   xml_writes (trace (snd r)) = [] /\ stdout_lines (trace (snd r)) = []).
Proof.
  split.
  - destruct (proj1 (convert_to_entitydomain_default_ratio (3 # 2) {| UUIDString := uuid1 |}
                       false world_uncached)
                (domain1 true 1000000000) eq_refl eq_refl (or_intror eq_refl))
      as (vm & e & _ & _ & _ & Hxml & Hout).
    split; [exact Hxml|exact Hout].
  - apply (proj2 (convert_to_entitydomain_default_ratio (3 # 2) {| UUIDString := uuid1 |}
                    false (world1 (domain1 true 0) entity1 0))).
    intros (d & _ & _ & [Hforce|Hmiss]); discriminate.
Defined.

(** ** Usage telemetry *)

Lemma getCPUStats_guarded (dom : virDomain) (w : World) (d : Domain) :
  conn w !! UUIDString dom = Some d ->
  try_except_libvirtError (getCPUStats dom) (raise ConsumerNotAlived) w
  = (if d_running d then Ok (d_cpu d) else Raise ConsumerNotAlived,
     with_trace w (trace w ++ [LvRead (UUIDString dom) QGetCPUStats])).
Proof.
  intros Hd. unfold try_except_libvirtError, getCPUStats.
  rewrite (lv_read_defined _ _ _ _ _ Hd). now destruct (d_running d).
Qed.

Lemma memoryStats_guarded (dom : virDomain) (w : World) (d : Domain) :
  conn w !! UUIDString dom = Some d ->
  try_except_libvirtError (memoryStats dom) (raise ConsumerNotAlived) w
  = (if d_running d then Ok (d_mem d) else Raise ConsumerNotAlived,
     with_trace w (trace w ++ [LvRead (UUIDString dom) QMemoryStats])).
Proof.
  intros Hd. unfold try_except_libvirtError, memoryStats.
  rewrite (lv_read_defined _ _ _ _ _ Hd). now destruct (d_running d).
Qed.

(** [get_usage_cpu] on a VM that runs, step by step. *)
Lemma get_usage_cpu_running (w : World) (vm : nat) (e : DomainEntity) (d : Domain) :
  heap w !! vm = Some e ->
  conn w !! get_uuid e = Some d ->
  d_running d = true ->
  get_usage_cpu vm w
  = match cpu_usage_of e (clock w (clock_reads w)) (cpu_time (d_cpu d)) with
    | Ok usage =>
        (Ok usage,
         with_heap (cpu_queried (get_uuid e) w)
           (<[vm := set_time e (clock w (clock_reads w)) (cpu_time (d_cpu d))
                      (system_time (d_cpu d)) (user_time (d_cpu d))]> (heap w)))
    | Raise ex => (Raise ex, cpu_queried (get_uuid e) w)
    end.
Proof.
  intros He Hd Hrun. unfold get_usage_cpu.
  rewrite (bind_ok (deref vm) _ w w e) by (unfold deref; now rewrite He).
  unfold lookupByUUIDString. step_read Hd.
  rewrite (bind_ok time_ns _ _ _ _ eq_refl).
  erewrite bind_ok; last first.
  { rewrite (getCPUStats_guarded _ _ d) by exact Hd. rewrite Hrun. reflexivity. }
  erewrite bind_ok; last first.
  { unfold deref. cbn. rewrite He. reflexivity. }
  unfold cpu_usage_of, cpu_queried.
  destruct (get_time e) as [[[[prev_epoch prev_total] prev_system] prev_user]|].
  - unfold bind, lift, vm_set_time, ret; cbn.
    destruct (int_truediv _ _) as [cpu_usage|ex];
      [destruct (float_truediv _ _) as [cpu_usage_norm|ex]|];
      cbn; rewrite ?He;
      unfold with_heap, with_trace, with_clock_reads; cbn; now rewrite <- app_assoc.
  - unfold bind, vm_set_time, ret. cbn. rewrite He.
    unfold with_heap, with_trace, with_clock_reads; cbn. now rewrite <- app_assoc.
Qed.

(** [get_usage_cpu] on a VM that is defined but does not run. *)
Lemma get_usage_cpu_stopped (w : World) (vm : nat) (e : DomainEntity) (d : Domain) :
  heap w !! vm = Some e ->
  conn w !! get_uuid e = Some d ->
  d_running d = false ->
  get_usage_cpu vm w = (Raise ConsumerNotAlived, cpu_queried (get_uuid e) w).
Proof.
  intros He Hd Hrun. unfold get_usage_cpu.
  rewrite (bind_ok (deref vm) _ w w e) by (unfold deref; now rewrite He).
  unfold lookupByUUIDString. step_read Hd.
  rewrite (bind_ok time_ns _ _ _ _ eq_refl).
  erewrite bind_raise; last first.
  { rewrite (getCPUStats_guarded _ _ d) by exact Hd. rewrite Hrun. reflexivity. }
  unfold cpu_queried, with_trace, with_clock_reads. cbn. now rewrite <- app_assoc.
Qed.

(** [get_usage_mem] on a VM that is defined, running or not. *)
Lemma get_usage_mem_defined (w : World) (vm : nat) (e : DomainEntity) (d : Domain) :
  heap w !! vm = Some e ->
  conn w !! get_uuid e = Some d ->
  get_usage_mem vm w
  = (if d_running d
     then match int_truediv (Z.of_N (rss (d_mem d))) (Z.of_N (actual (d_mem d))) with
          | Ok usage => Ok (if Qgtb usage 1 then 1%Q else usage)
          | Raise ex => Raise ex
          end
     else Raise ConsumerNotAlived,
     mem_queried (get_uuid e) w).
Proof.
  intros He Hd. unfold get_usage_mem.
  rewrite (bind_ok (deref vm) _ w w e) by (unfold deref; now rewrite He).
  unfold lookupByUUIDString. step_read Hd.
  assert (Hw : with_trace
                 (with_trace w (trace w ++ [LvRead (get_uuid e) QLookupByUUIDString]))
                 (trace (with_trace w (trace w ++ [LvRead (get_uuid e) QLookupByUUIDString]))
                  ++ [LvRead (get_uuid e) QMemoryStats])
               = mem_queried (get_uuid e) w).
  { unfold mem_queried, with_trace. cbn. now rewrite <- app_assoc. }
  destruct (d_running d) eqn:Hrun.
  - erewrite bind_ok; last first.
    { rewrite (memoryStats_guarded _ _ d) by exact Hd. rewrite Hrun. reflexivity. }
    cbn [UUIDString]. rewrite Hw. unfold bind, lift.
    destruct (int_truediv _ _) as [usage|ex]; [|reflexivity].
    now destruct (Qgtb usage 1).
  - erewrite bind_raise; last first.
    { rewrite (memoryStats_guarded _ _ d) by exact Hd. rewrite Hrun. reflexivity. }
    cbn [UUIDString]. now rewrite Hw.
Qed.

(** *** The clamp *)

Lemma Qgtb_true (x y : Q) : Qgtb x y = true <-> (y < x)%Q.
Proof.
  unfold Qgtb. rewrite negb_true_iff. split.
  - intros H. apply Qnot_le_lt. intros Hle. apply Qle_bool_iff in Hle. congruence.
  - intros H. destruct (Qle_bool x y) eqn:Hb; [|reflexivity].
    apply Qle_bool_iff in Hb. now apply Qlt_not_le in H.
Qed.

Lemma Qgtb_false (x y : Q) : Qgtb x y = false <-> (x <= y)%Q.
Proof. unfold Qgtb. rewrite negb_false_iff. apply Qle_bool_iff. Qed.

Lemma clamp_at_most_one (x : Q) : ((if Qgtb x 1 then 1 else x) <= 1)%Q.
Proof.
  destruct (Qgtb x 1) eqn:H; [apply Qle_refl|]. now apply Qgtb_false.
Qed.

Lemma clamp_nonneg (x : Q) : (0 <= x)%Q -> (0 <= (if Qgtb x 1 then 1 else x))%Q.
Proof. intros H. now destruct (Qgtb x 1). Qed.

Lemma clamp_is_min (x : Q) : ((if Qgtb x 1 then 1 else x) == Qmin x 1)%Q.
Proof.
  destruct (Qgtb x 1) eqn:H.
  - apply Qgtb_true in H. symmetry. apply Q.min_r. now apply Qlt_le_weak.
  - apply Qgtb_false in H. symmetry. now apply Q.min_l.
Qed.

Lemma int_truediv_nonneg (a b : Z) (q : Q) :
  (0 <= a)%Z -> (0 < b)%Z -> int_truediv a b = Ok q -> (0 <= q)%Q.
Proof.
  intros Ha Hb. unfold int_truediv. destruct (b =? 0)%Z; [discriminate|].
  intros [= <-]. rewrite Qred_correct. apply Qmult_le_0_compat.
  - unfold Qle. cbn. lia.
  - apply Qinv_le_0_compat. unfold Qle. cbn. lia.
Qed.

Lemma float_truediv_nonneg (x : Q) (b : Z) (q : Q) :
  (0 <= x)%Q -> (0 < b)%Z -> float_truediv x b = Ok q -> (0 <= q)%Q.
Proof.
  intros Hx Hb. unfold float_truediv. destruct (b =? 0)%Z; [discriminate|].
  intros [= <-]. rewrite Qred_correct. apply Qmult_le_0_compat; [exact Hx|].
  apply Qinv_le_0_compat. unfold Qle. cbn. lia.
Qed.

(** *** CPU usage *)

(** The clamp of the source bounds the result from above, always. *)
Lemma cpu_usage_of_at_most_one (e : DomainEntity) (epoch_ns : Z) (total : N) (usage : Q) :
  cpu_usage_of e epoch_ns total = Ok (Some usage) -> (usage <= 1)%Q.
Proof.
  unfold cpu_usage_of.
  destruct (get_time e) as [[[[prev_epoch prev_total] prev_system] prev_user]|];
    [|discriminate].
  destruct (int_truediv _ _) as [cpu_usage|]; [|discriminate].
  destruct (float_truediv _ _) as [cpu_usage_norm|]; [|discriminate].
  intros [= <-]. apply clamp_at_most_one.
Qed.

(** When the counter has not gone back, the clock has advanced and the VM
    has a vCPU, the value is a proportion. *)
Lemma cpu_usage_of_unit_interval (e : DomainEntity) (epoch_ns : Z) (total : N)
    (prev_epoch : Z) (prev_total prev_system prev_user : N) :
  get_time e = Some (prev_epoch, prev_total, prev_system, prev_user) ->
  (prev_total <= total)%N -> (prev_epoch < epoch_ns)%Z -> (0 < get_cpu e)%Z ->
  exists usage : Q,
    cpu_usage_of e epoch_ns total = Ok (Some usage) /\ (0 <= usage <= 1)%Q.
Proof.
  intros Ht Htotal Hepoch Hcpu. unfold cpu_usage_of. rewrite Ht.
  destruct (int_truediv _ _) as [cpu_usage|ex] eqn:H1.
  - destruct (float_truediv _ _) as [cpu_usage_norm|ex] eqn:H2.
    + eexists. split; [reflexivity|]. split; [|apply clamp_at_most_one].
      apply clamp_nonneg. eapply float_truediv_nonneg; [|exact Hcpu|exact H2].
      eapply int_truediv_nonneg; [| |exact H1]; lia.
    + unfold float_truediv in H2.
      destruct (get_cpu e =? 0)%Z eqn:Hz; [apply Z.eqb_eq in Hz; lia|discriminate].
  - unfold int_truediv in H1.
    destruct (epoch_ns - prev_epoch =? 0)%Z eqn:Hz; [apply Z.eqb_eq in Hz; lia|discriminate].
Qed.

Lemma get_usage_cpu_at_most_one (w w' : World) (vm : nat) (usage : Q) :
  get_usage_cpu vm w = (Ok (Some usage), w') -> (usage <= 1)%Q.
Proof.
  intros Hrun. destruct (heap w !! vm) as [e|] eqn:He.
  - destruct (conn w !! get_uuid e) as [d|] eqn:Hd.
    + destruct (d_running d) eqn:Hr.
      * rewrite (get_usage_cpu_running _ _ _ _ He Hd Hr) in Hrun.
        destruct (cpu_usage_of _ _ _) as [u|ex] eqn:Hu; [|discriminate].
        injection Hrun as -> _. now apply cpu_usage_of_at_most_one in Hu.
      * rewrite (get_usage_cpu_stopped _ _ _ _ He Hd Hr) in Hrun. discriminate.
    + unfold get_usage_cpu in Hrun.
      rewrite (bind_ok (deref vm) _ w w e) in Hrun by (unfold deref; now rewrite He).
      unfold lookupByUUIDString in Hrun.
      erewrite bind_raise in Hrun by (now apply lv_read_undefined). discriminate.
  - unfold get_usage_cpu in Hrun.
    erewrite bind_raise in Hrun by (unfold deref; now rewrite He). discriminate.
Qed.

Lemma get_usage_cpu_unit_interval (w : World) (vm : nat) (e : DomainEntity) (d : Domain)
    (prev_epoch : Z) (prev_total prev_system prev_user : N) :
  heap w !! vm = Some e ->
  conn w !! get_uuid e = Some d ->
  d_running d = true ->
  get_time e = Some (prev_epoch, prev_total, prev_system, prev_user) ->
  (prev_total <= cpu_time (d_cpu d))%N ->
  (prev_epoch < clock w (clock_reads w))%Z ->
  (0 < get_cpu e)%Z ->
  exists (usage : Q) (w' : World),
    get_usage_cpu vm w = (Ok (Some usage), w') /\ (0 <= usage <= 1)%Q.
Proof.
  intros He Hd Hr Ht Htotal Hepoch Hcpu.
  rewrite (get_usage_cpu_running _ _ _ _ He Hd Hr).
  destruct (cpu_usage_of_unit_interval _ _ _ _ _ _ _ Ht Htotal Hepoch Hcpu)
    as (usage & -> & Hbounds).
  now eexists _, _.
Qed.

(** C1. [get_usage_cpu] on an entity that holds a sample does not always
    return a value of [[0, 1]]: the source clamps at [1] only. On
    [world_restarted] the counter went from 50 s back to 1 s in one second,
    on two vCPUs: the call returns [-49/2]. *)
Theorem get_usage_cpu_negative_after_restart :
  has_time entity1_sampled = true /\
  fst (get_usage_cpu 0 world_restarted) = Ok (Some (-49 # 2)%Q) /\
  ~ (0 <= -49 # 2)%Q.
Proof.
  split; [reflexivity|]. split; [vm_compute; reflexivity|].
  intros H. vm_compute in H. now apply H.
Qed.

(** The division itself fails when the clock reads the same instant as the
    stored sample. *)
Example get_usage_cpu_same_instant :
  fst (get_usage_cpu 0 (world1 (domain1 true 60000000000) entity1_sampled 100000000000))
  = Raise ZeroDivisionError.
Proof. vm_compute. reflexivity. Qed.

(** C8. On an entity that holds no sample, of a VM that runs, [get_usage_cpu]
    raises nothing, returns [None], and leaves on the entity the sample it
    has just read: the clock reading and the three counters. *)
Theorem get_usage_cpu_first_call (w : World) (vm : nat) (e : DomainEntity) (d : Domain) :
  heap w !! vm = Some e ->
  has_time e = false ->
  conn w !! get_uuid e = Some d ->
  d_running d = true ->
  exists w' : World,
    get_usage_cpu vm w = (Ok None, w') /\
    heap w' !! vm = Some (set_time e (clock w (clock_reads w)) (cpu_time (d_cpu d))
                            (system_time (d_cpu d)) (user_time (d_cpu d))) /\
    (get_time <$> heap w' !! vm)
    = Some (Some (clock w (clock_reads w), cpu_time (d_cpu d),
                  system_time (d_cpu d), user_time (d_cpu d))).
Proof.
  intros He Hno Hd Hr. rewrite (get_usage_cpu_running _ _ _ _ He Hd Hr).
  unfold cpu_usage_of. unfold has_time in Hno. unfold get_time.
  destruct (de_time e); [discriminate|].
  eexists. split; [reflexivity|]. cbn.
  rewrite list_lookup_insert_eq by (now apply lookup_lt_Some in He).
  split; reflexivity.
Qed.

Lemma get_usage_cpu_first_call_witness :
  has_time entity1 = false /\
  exists w' : World,
    get_usage_cpu 0 (world1 (domain1 true 1000000000) entity1 7) = (Ok None, w') /\
    (get_time <$> heap w' !! 0%nat) = Some (Some (7%Z, 1000000000%N, 0%N, 0%N)).
Proof.
  split; [reflexivity|].
  destruct (get_usage_cpu_first_call (world1 (domain1 true 1000000000) entity1 7) 0
              entity1 (domain1 true 1000000000) eq_refl eq_refl eq_refl eq_refl)
    as (w' & Hrun & _ & Hsample).
  exists w'. split; [exact Hrun|exact Hsample].
Defined.

(** For an entity whose VM the hypervisor still knows but that does not
    run any more, [get_usage_cpu] and [get_usage_mem] both raise
    [ConsumerNotAlived], and nothing else; no sample is stored. *)
Lemma usage_of_stopped_vm_raises_ConsumerNotAlived
    (w : World) (vm : nat) (e : DomainEntity) (d : Domain) :
  heap w !! vm = Some e ->
  conn w !! get_uuid e = Some d ->
  d_running d = false ->
  fst (get_usage_cpu vm w) = Raise ConsumerNotAlived /\
  fst (get_usage_mem vm w) = Raise ConsumerNotAlived /\
  heap (snd (get_usage_cpu vm w)) = heap w /\
  heap (snd (get_usage_mem vm w)) = heap w.
Proof.
  intros He Hd Hr.
  rewrite (get_usage_cpu_stopped _ _ _ _ He Hd Hr).
  rewrite (get_usage_mem_defined _ _ _ _ He Hd), Hr.
  repeat split.
Qed.

Lemma usage_of_stopped_vm_raises_ConsumerNotAlived_witness :
  d_running (domain1 false 0) = false /\
  fst (get_usage_cpu 0 (world1 (domain1 false 0) entity1_sampled 101000000000))
  = Raise ConsumerNotAlived /\
  fst (get_usage_mem 0 (world1 (domain1 false 0) entity1_sampled 101000000000))
  = Raise ConsumerNotAlived.
Proof.
  split; [reflexivity|].
  pose proof (usage_of_stopped_vm_raises_ConsumerNotAlived
                (world1 (domain1 false 0) entity1_sampled 101000000000)
                0 entity1_sampled (domain1 false 0)
                eq_refl eq_refl eq_refl) as (Hcpu & Hmem & _).
  split; [exact Hcpu|exact Hmem].
Defined.

(** The lookup of the VM stands before the [try]: for an entity whose VM
    the hypervisor does not know at all, the [libvirtError] of
    [lookupByUUIDString] is what the caller gets. *)
Lemma usage_of_undefined_vm (w : World) (vm : nat) (e : DomainEntity) :
  heap w !! vm = Some e ->
  conn w !! get_uuid e = None ->
  fst (get_usage_cpu vm w) = Raise LibvirtError /\
  fst (get_usage_mem vm w) = Raise LibvirtError.
Proof.
  intros He Hd. unfold get_usage_cpu, get_usage_mem.
  rewrite !(bind_ok (deref vm) _ w w e) by (unfold deref; now rewrite He).
  unfold lookupByUUIDString.
  split; erewrite bind_raise by (now apply lv_read_undefined); reflexivity.
Qed.

(** C2. An entity whose VM was enumerated, has stopped running and is no
    longer known to the hypervisor: [get_usage_cpu] and [get_usage_mem] do
    not raise [ConsumerNotAlived]. The [libvirtError] of
    [lookupByUUIDString], which stands before the [try] of both methods,
    is what the caller gets; the entity keeps its sample. *)
Theorem usage_of_vanished_vm_escapes_with_libvirtError :
  heap world_vanished !! 0%nat = Some entity1_sampled /\
  conn world_vanished !! get_uuid entity1_sampled = None /\
  fst (get_usage_cpu 0 world_vanished) = Raise LibvirtError /\
  fst (get_usage_mem 0 world_vanished) = Raise LibvirtError /\
  heap (snd (get_usage_cpu 0 world_vanished)) = heap world_vanished /\
  heap (snd (get_usage_mem 0 world_vanished)) = heap world_vanished.
Proof.
  assert (He : heap world_vanished !! 0%nat = Some entity1_sampled) by reflexivity.
  assert (Hd : conn world_vanished !! get_uuid entity1_sampled = None)
    by apply (lookup_empty _).
  split; [exact He|]. split; [exact Hd|].
  unfold get_usage_cpu, get_usage_mem.
  rewrite !(bind_ok (deref 0) _ world_vanished world_vanished entity1_sampled)
    by reflexivity.
  unfold lookupByUUIDString.
  rewrite !(bind_raise _ _ _ _ _ (lv_read_undefined _ _ _ _ Hd)).
  repeat split.
Qed.

(** C9. A call of [get_usage_mem] that returns (the VM runs and [actual] is
    not zero) returns [rss / actual] clamped to at most [1], a value of
    [[0, 1]], whether [rss <= actual] or [rss > actual]. *)
Theorem get_usage_mem_clamped (w : World) (vm : nat) (e : DomainEntity) (d : Domain) :
  heap w !! vm = Some e ->
  conn w !! get_uuid e = Some d ->
  d_running d = true ->
  actual (d_mem d) <> 0%N ->
  exists (usage : Q) (w' : World),
    get_usage_mem vm w = (Ok usage, w') /\
    (usage == Qmin (inject_Z (Z.of_N (rss (d_mem d))) / inject_Z (Z.of_N (actual (d_mem d)))) 1)%Q /\
    (0 <= usage <= 1)%Q.
Proof.
  intros He Hd Hr Hactual. rewrite (get_usage_mem_defined _ _ _ _ He Hd), Hr.
  destruct (int_truediv _ _) as [usage|ex] eqn:Hdiv.
  - eexists _, _. split; [reflexivity|]. split; [|split].
    + rewrite clamp_is_min. unfold int_truediv in Hdiv.
      destruct (_ =? 0)%Z; [discriminate|]. injection Hdiv as <-.
      now rewrite Qred_correct.
    + apply clamp_nonneg. eapply int_truediv_nonneg; [| |exact Hdiv]; lia.
    + apply clamp_at_most_one.
  - unfold int_truediv in Hdiv.
    destruct (_ =? 0)%Z eqn:Hz; [apply Z.eqb_eq in Hz; lia|discriminate].
Qed.

Lemma get_usage_mem_clamped_witness :
  exists (usage : Q) (w' : World),
    get_usage_mem 0 (world1 (domain1 true 0) entity1 0) = (Ok usage, w') /\
    (usage == 1)%Q.
Proof.
  destruct (get_usage_mem_clamped (world1 (domain1 true 0) entity1 0) 0 entity1
              (domain1 true 0) eq_refl eq_refl eq_refl)
    as (usage & w' & Hrun & Hmin & _).
  { discriminate. }
  exists usage, w'. split; [exact Hrun|]. rewrite Hmin. reflexivity.
Defined.

(** ** Pinning *)

Lemma update_needed_false (vm_pin : list (list bool)) (template_pin : list bool) :
  update_needed vm_pin template_pin = false
  <-> Forall (fun vcpu_pin => vcpu_pin = template_pin) vm_pin.
Proof.
  induction vm_pin as [|vcpu_pin rest IH]; cbn.
  - split; [constructor|reflexivity].
  - rewrite Forall_cons. case_bool_decide as Hne.
    + split; [discriminate|]. intros [Heq _]. contradiction.
    + rewrite IH. split; [|tauto]. intros Hrest. split; [|exact Hrest].
      destruct (decide (vcpu_pin = template_pin)); [assumption|contradiction].
Qed.

Lemma update_needed_true (vm_pin : list (list bool)) (template_pin : list bool) :
  update_needed vm_pin template_pin = true
  <-> Exists (fun vcpu_pin => vcpu_pin <> template_pin) vm_pin.
Proof.
  induction vm_pin as [|vcpu_pin rest IH]; cbn.
  - split; [discriminate|]. intros H. now apply Exists_nil in H.
  - rewrite Exists_cons. case_bool_decide as Hne.
    + split; [now left|reflexivity].
    + rewrite IH. split; [now right|]. intros [H|H]; [contradiction|exact H].
Qed.

(** The loop of [update_cpu_pinning] on a running domain: every write is
    issued and accepted. *)
Lemma for_each_pinVcpu (dom : virDomain) (template_pin : list bool) (vcpus : list nat) :
  forall (w : World) (d : Domain),
    conn w !! UUIDString dom = Some d ->
    d_running d = true ->
    exists (w' : World) (d' : Domain),
      for_each vcpus (fun vcpu => pinVcpu dom vcpu template_pin) w = (Ok tt, w') /\
      trace w' = trace w ++ map (fun vcpu => LvPinVcpu (UUIDString dom) vcpu template_pin) vcpus /\
      conn w' !! UUIDString dom = Some d' /\
      d_vcpuPinInfo d' = pinned template_pin vcpus (d_vcpuPinInfo d) /\
      heap w' = heap w /\ cache_entity w' = cache_entity w.
Proof.
  induction vcpus as [|vcpu rest IH]; intros w d Hd Hr.
  - exists w, d. cbn. rewrite app_nil_r. repeat split; assumption.
  - cbn [for_each].
    set (w1 := with_conn (with_trace w (trace w ++ [LvPinVcpu (UUIDString dom) vcpu template_pin]))
                 (<[UUIDString dom := with_vcpuPinInfo d (<[vcpu := template_pin]> (d_vcpuPinInfo d))]>
                    (conn w))).
    assert (Hstep : pinVcpu dom vcpu template_pin w = (Ok tt, w1)).
    { unfold pinVcpu, bind, emit. cbn. rewrite Hd, Hr. reflexivity. }
    rewrite (bind_ok _ _ _ _ _ Hstep).
    destruct (IH w1 (with_vcpuPinInfo d (<[vcpu := template_pin]> (d_vcpuPinInfo d))))
      as (w' & d' & Hrun & Htrace & Hd' & Hpin & Hheap & Hcache).
    { cbn. apply lookup_insert_eq. }
    { exact Hr. }
    exists w', d'. split; [exact Hrun|]. split.
    { rewrite Htrace. cbn. now rewrite <- app_assoc. }
    repeat split; assumption.
Qed.

Lemma pinned_lookup (template_pin : list bool) (vcpus : list nat) :
  forall (pin : list (list bool)) (i : nat),
    i ∈ vcpus -> (i < length pin)%nat ->
    pinned template_pin vcpus pin !! i = Some template_pin.
Proof.
  unfold pinned.
  induction vcpus as [|vcpu rest IH] using rev_ind; intros pin i Hin Hlt.
  - now apply elem_of_nil in Hin.
  - rewrite foldl_snoc. apply elem_of_app in Hin.
    assert (Hlen : forall l, length (foldl (fun pin vcpu => <[vcpu := template_pin]> pin) pin l)
                             = length pin).
    { intros l. induction l as [|x l IHl] using rev_ind; [reflexivity|].
      now rewrite foldl_snoc, length_insert. }
    destruct (decide (vcpu = i)) as [->|Hne].
    + apply list_lookup_insert_eq. now rewrite Hlen.
    + rewrite list_lookup_insert_ne by exact Hne. apply IH; [|exact Hlt].
      destruct Hin as [Hin|Hin]; [exact Hin|].
      apply list_elem_of_singleton in Hin. congruence.
Qed.

Lemma pinned_length (template_pin : list bool) (vcpus : list nat) (pin : list (list bool)) :
  length (pinned template_pin vcpus pin) = length pin.
Proof.
  unfold pinned. induction vcpus as [|x l IHl] using rev_ind; [reflexivity|].
  now rewrite foldl_snoc, length_insert.
Qed.

Lemma pinned_all (template_pin : list bool) (pin : list (list bool)) :
  pinned template_pin (seq 0 (length pin)) pin = replicate (length pin) template_pin.
Proof.
  apply list_eq. intros i. destruct (decide (i < length pin)%nat) as [Hlt|Hge].
  - rewrite pinned_lookup; [|apply elem_of_seq; lia|exact Hlt].
    symmetry. now apply lookup_replicate_2.
  - rewrite !lookup_ge_None_2; [reflexivity| |].
    + rewrite length_replicate. lia.
    + rewrite pinned_length. lia.
Qed.

(** C3. [update_cpu_pinning] reads the pin masks of the VM once. When every
    mask equals the template it issues no pin-mask write. When some mask
    differs it issues one write per vCPU, for vCPU [0], [1], ... in order,
    each with the template, and on a running VM all of them are accepted:
    every vCPU ends pinned to the template. *)
Theorem update_cpu_pinning_writes (w : World) (vm : nat) (e : DomainEntity) (d : Domain)
    (template_pin : list bool) :
  heap w !! vm = Some e ->
  conn w !! get_uuid e = Some d ->
  let r := update_cpu_pinning vm template_pin w in
  (Forall (fun vcpu_pin => vcpu_pin = template_pin) (d_vcpuPinInfo d) ->
   fst r = Ok tt /\
   pin_writes (trace (snd r)) = pin_writes (trace w) /\
   conn (snd r) = conn w)
  /\
  (Exists (fun vcpu_pin => vcpu_pin <> template_pin) (d_vcpuPinInfo d) ->
   d_running d = true ->
   fst r = Ok tt /\
   pin_writes (trace (snd r))
   = pin_writes (trace w)
       ++ map (fun vcpu => (get_uuid e, vcpu, template_pin))
              (seq 0 (length (d_vcpuPinInfo d))) /\
   exists d' : Domain,
     conn (snd r) !! get_uuid e = Some d' /\
     d_vcpuPinInfo d' = replicate (length (d_vcpuPinInfo d)) template_pin).
Proof.
  intros He Hd. cbv zeta. unfold update_cpu_pinning.
  rewrite (bind_ok (deref vm) _ w w e) by (unfold deref; now rewrite He).
  unfold lookupByUUIDString, vcpuPinInfo. step_read Hd.
  cbn [UUIDString]. step_read Hd. split.
  - intros Hall. apply update_needed_false in Hall. rewrite Hall. cbn.
    rewrite !pin_writes_app. cbn. now rewrite !app_nil_r.
  - intros Hex Hr. apply update_needed_true in Hex. rewrite Hex.
    match goal with |- context [for_each _ _ ?w0] =>
      destruct (for_each_pinVcpu {| UUIDString := get_uuid e |} template_pin
                  (seq 0 (length (d_vcpuPinInfo d))) w0 d Hd Hr)
        as (w' & d' & Hrun & Htrace & Hd' & Hpin & _)
    end.
    rewrite Hrun. cbn [fst snd]. split; [reflexivity|]. split.
    + rewrite Htrace. cbn. rewrite !pin_writes_app. cbn. rewrite !app_nil_r.
      f_equal. generalize (seq 0 (length (d_vcpuPinInfo d))). intros l.
      induction l as [|x l IH]; [reflexivity|]. cbn. now rewrite <- IH.
    + exists d'. split; [exact Hd'|]. rewrite Hpin. apply pinned_all.
Qed.

Lemma update_cpu_pinning_writes_witness :
  (let r := update_cpu_pinning 0 pin01 (world1 (domain1 true 0) entity1 0) in
   fst r = Ok tt /\ pin_writes (trace (snd r)) = [])
  /\
  (let r := update_cpu_pinning 0 pin23 (world1 (domain1 true 0) entity1 0) in
   fst r = Ok tt /\ pin_writes (trace (snd r)) = [(uuid1, 0%nat, pin23); (uuid1, 1%nat, pin23)]).
Proof.
  pose proof (update_cpu_pinning_writes (world1 (domain1 true 0) entity1 0) 0 entity1
                (domain1 true 0) pin01 eq_refl eq_refl) as [Hsame _].
  pose proof (update_cpu_pinning_writes (world1 (domain1 true 0) entity1 0) 0 entity1
                (domain1 true 0) pin23 eq_refl eq_refl) as [_ Hdiff].
  split.
  - destruct Hsame as (Hok & Hw & _).
    { repeat constructor. }
    split; [exact Hok|exact Hw].
  - destruct Hdiff as (Hok & Hw & _).
    { apply Exists_cons_hd. discriminate. }
    { reflexivity. }
    split; [exact Hok|exact Hw].
Defined.

(** ** A forced refresh and the usage baseline *)

(** A resolution keeps every domain of the hypervisor, running as it was,
    with the counters it had. *)
Lemma resolved_world_conn (default_cpu_ratio : Q) (uuid uuid' : string)
    (d d' : Domain) (w : World) :
  conn w !! uuid' = Some d' ->
  exists d1 : Domain,
    conn (resolved_world default_cpu_ratio uuid d w) !! uuid' = Some d1 /\
    d_running d1 = d_running d' /\ d_cpu d1 = d_cpu d'.
Proof.
  intros Hd'. cbn. destruct (bool_decide _).
  - rewrite lookup_alter. case_decide.
    + subst uuid'. rewrite Hd'. cbn. now eexists.
    + now exists d'.
  - now exists d'.
Qed.

(** C10. Let [vm] be the cached entity of a running VM, holding a usage
    sample. A resolution with [force_update] returns a reference [vm'] to
    another object, built from what the hypervisor answers now and holding
    no sample, and puts it in the cache in place of [vm]; [get_usage_cpu]
    on [vm'] then returns [None], as on a first call. The old object keeps
    its sample but is no longer the cached one. *)
Theorem forced_refresh_discards_sample (default_cpu_ratio : Q) (virDomain : virDomain)
    (w : World) (vm : nat) (e : DomainEntity) (sample : Z * N * N * N) (d : Domain) :
  cache_entity w !! UUIDString virDomain = Some vm ->
  heap w !! vm = Some e ->
  get_time e = Some sample ->
  conn w !! UUIDString virDomain = Some d ->
  d_running d = true ->
  exists (vm' : nat) (w1 w2 : World),
    convert_to_entitydomain default_cpu_ratio virDomain true w = (Ok vm', w1) /\
    vm' <> vm /\
    cache_entity w1 !! UUIDString virDomain = Some vm' /\
    heap w1 !! vm' = Some (new_DomainEntity (UUIDString virDomain) (d_name d)
                             (d_maxMemory d) (d_maxVcpus d) (d_vcpuPinInfo d)
                             (resolved_cpu_ratio default_cpu_ratio (d_XMLDesc d))) /\
    (has_time <$> heap w1 !! vm') = Some false /\
    heap w1 !! vm = Some e /\
    get_usage_cpu vm' w1 = (Ok None, w2).
Proof.
  intros Hcache He Hsample Hd Hr.
  pose proof (convert_to_entitydomain_fresh default_cpu_ratio virDomain true w d Hd
                (or_introl eq_refl)) as Hconv.
  set (e' := new_DomainEntity (UUIDString virDomain) (d_name d) (d_maxMemory d)
               (d_maxVcpus d) (d_vcpuPinInfo d)
               (resolved_cpu_ratio default_cpu_ratio (d_XMLDesc d))).
  set (w1 := resolved_world default_cpu_ratio (UUIDString virDomain) d w) in *.
  assert (Hnew : heap w1 !! length (heap w) = Some e').
  { cbn. apply list_lookup_middle. reflexivity. }
  destruct (resolved_world_conn default_cpu_ratio (UUIDString virDomain)
              (UUIDString virDomain) d d w Hd) as (d1 & Hd1 & Hr1 & _).
  fold w1 in Hd1.
  assert (Husage : get_usage_cpu (length (heap w)) w1 = get_usage_cpu (length (heap w)) w1)
    by reflexivity.
  rewrite (get_usage_cpu_running w1 (length (heap w)) e' d1 Hnew Hd1) in Husage at 2
    by (now rewrite Hr1).
  cbn [cpu_usage_of get_time e' new_DomainEntity de_time] in Husage.
  exists (length (heap w)), w1. eexists. split; [exact Hconv|].
  split; [apply lookup_lt_Some in He; lia|].
  split; [cbn; apply lookup_insert_eq|].
  split; [exact Hnew|].
  split; [now rewrite Hnew|].
  split; [cbn; now apply lookup_app_l_Some|].
  exact Husage.
Qed.

Lemma forced_refresh_discards_sample_witness :
  exists (vm' : nat) (w1 w2 : World),
    convert_to_entitydomain 1 {| UUIDString := uuid1 |} true world_restarted = (Ok vm', w1) /\
    vm' <> 0%nat /\
    cache_entity w1 !! uuid1 = Some vm' /\
    get_usage_cpu vm' w1 = (Ok None, w2).
Proof.
  destruct (forced_refresh_discards_sample 1 {| UUIDString := uuid1 |} world_restarted 0
              entity1_sampled (100000000000%Z, 50000000000%N, 0%N, 0%N)
              (domain1 true 1000000000) eq_refl eq_refl eq_refl eq_refl eq_refl)
    as (vm' & w1 & w2 & Hconv & Hne & Hcache & _ & _ & _ & Husage).
  exists vm', w1, w2. repeat split; assumption.
Defined.

(** ** Rounding to binary64 *)

Section Binary64Facts.

Local Open Scope Q_scope.

Lemma pow2_pos (e : Z) : 0 < pow2 e.
Proof. apply Qpower_0_lt. reflexivity. Qed.

Lemma pow2_add (a b : Z) : pow2 (a + b) == pow2 a * pow2 b.
Proof. apply Qpower_plus. discriminate. Qed.

Lemma pow2_le (a b : Z) : (a <= b)%Z -> pow2 a <= pow2 b.
Proof. intros H. apply Qpower_le_compat_l; [exact H|discriminate]. Qed.

Lemma pow2_lt_inv (a b : Z) : pow2 a < pow2 b -> (a < b)%Z.
Proof. intros H. apply (Qpower_lt_compat_l_inv 2); [exact H|reflexivity]. Qed.

Lemma pow2_Z (k : Z) : (0 <= k)%Z -> pow2 k == inject_Z (2 ^ k).
Proof. intros H. unfold pow2. now rewrite Zpower_Qpower. Qed.

Lemma Qlog2_spec (x : Q) : 0 < x -> pow2 (Qlog2 x) <= x /\ x < pow2 (Qlog2 x + 1).
Proof.
  intros Hx. destruct x as [n d].
  assert (Hn : (0 < n)%Z) by (unfold Qlt in Hx; cbn in Hx; lia).
  unfold Qlog2. cbn [Qnum Qden].
  set (ln := Z.log2 n). set (ld := Z.log2 (Z.pos d)).
  assert (Hln : (2 ^ ln <= n < 2 ^ (ln + 1))%Z).
  { unfold ln. pose proof (Z.log2_spec n Hn). replace (ln + 1)%Z with (Z.succ ln) by lia.
    exact H. }
  assert (Hld : (2 ^ ld <= Z.pos d < 2 ^ (ld + 1))%Z).
  { unfold ld. pose proof (Z.log2_spec (Z.pos d) ltac:(lia)).
    replace (Z.log2 (Z.pos d) + 1)%Z with (Z.succ (Z.log2 (Z.pos d))) by lia. exact H. }
  assert (H0n : (0 <= ln)%Z) by apply Z.log2_nonneg.
  assert (H0d : (0 <= ld)%Z) by apply Z.log2_nonneg.
  assert (Hx' : n # d == inject_Z n / inject_Z (Z.pos d)) by apply Qmake_Qdiv.
  assert (Hdpos : 0 < inject_Z (Z.pos d)) by (unfold Qlt; cbn; lia).
  assert (Hnum_lt : inject_Z n < pow2 (ln + 1)).
  { rewrite pow2_Z by lia. rewrite <- Zlt_Qlt. lia. }
  assert (Hnum_ge : pow2 ln <= inject_Z n).
  { rewrite pow2_Z by lia. rewrite <- Zle_Qle. lia. }
  assert (Hden_lt : inject_Z (Z.pos d) < pow2 (ld + 1)).
  { rewrite pow2_Z by lia. rewrite <- Zlt_Qlt. lia. }
  assert (Hden_ge : pow2 ld <= inject_Z (Z.pos d)).
  { rewrite pow2_Z by lia. rewrite <- Zle_Qle. lia. }
  destruct (Qle_bool (pow2 (ln - ld)) (n # d)) eqn:Hb.
  - apply Qle_bool_iff in Hb. split; [exact Hb|].
    rewrite Hx'. apply Qlt_shift_div_r; [exact Hdpos|].
    apply Qlt_le_trans with (pow2 (ln + 1)); [exact Hnum_lt|].
    replace (ln + 1)%Z with ((ln - ld + 1) + ld)%Z by lia.
    rewrite pow2_add. apply Qmult_le_l; [apply pow2_pos|exact Hden_ge].
  - assert (Hlt : n # d < pow2 (ln - ld)).
    { apply Qnot_le_lt. intros H. apply Qle_bool_iff in H. congruence. }
    split.
    + rewrite Hx'. apply Qle_shift_div_l; [exact Hdpos|].
      apply Qle_trans with (pow2 ln); [|exact Hnum_ge].
      replace ln with ((ln - ld - 1) + (ld + 1))%Z at 2 by lia.
      rewrite pow2_add. apply Qmult_le_l; [apply pow2_pos|].
      apply Qlt_le_weak. exact Hden_lt.
    + replace (ln - ld - 1 + 1)%Z with (ln - ld)%Z by lia. exact Hlt.
Qed.

Lemma Qlog2_mono (x y : Q) : 0 < x -> x <= y -> (Qlog2 x <= Qlog2 y)%Z.
Proof.
  intros Hx Hxy.
  destruct (Qlog2_spec x Hx) as [Hlo _].
  destruct (Qlog2_spec y (Qlt_le_trans _ _ _ Hx Hxy)) as [_ Hhi].
  assert (H : pow2 (Qlog2 x) < pow2 (Qlog2 y + 1)).
  { eapply Qle_lt_trans; [exact Hlo|]. eapply Qle_lt_trans; [exact Hxy|exact Hhi]. }
  apply pow2_lt_inv in H. lia.
Qed.

Lemma round_half_even_comp (x y : Q) : x == y -> round_half_even x = round_half_even y.
Proof.
  intros H. unfold round_half_even.
  rewrite (Qfloor_comp _ _ H).
  assert (Hc : Qcompare (x - inject_Z (Qfloor y)) (1 # 2)
               = Qcompare (y - inject_Z (Qfloor y)) (1 # 2))
    by (apply Qcompare_comp; [now rewrite H|reflexivity]).
  now rewrite Hc.
Qed.

Lemma round_half_even_Z (x : Q) (n : Z) : x == inject_Z n -> round_half_even x = n.
Proof.
  intros H. rewrite (round_half_even_comp _ _ H). unfold round_half_even.
  rewrite Qfloor_Z.
  assert (Hlt : Qcompare (inject_Z n - inject_Z n) (1 # 2) = Lt)
    by (rewrite <- Qlt_alt; lra).
  now rewrite Hlt.
Qed.

Lemma round_half_even_bounds (x : Q) :
  (Qfloor x <= round_half_even x <= Qfloor x + 1)%Z.
Proof.
  unfold round_half_even.
  destruct (Qcompare _ _); [destruct (Z.even _)| |]; lia.
Qed.

Lemma round_half_even_mono (x y : Q) : x <= y -> (round_half_even x <= round_half_even y)%Z.
Proof.
  intros Hxy. pose proof (Qfloor_resp_le _ _ Hxy) as Hf.
  destruct (Z.eq_dec (Qfloor x) (Qfloor y)) as [Heq|Hne].
  - unfold round_half_even. rewrite Heq.
    destruct (Qcompare_spec (x - inject_Z (Qfloor y)) (1 # 2)) as [Hx|Hx|Hx];
      destruct (Qcompare_spec (y - inject_Z (Qfloor y)) (1 # 2)) as [Hy|Hy|Hy];
      try (destruct (Z.even (Qfloor y)); lia); try lia;
      exfalso; lra.
  - pose proof (round_half_even_bounds x). pose proof (round_half_even_bounds y). lia.
Qed.

Lemma round_half_even_le_Z (x : Q) (k : Z) : x <= inject_Z k -> (round_half_even x <= k)%Z.
Proof.
  intros H. pose proof (round_half_even_mono _ _ H) as Hm.
  now rewrite (round_half_even_Z (inject_Z k) k) in Hm.
Qed.

Lemma round_half_even_ge_Z (x : Q) (k : Z) : inject_Z k <= x -> (k <= round_half_even x)%Z.
Proof.
  intros H. pose proof (round_half_even_mono _ _ H) as Hm.
  now rewrite (round_half_even_Z (inject_Z k) k) in Hm.
Qed.

(** A multiple of the quantum of [x] that bounds [x] bounds its rounding. *)
Lemma b64_round_pos_le (x : Q) (k : Z) :
  x <= inject_Z k * pow2 (b64_quantum x) ->
  b64_round_pos x <= inject_Z k * pow2 (b64_quantum x).
Proof.
  intros H. unfold b64_round_pos. cbv zeta.
  apply Qmult_le_compat_r; [|apply Qlt_le_weak, pow2_pos].
  rewrite <- Zle_Qle. apply round_half_even_le_Z.
  apply Qle_shift_div_r; [apply pow2_pos|exact H].
Qed.

Lemma b64_round_pos_ge (x : Q) (k : Z) :
  inject_Z k * pow2 (b64_quantum x) <= x ->
  inject_Z k * pow2 (b64_quantum x) <= b64_round_pos x.
Proof.
  intros H. unfold b64_round_pos. cbv zeta.
  apply Qmult_le_compat_r; [|apply Qlt_le_weak, pow2_pos].
  rewrite <- Zle_Qle. apply round_half_even_ge_Z.
  apply Qle_shift_div_l; [apply pow2_pos|exact H].
Qed.

Lemma b64_round_pos_nonneg (x : Q) : 0 <= x -> 0 <= b64_round_pos x.
Proof.
  intros H. pose proof (b64_round_pos_ge x 0) as H0.
  assert (Hz : inject_Z 0 * pow2 (b64_quantum x) == 0) by ring.
  rewrite Hz in H0. now apply H0.
Qed.

(** [2^l] is a multiple of every quantum [2^e] with [e <= l]. *)
Lemma pow2_multiple (l e : Z) : (e <= l)%Z -> pow2 l == inject_Z (2 ^ (l - e)) * pow2 e.
Proof.
  intros H. rewrite <- pow2_Z by lia. rewrite <- pow2_add. now replace (l - e + e)%Z with l by lia.
Qed.

Lemma b64_round_pos_mono (x y : Q) : 0 < x -> x <= y -> b64_round_pos x <= b64_round_pos y.
Proof.
  intros Hx Hxy.
  assert (Hy : 0 < y) by (eapply Qlt_le_trans; eassumption).
  pose proof (Qlog2_mono x y Hx Hxy) as Hl.
  destruct (Z.eq_dec (b64_quantum x) (b64_quantum y)) as [Heq|Hne].
  - unfold b64_round_pos. cbv zeta. rewrite Heq.
    apply Qmult_le_compat_r; [|apply Qlt_le_weak, pow2_pos].
    rewrite <- Zle_Qle. apply round_half_even_mono.
    apply Qmult_le_compat_r; [exact Hxy|]. apply Qlt_le_weak, Qinv_lt_0_compat, pow2_pos.
  - assert (Hey : b64_quantum y = (Qlog2 y - 52)%Z) by (unfold b64_quantum in *; lia).
    assert (Hlt : (Qlog2 x < Qlog2 y)%Z) by (unfold b64_quantum in *; lia).
    assert (Hex : (b64_quantum x <= Qlog2 y)%Z) by (unfold b64_quantum in *; lia).
    destruct (Qlog2_spec x Hx) as [_ Hxhi].
    destruct (Qlog2_spec y Hy) as [Hylo _].
    apply Qle_trans with (pow2 (Qlog2 y)).
    + rewrite (pow2_multiple (Qlog2 y) (b64_quantum x) Hex).
      apply b64_round_pos_le. rewrite <- pow2_multiple by exact Hex.
      apply Qlt_le_weak. eapply Qlt_le_trans; [exact Hxhi|]. apply pow2_le. lia.
    + rewrite (pow2_multiple (Qlog2 y) (b64_quantum y)) by lia.
      apply b64_round_pos_ge. rewrite <- pow2_multiple by lia. exact Hylo.
Qed.

Lemma b64_round_nonneg (x : Q) : 0 <= x -> 0 <= b64_round x.
Proof.
  intros H. unfold b64_round.
  destruct (Qcompare_spec x 0) as [Hc|Hc|Hc]; [apply Qle_refl|exfalso; lra|].
  rewrite Qred_correct. now apply b64_round_pos_nonneg.
Qed.

Lemma b64_round_nonpos (x : Q) : x <= 0 -> b64_round x <= 0.
Proof.
  intros H. unfold b64_round.
  destruct (Qcompare_spec x 0) as [Hc|Hc|Hc]; [apply Qle_refl| |exfalso; lra].
  rewrite Qred_correct.
  pose proof (b64_round_pos_nonneg (- x) ltac:(lra)). lra.
Qed.

Lemma b64_round_mono (x y : Q) : x <= y -> b64_round x <= b64_round y.
Proof.
  intros Hxy.
  destruct (Qlt_le_dec 0 x) as [Hx|Hx].
  - unfold b64_round.
    destruct (Qcompare_spec x 0) as [Hc|Hc|Hc]; [exfalso; lra|exfalso; lra|].
    destruct (Qcompare_spec y 0) as [Hd|Hd|Hd]; [exfalso; lra|exfalso; lra|].
    rewrite !Qred_correct. now apply b64_round_pos_mono.
  - destruct (Qlt_le_dec y 0) as [Hy|Hy].
    + unfold b64_round.
      destruct (Qcompare_spec x 0) as [Hc|Hc|Hc]; [exfalso; lra| |exfalso; lra].
      destruct (Qcompare_spec y 0) as [Hd|Hd|Hd]; [exfalso; lra| |exfalso; lra].
      rewrite !Qred_correct.
      pose proof (b64_round_pos_mono (- y) (- x) ltac:(lra) ltac:(lra)). lra.
    + apply Qle_trans with 0; [now apply b64_round_nonpos|now apply b64_round_nonneg].
Qed.




Lemma py_int_mono (x y : Q) : x <= y -> (py_int x <= py_int y)%Z.
Proof.
  intros Hxy. unfold py_int.
  destruct (Qle_bool 0 x) eqn:Hx; destruct (Qle_bool 0 y) eqn:Hy.
  - now apply Qfloor_resp_le.
  - apply Qle_bool_iff in Hx.
    assert (Hn : ~ 0 <= y) by (intros H; apply Qle_bool_iff in H; congruence).
    exfalso. apply Hn. lra.
  - assert (Hn : ~ 0 <= x) by (intros H; apply Qle_bool_iff in H; congruence).
    apply Qle_bool_iff in Hy.
    apply Z.le_trans with 0%Z.
    + change 0%Z with (Qceiling 0). apply Qceiling_resp_le. lra.
    + change 0%Z with (Qfloor 0). now apply Qfloor_resp_le.
  - now apply Qceiling_resp_le.
Qed.


Example b64_round_third :
  b64_round (1 # 3) = 6004799503160661 # 18014398509481984.
Proof. vm_compute. reflexivity. Qed.

(** Ties go to the even neighbour: [2^53 + 1] and [2^53 + 3]. *)
Example b64_round_ties :
  b64_round (9007199254740993 # 1) = 9007199254740992 # 1 /\
  b64_round (9007199254740995 # 1) = 9007199254740996 # 1.
Proof. split; vm_compute; reflexivity. Qed.

(** [b64_round] and the division of the Standard Library's IEEE 754
    specification give the same binary64. *)
Example b64_round_SFdiv :
  SFdiv_value 1 3 = Some (b64_round (1 # 3)) /\
  SFdiv_value 1 10 = Some (b64_round (1 # 10)) /\
  SFdiv_value 1500000000 1000000000 = Some (b64_round (1500000000 # 1000000000)) /\
  SFdiv_value 123456789123456789 1000000000
  = Some (b64_round (123456789123456789 # 1000000000)) /\
  SFdiv_value 16777216999999999 1000000000
  = Some (b64_round (16777216999999999 # 1000000000)) /\
  SFdiv_value 9007199254740993 1 = Some (b64_round (9007199254740993 # 1)).
Proof. repeat split; vm_compute; reflexivity. Qed.

End Binary64Facts.

(** ** The control loop *)

Ltac ns_const :=
  unfold Qdiv in *;
  change (/ inject_Z ns_per_s)%Q with (1 # 1000000000)%Q in *;
  change (inject_Z ns_per_s) with (1000000000 # 1)%Q in *.

Lemma run_iteration_step (delay : Q) (launch_at : Z) (w : World) :
  run_iteration delay launch_at w
  = (Ok tt,
     later w 2 [PoolIterate (time_since_launch launch_at (clock w (clock_reads w)));
                budget_event delay (clock w (clock_reads w)) (clock w (S (clock_reads w)))]).
Proof.
  unfold run_iteration, budget_event, bind, time_ns, iteration, sleep, emit. cbn.
  destruct (Qgtb _ 0); unfold later; cbn; now rewrite <- !app_assoc.
Qed.

Lemma later_later (w : World) (n m : nat) (evs evs' : list Event) :
  later (later w n evs) m evs' = later w (m + n) (evs ++ evs').
Proof. unfold later. cbn. now rewrite app_assoc, Nat.add_assoc. Qed.

Lemma run_loop_steps (delay : Q) (c : nat -> Z) (k : nat) (n : nat) :
  forall (first : nat) (w : World),
    clock w = c -> clock_reads w = (k + 2 * first + 1)%nat ->
    run_loop delay (c k) n w = (Ok tt, later w (2 * n) (loop_events delay c k first n)).
Proof.
  induction n as [|n IH]; intros first w Hc Hreads.
  - cbn. unfold ret, later. cbn. rewrite app_nil_r. now destruct w.
  - cbn [run_loop]. rewrite (bind_ok _ _ _ _ _ (run_iteration_step delay (c k) w)).
    rewrite (IH (S first)); [|exact Hc|cbn; lia].
    rewrite later_later. cbn [loop_events]. rewrite Hc, Hreads.
    replace (S (k + 2 * first + 1)) with (k + 2 * first + 2)%nat by lia.
    f_equal. f_equal. lia.
Qed.


Lemma run_steps (delay : Q) (n : nat) (w : World) :
  run delay n w
  = (Ok tt, later w (2 * n + 1) (loop_events delay (clock w) (clock_reads w) 0 n)).
Proof.
  unfold run. rewrite (bind_ok time_ns _ w _ _ eq_refl).
  rewrite (run_loop_steps delay (clock w) (clock_reads w) n 0); [|reflexivity|cbn; lia].
  unfold later, with_clock_reads. cbn. f_equal. f_equal. lia.
Qed.



(** The argument of the pool never decreases with the clock reading. *)
Lemma time_since_launch_mono (launch_at a b : Z) :
  (a <= b)%Z -> (time_since_launch launch_at a <= time_since_launch launch_at b)%Z.
Proof.
  intros Hab. unfold time_since_launch. apply py_int_mono, b64_round_mono.
  apply Qmult_le_compat_r; [|discriminate].
  rewrite <- Zle_Qle. lia.
Qed.

Lemma time_since_launch_same (launch_at : Z) : time_since_launch launch_at launch_at = 0%Z.
Proof. unfold time_since_launch. now rewrite Z.sub_diag. Qed.


(** After [2^24] seconds the two do differ: at 16777216.999999999 s since
    launch the quotient rounds to [16777217.0]. *)
Example time_since_launch_rounds_up :
  time_since_launch 0 16777216999999999 = 16777217%Z /\
  Z.quot (16777216999999999 - 0) ns_per_s = 16777216%Z.
Proof. split; vm_compute; reflexivity. Qed.



Example run_overrun_trace :
  trace (snd (run 1 2 world_overrun))
  = [PoolIterate 0; StdoutOverlap (1 # 2); PoolIterate 1; Sleep (4 # 5)].
Proof. vm_compute. reflexivity. Qed.

(** A turn that takes exactly [delay] is reported as an overlap of zero. *)
Example run_exact_budget :
  budget_event 1 0 1000000000 = StdoutOverlap 0.
Proof. vm_compute. reflexivity. Qed.

(** * Further properties *)

(** ** Pinning templates: every list of ids *)

Lemma py_index_valid (len : nat) (i : Z) :
  (- Z.of_nat len <= i < Z.of_nat len)%Z ->
  py_index len i = Some (Z.to_nat (i mod Z.of_nat len)).
Proof.
  intros [Hlo Hhi]. unfold py_index.
  destruct (Z.le_gt_cases 0 i) as [Hpos|Hneg].
  - replace (0 <=? i)%Z with true by (symmetry; apply Z.leb_le; lia).
    replace (i <? Z.of_nat len)%Z with true by (symmetry; apply Z.ltb_lt; lia).
    cbn. now rewrite Z.mod_small by lia.
  - replace (0 <=? i)%Z with false by (symmetry; apply Z.leb_gt; lia).
    replace (- Z.of_nat len <=? i)%Z with true by (symmetry; apply Z.leb_le; lia).
    replace (i <? 0)%Z with true by (symmetry; apply Z.ltb_lt; lia).
    cbn. f_equal. f_equal.
    rewrite <- (Z.mod_add i 1 (Z.of_nat len)) by lia.
    rewrite Z.mod_small by lia. lia.
Qed.

Lemma py_index_invalid (len : nat) (i : Z) :
  (i < - Z.of_nat len \/ Z.of_nat len <= i)%Z -> py_index len i = None.
Proof.
  intros Hbad. unfold py_index.
  destruct (0 <=? i)%Z eqn:H0, (i <? Z.of_nat len)%Z eqn:H1,
           (- Z.of_nat len <=? i)%Z eqn:H2, (i <? 0)%Z eqn:H3; cbn; try reflexivity;
    rewrite ?Z.leb_le, ?Z.ltb_lt, ?Z.leb_gt, ?Z.ltb_ge in *; lia.
Qed.

(** The loop on any list of valid indices: an entry of the result is true
    when it was true before or when some id of the list lands on it. *)
Lemma pin_authorised_valid (cpu_list : list ServerCPU) (template_pin : list bool) :
  Forall (fun cpu => (- Z.of_nat (length template_pin) <= get_cpu_id cpu
                      < Z.of_nat (length template_pin))%Z) cpu_list ->
  exists template,
    pin_authorised cpu_list template_pin = Ok template /\
    length template = length template_pin /\
    forall i : nat,
      template !! i = Some true
      <-> template_pin !! i = Some true
          \/ ((i < length template_pin)%nat /\
              exists cpu, cpu ∈ cpu_list /\
                Z.to_nat (get_cpu_id cpu mod Z.of_nat (length template_pin)) = i).
Proof.
  revert template_pin. induction cpu_list as [|cpu rest IH]; intros template_pin Hall.
  - exists template_pin. split; [reflexivity|]. split; [reflexivity|].
    intros i. split; [now left|]. intros [H|(_ & c & Hc & _)]; [exact H|].
    now apply elem_of_nil in Hc.
  - apply Forall_cons in Hall as [Hcpu Hrest]. cbn [pin_authorised].
    unfold py_setitem. rewrite (py_index_valid _ _ Hcpu).
    set (k := Z.to_nat (get_cpu_id cpu mod Z.of_nat (length template_pin))).
    assert (Hk : (k < length template_pin)%nat).
    { unfold k. pose proof (Z.mod_pos_bound (get_cpu_id cpu) (Z.of_nat (length template_pin))).
      lia. }
    destruct (IH (<[k := true]> template_pin)) as (t & Hrun & Hlen & Hget).
    { now rewrite length_insert. }
    exists t. rewrite Hrun. split; [reflexivity|]. rewrite length_insert in Hlen, Hget.
    split; [exact Hlen|]. intros i. rewrite Hget, list_lookup_insert_Some.
    split.
    + intros [[(<- & _ & _)|(_ & Hold)]|(Hi & c & Hc & Hci)].
      * right. split; [exact Hk|]. exists cpu. split; [apply list_elem_of_here|reflexivity].
      * now left.
      * right. split; [exact Hi|]. exists c. split; [now apply list_elem_of_further|exact Hci].
    + intros [Hold|(Hi & c & Hc & Hci)].
      * destruct (decide (k = i)) as [<-|Hne]; left; [left|right]; auto.
      * apply elem_of_cons in Hc as [->|Hc].
        -- left. left. fold k in Hci. now subst i.
        -- right. split; [exact Hi|]. now exists c.
Qed.

(** The two outcomes of [build_cpu_pinning]. *)
Lemma build_cpu_pinning_cases (cpu_list : list ServerCPU) (host_config : Z) :
  (Forall (fun cpu => (- Z.max 0 host_config <= get_cpu_id cpu < Z.max 0 host_config)%Z)
     cpu_list /\
   exists template,
     build_cpu_pinning cpu_list host_config = Ok template /\
     length template = Z.to_nat host_config /\
     forall i : nat,
       template !! i = Some true
       <-> (i < Z.to_nat host_config)%nat /\
           exists cpu, cpu ∈ cpu_list /\
             Z.to_nat (get_cpu_id cpu mod Z.max 0 host_config) = i)
  \/
  (Exists (fun cpu => (get_cpu_id cpu < - Z.max 0 host_config
                       \/ Z.max 0 host_config <= get_cpu_id cpu)%Z) cpu_list /\
   build_cpu_pinning cpu_list host_config = Raise IndexError).
Proof.
  unfold build_cpu_pinning.
  assert (Hn : Z.of_nat (length (replicate (Z.to_nat host_config) false)) = Z.max 0 host_config)
    by (rewrite length_replicate; lia).
  destruct (Forall_Exists_dec
              (fun cpu => (- Z.max 0 host_config <= get_cpu_id cpu < Z.max 0 host_config)%Z)
              (fun cpu => (get_cpu_id cpu < - Z.max 0 host_config
                           \/ Z.max 0 host_config <= get_cpu_id cpu)%Z)
              (fun cpu => match Z_le_dec (- Z.max 0 host_config) (get_cpu_id cpu),
                                Z_lt_dec (get_cpu_id cpu) (Z.max 0 host_config) with
                          | left H1, left H2 => left (conj H1 H2)
                          | right H1, _ => right (or_introl (proj1 (Z.nle_gt _ _) H1))
                          | _, right H2 => right (or_intror (proj1 (Z.nlt_ge _ _) H2))
                          end)
              cpu_list) as [Hall|Hex].
  - left. split; [exact Hall|].
    destruct (pin_authorised_valid cpu_list (replicate (Z.to_nat host_config) false))
      as (t & Hrun & Hlen & Hget).
    { eapply Forall_impl; [exact Hall|]. intros cpu Hcpu. cbv beta in *.
      rewrite Hn. exact Hcpu. }
    exists t. split; [exact Hrun|]. rewrite length_replicate in Hlen.
    split; [exact Hlen|]. intros i. rewrite Hget, Hn, length_replicate.
    split; [|now right]. intros [Hold|Hnew]; [|exact Hnew].
    apply lookup_replicate in Hold as [? _]. discriminate.
  - right. split; [exact Hex|]. apply pin_authorised_out_of_range.
    eapply Exists_impl; [exact Hex|]. intros cpu Hcpu. cbv beta in *.
    apply py_index_invalid. rewrite Hn. exact Hcpu.
Qed.

(** X1. [build_cpu_pinning] raises [IndexError] exactly when some id of the
    list is no Python index of a list of [n = max(0, host_config)]
    elements, that is [id < -n] or [id >= n]; it returns a template, of
    length [n], exactly when every id is in [[-n, n)]. It raises nothing
    else. *)
Theorem build_cpu_pinning_index_error (cpu_list : list ServerCPU) (host_config : Z) :
  let n := Z.max 0 host_config in
  (build_cpu_pinning cpu_list host_config = Raise IndexError
   <-> Exists (fun cpu => (get_cpu_id cpu < - n \/ n <= get_cpu_id cpu)%Z) cpu_list)
  /\
  ((exists template, build_cpu_pinning cpu_list host_config = Ok template /\
                     Z.of_nat (length template) = n)
   <-> Forall (fun cpu => (- n <= get_cpu_id cpu < n)%Z) cpu_list).
Proof.
  cbv zeta.
  destruct (build_cpu_pinning_cases cpu_list host_config)
    as [(Hall & t & Hrun & Hlen & _)|(Hex & Hrun)]; rewrite Hrun.
  - split.
    + split; [discriminate|]. intros Hex. exfalso.
      apply Exists_exists in Hex as (cpu & Hin & Hcpu).
      rewrite Forall_forall in Hall. specialize (Hall cpu Hin). cbv beta in *. lia.
    + split; [intros _; exact Hall|]. intros _. exists t. split; [reflexivity|lia].
  - split.
    + split; [intros _; exact Hex|reflexivity].
    + split; [intros (t & Ht & _); discriminate|]. intros Hall. exfalso.
      apply Exists_exists in Hex as (cpu & Hin & Hcpu).
      rewrite Forall_forall in Hall. specialize (Hall cpu Hin). cbv beta in *. lia.
Qed.

Lemma build_cpu_pinning_index_error_witness :
  build_cpu_pinning [ {| cpu_id := 1 |}; {| cpu_id := -5 |} ] 4 = Raise IndexError /\
  exists template,
    build_cpu_pinning [ {| cpu_id := 1 |}; {| cpu_id := -4 |} ] 4 = Ok template /\
    Z.of_nat (length template) = 4%Z.
Proof.
  split.
  - apply (proj1 (build_cpu_pinning_index_error
                    [ {| cpu_id := 1 |}; {| cpu_id := -5 |} ] 4)).
    apply Exists_cons_tl, Exists_cons_hd. cbn. lia.
  - apply (proj2 (build_cpu_pinning_index_error
                    [ {| cpu_id := 1 |}; {| cpu_id := -4 |} ] 4)).
    repeat constructor; cbn; lia.
Defined.

(** X2. Whenever [build_cpu_pinning] returns, core [i] is authorised in the
    template exactly when some id of the list is [i] modulo [host_config]:
    an id [-k] stands for core [host_config - k]. *)
Theorem build_cpu_pinning_wraps (cpu_list : list ServerCPU) (host_config : Z)
    (template : list bool) :
  build_cpu_pinning cpu_list host_config = Ok template ->
  length template = Z.to_nat host_config /\
  forall i : nat, (i < Z.to_nat host_config)%nat ->
    (template !! i = Some true
     <-> exists cpu, cpu ∈ cpu_list /\ (get_cpu_id cpu mod host_config)%Z = Z.of_nat i) /\
    (template !! i = Some false
     <-> forall cpu, cpu ∈ cpu_list -> (get_cpu_id cpu mod host_config)%Z <> Z.of_nat i).
Proof.
  intros Hrun.
  destruct (build_cpu_pinning_cases cpu_list host_config)
    as [(_ & t & Hrun' & Hlen & Hget)|(_ & Hrun')]; rewrite Hrun in Hrun';
    [|discriminate].
  injection Hrun' as <-. split; [exact Hlen|]. intros i Hi.
  assert (Htrue : template !! i = Some true
                  <-> exists cpu, cpu ∈ cpu_list /\
                        (get_cpu_id cpu mod host_config)%Z = Z.of_nat i).
  { rewrite Hget. replace (Z.max 0 host_config) with host_config by lia. split.
    - intros (_ & cpu & Hin & Hcpu). exists cpu. split; [exact Hin|].
      pose proof (Z.mod_pos_bound (get_cpu_id cpu) host_config). lia.
    - intros (cpu & Hin & Hcpu). split; [exact Hi|]. exists cpu.
      split; [exact Hin|]. rewrite Hcpu. apply Nat2Z.id. }
  split; [exact Htrue|].
  destruct (template !! i) as [[|]|] eqn:Hlook.
  - split; [discriminate|]. intros Hnone. exfalso.
    destruct (proj1 Htrue eq_refl) as (cpu & Hin & Hcpu). exact (Hnone cpu Hin Hcpu).
  - split; [|reflexivity]. intros _ cpu Hin Hcpu.
    assert (Some false = Some true) by (apply Htrue; now exists cpu). discriminate.
  - apply lookup_ge_None in Hlook. lia.
Qed.

Lemma build_cpu_pinning_wraps_witness :
  exists template,
    build_cpu_pinning [ {| cpu_id := -1 |}; {| cpu_id := 0 |} ] 4 = Ok template /\
    template !! 3%nat = Some true /\ template !! 0%nat = Some true.
Proof.
  exists [true; false; false; true]. split; [reflexivity|].
  destruct (build_cpu_pinning_wraps [ {| cpu_id := -1 |}; {| cpu_id := 0 |} ] 4
              [true; false; false; true] eq_refl) as [_ Hget].
  split.
  - apply (proj1 (Hget 3%nat ltac:(cbn; lia))).
    exists {| cpu_id := -1 |}. split; [apply list_elem_of_here|reflexivity].
  - apply (proj1 (Hget 0%nat ltac:(cbn; lia))).
    exists {| cpu_id := 0 |}.
    split; [apply list_elem_of_further, list_elem_of_here|reflexivity].
Defined.

(** X3. The template depends only on the set of ids: the order of the
    authorised list and the repetitions in it change nothing, neither the
    template nor the failure. *)
Theorem build_cpu_pinning_same_ids (l1 l2 : list ServerCPU) (host_config : Z) :
  (forall id : Z, id ∈ get_cpu_id <$> l1 <-> id ∈ get_cpu_id <$> l2) ->
  build_cpu_pinning l1 host_config = build_cpu_pinning l2 host_config.
Proof.
  intros Hsame.
  assert (Hto : forall (la lb : list ServerCPU) (P : Z -> Prop),
             (forall id : Z, id ∈ get_cpu_id <$> la -> id ∈ get_cpu_id <$> lb) ->
             (exists cpu, cpu ∈ la /\ P (get_cpu_id cpu)) ->
             exists cpu, cpu ∈ lb /\ P (get_cpu_id cpu)).
  { intros la lb P Hsub (cpu & Hin & HP).
    destruct (proj1 (list_elem_of_fmap _ _ _) (Hsub _ (list_elem_of_fmap_2 get_cpu_id _ _ Hin)))
      as (cpu' & Heq & Hin').
    exists cpu'. split; [exact Hin'|]. now rewrite <- Heq. }
  destruct (build_cpu_pinning_cases l1 host_config)
    as [(Hall1 & t1 & Hrun1 & Hlen1 & Hget1)|(Hex1 & Hrun1)];
  destruct (build_cpu_pinning_cases l2 host_config)
    as [(Hall2 & t2 & Hrun2 & Hlen2 & Hget2)|(Hex2 & Hrun2)];
  rewrite Hrun1, Hrun2.
  - f_equal. apply list_eq. intros i.
    destruct (t1 !! i) as [b1|] eqn:H1, (t2 !! i) as [b2|] eqn:H2.
    + f_equal. destruct b1, b2; try reflexivity; exfalso.
      * assert (Ht : t2 !! i = Some true); [|congruence].
        apply Hget2. apply Hget1 in H1 as (Hi & Hc). split; [exact Hi|].
        apply (Hto l1 l2 (fun id => Z.to_nat (id mod Z.max 0 host_config) = i));
          [intros id; apply Hsame|exact Hc].
      * assert (Ht : t1 !! i = Some true); [|congruence].
        apply Hget1. apply Hget2 in H2 as (Hi & Hc). split; [exact Hi|].
        apply (Hto l2 l1 (fun id => Z.to_nat (id mod Z.max 0 host_config) = i));
          [intros id; apply Hsame|exact Hc].
    + apply lookup_lt_Some in H1. apply lookup_ge_None in H2. lia.
    + apply lookup_ge_None in H1. apply lookup_lt_Some in H2. lia.
    + reflexivity.
  - exfalso. apply Exists_exists in Hex2.
    destruct (Hto l2 l1 (fun id => (id < - Z.max 0 host_config
                                    \/ Z.max 0 host_config <= id)%Z)
                ltac:(intros id; apply Hsame) Hex2) as (cpu & Hin & Hcpu).
    rewrite Forall_forall in Hall1. specialize (Hall1 cpu Hin). cbv beta in *. lia.
  - exfalso. apply Exists_exists in Hex1.
    destruct (Hto l1 l2 (fun id => (id < - Z.max 0 host_config
                                    \/ Z.max 0 host_config <= id)%Z)
                ltac:(intros id; apply Hsame) Hex1) as (cpu & Hin & Hcpu).
    rewrite Forall_forall in Hall2. specialize (Hall2 cpu Hin). cbv beta in *. lia.
  - reflexivity.
Qed.

Lemma build_cpu_pinning_same_ids_witness :
  build_cpu_pinning [ {| cpu_id := 2 |}; {| cpu_id := 5 |}; {| cpu_id := 2 |} ] 8
  = build_cpu_pinning [ {| cpu_id := 5 |}; {| cpu_id := 2 |} ] 8.
Proof.
  apply build_cpu_pinning_same_ids. intros id. cbn.
  rewrite !elem_of_cons, !elem_of_nil. tauto.
Defined.

(** ** Entity resolution: the three paths *)

Lemma convert_to_entitydomain_cases (default_cpu_ratio : Q) (virDomain : virDomain)
    (force_update : bool) (w : World) :
  (exists vm : nat,
     force_update = false /\
     cache_entity w !! UUIDString virDomain = Some vm /\
     convert_to_entitydomain default_cpu_ratio virDomain force_update w = (Ok vm, w))
  \/
  ((force_update = true \/ cache_entity w !! UUIDString virDomain = None) /\
   conn w !! UUIDString virDomain = None /\
   convert_to_entitydomain default_cpu_ratio virDomain force_update w
   = (Raise LibvirtError,
      with_trace w (trace w ++ [LvRead (UUIDString virDomain) QName])))
  \/
  (exists d : Domain,
     (force_update = true \/ cache_entity w !! UUIDString virDomain = None) /\
     conn w !! UUIDString virDomain = Some d /\
     convert_to_entitydomain default_cpu_ratio virDomain force_update w
     = (Ok (length (heap w)),
        resolved_world default_cpu_ratio (UUIDString virDomain) d w)).
Proof.
  assert (Hfresh_case :
    force_update = true \/ cache_entity w !! UUIDString virDomain = None ->
    (force_update = true \/ cache_entity w !! UUIDString virDomain = None) /\
    conn w !! UUIDString virDomain = None /\
    convert_to_entitydomain default_cpu_ratio virDomain force_update w
    = (Raise LibvirtError,
       with_trace w (trace w ++ [LvRead (UUIDString virDomain) QName]))
    \/
    exists d : Domain,
      (force_update = true \/ cache_entity w !! UUIDString virDomain = None) /\
      conn w !! UUIDString virDomain = Some d /\
      convert_to_entitydomain default_cpu_ratio virDomain force_update w
      = (Ok (length (heap w)),
         resolved_world default_cpu_ratio (UUIDString virDomain) d w)).
  { intros Hfresh. destruct (conn w !! UUIDString virDomain) as [d|] eqn:Hd.
    - right. exists d. split; [exact Hfresh|]. split; [reflexivity|].
      now apply convert_to_entitydomain_fresh.
    - left. split; [exact Hfresh|]. split; [reflexivity|].
      now apply convert_to_entitydomain_undefined. }
  destruct force_update.
  - right. apply Hfresh_case. now left.
  - destruct (cache_entity w !! UUIDString virDomain) as [vm|] eqn:Hhit.
    + left. exists vm. split; [reflexivity|]. split; [reflexivity|].
      now apply convert_to_entitydomain_cached.
    + right. apply Hfresh_case. now right.
Qed.

(** X4. The cache does not notice that a VM is gone. For a UUID that is
    cached while the hypervisor no longer knows the VM, a resolution
    without [force_update] still returns the cached entity and raises
    nothing; a resolution with [force_update] raises [libvirtError] after
    one read, allocates nothing and leaves the cache entry in place, so
    that later resolutions without [force_update] keep returning the old
    entity. *)
Theorem convert_to_entitydomain_vanished_vm (default_cpu_ratio : Q)
    (virDomain : virDomain) (w : World) (vm : nat) :
  cache_entity w !! UUIDString virDomain = Some vm ->
  conn w !! UUIDString virDomain = None ->
  convert_to_entitydomain default_cpu_ratio virDomain false w = (Ok vm, w) /\
  exists w' : World,
    convert_to_entitydomain default_cpu_ratio virDomain true w = (Raise LibvirtError, w') /\
    heap w' = heap w /\
    cache_entity w' = cache_entity w /\
    lv_reads (trace w') = lv_reads (trace w) ++ [(UUIDString virDomain, QName)] /\
    convert_to_entitydomain default_cpu_ratio virDomain false w' = (Ok vm, w').
Proof.
  intros Hhit Hgone. split; [now apply convert_to_entitydomain_cached|].
  eexists. split.
  { apply convert_to_entitydomain_undefined; [exact Hgone|now left]. }
  split; [reflexivity|]. split; [reflexivity|]. split.
  - cbn. rewrite lv_reads_app. reflexivity.
  - apply convert_to_entitydomain_cached. exact Hhit.
Qed.

Lemma convert_to_entitydomain_vanished_vm_witness :
  convert_to_entitydomain 1 {| UUIDString := uuid1 |} false
    (with_conn (world1 (domain1 true 0) entity1 0) ∅)
  = (Ok 0%nat, with_conn (world1 (domain1 true 0) entity1 0) ∅) /\
  fst (convert_to_entitydomain 1 {| UUIDString := uuid1 |} true
         (with_conn (world1 (domain1 true 0) entity1 0) ∅))
  = Raise LibvirtError.
Proof.
  destruct (convert_to_entitydomain_vanished_vm 1 {| UUIDString := uuid1 |}
              (with_conn (world1 (domain1 true 0) entity1 0) ∅) 0 eq_refl
              (lookup_empty _))
    as (Hkeep & w' & Hforce & _).
  split; [exact Hkeep|]. now rewrite Hforce.
Defined.

(** X5. A resolution, on whatever path, never changes an entity that
    exists, never changes the cache entry of another UUID and never reads
    the clock; the store only grows. *)
Theorem convert_to_entitydomain_frame (default_cpu_ratio : Q) (virDomain : virDomain)
    (force_update : bool) (w : World) :
  let w' := snd (convert_to_entitydomain default_cpu_ratio virDomain force_update w) in
  (forall (vm : nat) (e : DomainEntity), heap w !! vm = Some e -> heap w' !! vm = Some e) /\
  (length (heap w) <= length (heap w'))%nat /\
  (forall uuid : string,
     uuid <> UUIDString virDomain -> cache_entity w' !! uuid = cache_entity w !! uuid) /\
  clock_reads w' = clock_reads w.
Proof.
  cbv zeta.
  destruct (convert_to_entitydomain_cases default_cpu_ratio virDomain force_update w)
    as [(vm & _ & _ & ->)|[(_ & _ & ->)|(d & _ & _ & ->)]]; cbn.
  - repeat split; auto.
  - repeat split; auto.
  - split; [intros vm e He; now apply lookup_app_l_Some|].
    split; [rewrite length_app; lia|].
    split; [|reflexivity]. intros uuid Hne. now rewrite lookup_insert_ne.
Qed.

(** X6. The defaults are generated at every resolution that goes to the
    hypervisor, not once: [defineXML] changes the persistent definition
    only, the descriptor that [XMLDesc] answers still has no ratio. A
    resolution of a VM without ratio followed by a forced one issues two
    descriptor writes and prints two warnings. *)
Theorem convert_to_entitydomain_defaults_again (default_cpu_ratio : Q)
    (virDomain : virDomain) (force_update : bool) (w : World) (d : Domain) :
  conn w !! UUIDString virDomain = Some d ->
  xml_oversub_cpu (d_XMLDesc d) = None ->
  force_update = true \/ cache_entity w !! UUIDString virDomain = None ->
  exists (vm1 vm2 : nat) (w1 w2 : World),
    convert_to_entitydomain default_cpu_ratio virDomain force_update w = (Ok vm1, w1) /\
    convert_to_entitydomain default_cpu_ratio virDomain true w1 = (Ok vm2, w2) /\
    xml_writes (trace w2)
    = xml_writes (trace w)
        ++ [ {| xml_uuid := xml_uuid (d_XMLDesc d);
                xml_oversub_cpu := Some default_cpu_ratio |};
             {| xml_uuid := xml_uuid (d_XMLDesc d);
                xml_oversub_cpu := Some default_cpu_ratio |} ] /\
    stdout_lines (trace w2)
    = stdout_lines (trace w)
        ++ [warning_no_oversubscription (d_name d);
            warning_no_oversubscription (d_name d)].
Proof.
  intros Hd Habsent Hfresh.
  pose proof (convert_to_entitydomain_fresh default_cpu_ratio virDomain force_update
                w d Hd Hfresh) as Hfirst.
  set (w1 := resolved_world default_cpu_ratio (UUIDString virDomain) d w) in *.
  assert (Hd1 : exists d1, conn w1 !! UUIDString virDomain = Some d1 /\
                           d_XMLDesc d1 = d_XMLDesc d /\ d_name d1 = d_name d).
  { unfold w1. cbn. rewrite Habsent. cbn. rewrite lookup_alter.
    case_decide as Heq.
    - rewrite Heq, Hd. cbn. now eexists.
    - now exists d. }
  destruct Hd1 as (d1 & Hd1 & Hxml & Hname).
  pose proof (convert_to_entitydomain_fresh default_cpu_ratio virDomain true
                w1 d1 Hd1 (or_introl eq_refl)) as Hsecond.
  eexists _, _, w1, _. split; [exact Hfirst|]. split; [exact Hsecond|].
  cbn. rewrite Hxml, Hname, Habsent. cbn.
  rewrite !xml_writes_app, !stdout_lines_app. cbn.
  rewrite <- !app_assoc. split; reflexivity.
Qed.

Lemma convert_to_entitydomain_defaults_again_witness :
  exists (w2 : World),
    snd (convert_to_entitydomain (3 # 2) {| UUIDString := uuid1 |} true
           (snd (convert_to_entitydomain (3 # 2) {| UUIDString := uuid1 |} false
                   world_uncached))) = w2 /\
    length (xml_writes (trace w2)) = 2%nat /\
    length (stdout_lines (trace w2)) = 2%nat.
Proof.
  destruct (convert_to_entitydomain_defaults_again (3 # 2) {| UUIDString := uuid1 |}
              false world_uncached (domain1 true 1000000000)
              eq_refl eq_refl (or_intror eq_refl))
    as (vm1 & vm2 & w1 & w2 & H1 & H2 & Hxml & Hout).
  exists w2. rewrite H1. cbn [snd]. rewrite H2. cbn [snd].
  split; [reflexivity|]. now rewrite Hxml, Hout.
Defined.

(** ** The cache after a purge *)

(** X7. After [cache_purge] nothing is cached, yet every entity stays in
    the store, as it was, for whoever still holds it. The next resolution
    of a VM the hypervisor knows, forced or not, goes to the hypervisor and
    returns a reference that no entity had before. *)
Theorem cache_purge_then_resolve (default_cpu_ratio : Q) (virDomain : virDomain)
    (force_update : bool) (w : World) (d : Domain) :
  conn w !! UUIDString virDomain = Some d ->
  exists (w0 w1 : World) (vm : nat),
    cache_purge w = (Ok tt, w0) /\
    cache_entity w0 = ∅ /\
    heap w0 = heap w /\
    convert_to_entitydomain default_cpu_ratio virDomain force_update w0 = (Ok vm, w1) /\
    heap w !! vm = None /\
    cache_entity w1 !! UUIDString virDomain = Some vm /\
    (forall (vm' : nat) (e : DomainEntity),
       heap w !! vm' = Some e -> heap w1 !! vm' = Some e) /\
    lv_reads (trace w1)
    = lv_reads (trace w)
        ++ [(UUIDString virDomain, QName); (UUIDString virDomain, QMaxMemory);
            (UUIDString virDomain, QMaxVcpus); (UUIDString virDomain, QVcpuPinInfo);
            (UUIDString virDomain, QXMLDesc)].
Proof.
  intros Hd. eexists _, _, _. split; [reflexivity|].
  split; [reflexivity|]. split; [reflexivity|]. split.
  { apply (convert_to_entitydomain_fresh _ _ _ _ d); [exact Hd|].
    right. cbn. apply lookup_empty. }
  cbn. split; [apply lookup_ge_None_2; lia|].
  split; [apply lookup_insert_eq|].
  split; [intros vm' e He; now apply lookup_app_l_Some|].
  rewrite !lv_reads_app. cbn.
  destruct (bool_decide _); cbn; now rewrite ?app_nil_r.
Qed.

Lemma cache_purge_then_resolve_witness :
  exists (w0 w1 : World),
    cache_purge (world1 (domain1 true 0) entity1_sampled 0) = (Ok tt, w0) /\
    convert_to_entitydomain 1 {| UUIDString := uuid1 |} false w0 = (Ok 1%nat, w1) /\
    heap w1 !! 0%nat = Some entity1_sampled.
Proof.
  destruct (cache_purge_then_resolve 1 {| UUIDString := uuid1 |} false
              (world1 (domain1 true 0) entity1_sampled 0) (domain1 true 0) eq_refl)
    as (w0 & w1 & vm & Hpurge & _ & _ & Hconv & _ & _ & Hkeep & _).
  exists w0, w1. split; [exact Hpurge|].
  assert (Hvm : vm = 1%nat).
  { injection Hpurge as <-. pose proof (f_equal fst Hconv) as Hv.
    vm_compute in Hv. congruence. }
  subst vm. split; [exact Hconv|]. apply Hkeep. reflexivity.
Defined.

(** ** Usage telemetry: every outcome *)

Lemma get_usage_cpu_dangling (w : World) (vm : nat) :
  heap w !! vm = None -> get_usage_cpu vm w = (Raise DanglingReference, w).
Proof.
  intros He. unfold get_usage_cpu.
  apply bind_raise. unfold deref. now rewrite He.
Qed.

Lemma get_usage_cpu_undefined (w : World) (vm : nat) (e : DomainEntity) :
  heap w !! vm = Some e ->
  conn w !! get_uuid e = None ->
  get_usage_cpu vm w
  = (Raise LibvirtError,
     with_trace w (trace w ++ [LvRead (get_uuid e) QLookupByUUIDString])).
Proof.
  intros He Hd. unfold get_usage_cpu.
  rewrite (bind_ok (deref vm) _ w w e) by (unfold deref; now rewrite He).
  unfold lookupByUUIDString. apply bind_raise. now apply lv_read_undefined.
Qed.

Lemma get_usage_mem_dangling (w : World) (vm : nat) :
  heap w !! vm = None -> get_usage_mem vm w = (Raise DanglingReference, w).
Proof.
  intros He. unfold get_usage_mem.
  apply bind_raise. unfold deref. now rewrite He.
Qed.

Lemma get_usage_mem_undefined (w : World) (vm : nat) (e : DomainEntity) :
  heap w !! vm = Some e ->
  conn w !! get_uuid e = None ->
  get_usage_mem vm w
  = (Raise LibvirtError,
     with_trace w (trace w ++ [LvRead (get_uuid e) QLookupByUUIDString])).
Proof.
  intros He Hd. unfold get_usage_mem.
  rewrite (bind_ok (deref vm) _ w w e) by (unfold deref; now rewrite He).
  unfold lookupByUUIDString. apply bind_raise. now apply lv_read_undefined.
Qed.

(** What one call of [get_usage_cpu] can do to the store: nothing, or a
    new sample on the entity it was given. *)
Lemma get_usage_cpu_store (w : World) (vm : nat) :
  let w' := snd (get_usage_cpu vm w) in
  conn w' = conn w /\ cache_entity w' = cache_entity w /\
  (heap w' = heap w \/
   exists (e : DomainEntity) (epoch_ns : Z) (total system user : N),
     heap w !! vm = Some e /\
     heap w' = <[vm := set_time e epoch_ns total system user]> (heap w)).
Proof.
  cbv zeta. destruct (heap w !! vm) as [e|] eqn:He.
  - destruct (conn w !! get_uuid e) as [d|] eqn:Hd.
    + destruct (d_running d) eqn:Hr.
      * rewrite (get_usage_cpu_running _ _ _ _ He Hd Hr).
        destruct (cpu_usage_of _ _ _) as [u|ex]; cbn.
        -- split; [reflexivity|]. split; [reflexivity|]. right. now eexists _, _, _, _, _.
        -- repeat split. now left.
      * rewrite (get_usage_cpu_stopped _ _ _ _ He Hd Hr). cbn. repeat split. now left.
    + rewrite (get_usage_cpu_undefined _ _ _ He Hd). cbn. repeat split. now left.
  - rewrite (get_usage_cpu_dangling _ _ He). repeat split. now left.
Qed.

(** X8. [get_usage_cpu] changes nothing but the sample of the entity it is
    given, whatever it returns or raises: the hypervisor state and the
    cache are as before, every other entity is as before, and the entity
    itself keeps its uuid, name, memory, vCPU count, pin snapshot and
    ratio. *)
Theorem get_usage_cpu_frame (w : World) (vm : nat) :
  let w' := snd (get_usage_cpu vm w) in
  conn w' = conn w /\
  cache_entity w' = cache_entity w /\
  length (heap w') = length (heap w) /\
  (forall vm' : nat, vm' <> vm -> heap w' !! vm' = heap w !! vm') /\
  (forall e : DomainEntity,
     heap w !! vm = Some e ->
     exists e' : DomainEntity,
       heap w' !! vm = Some e' /\
       de_uuid e' = de_uuid e /\ de_name e' = de_name e /\ de_mem e' = de_mem e /\
       de_cpu e' = de_cpu e /\ de_cpu_pin e' = de_cpu_pin e /\
       de_cpu_ratio e' = de_cpu_ratio e).
Proof.
  cbv zeta. destruct (get_usage_cpu_store w vm)
    as (Hconn & Hcache & [Hheap|(e & t & c & s & u & He & Hheap)]).
  - rewrite Hconn, Hcache, Hheap. repeat split; auto.
    intros e He. exists e. repeat split; auto.
  - rewrite Hconn, Hcache, Hheap. split; [reflexivity|]. split; [reflexivity|].
    split; [apply length_insert|].
    split; [intros vm' Hne; now apply list_lookup_insert_ne|].
    intros e0 He0. rewrite He in He0. injection He0 as <-.
    eexists. split.
    + apply list_lookup_insert_eq. now apply lookup_lt_Some in He.
    + repeat split.
Qed.

(** X9. [get_usage_cpu] raises [ZeroDivisionError] when the clock reads the
    very instant of the stored sample, or when the entity counts no vCPU.
    The hypervisor has been asked and the clock read by then, but the
    stored sample is not replaced: the entity keeps its old baseline. *)
Theorem get_usage_cpu_zero_division (w : World) (vm : nat) (e : DomainEntity) (d : Domain)
    (prev_epoch : Z) (prev_total prev_system prev_user : N) :
  heap w !! vm = Some e ->
  get_time e = Some (prev_epoch, prev_total, prev_system, prev_user) ->
  conn w !! get_uuid e = Some d ->
  d_running d = true ->
  clock w (clock_reads w) = prev_epoch \/ get_cpu e = 0%Z ->
  exists w' : World,
    get_usage_cpu vm w = (Raise ZeroDivisionError, w') /\
    heap w' = heap w /\
    clock_reads w' = S (clock_reads w) /\
    lv_reads (trace w')
    = lv_reads (trace w)
        ++ [(get_uuid e, QLookupByUUIDString); (get_uuid e, QGetCPUStats)].
Proof.
  intros He Ht Hd Hr Hzero. rewrite (get_usage_cpu_running _ _ _ _ He Hd Hr).
  assert (Hraise : cpu_usage_of e (clock w (clock_reads w)) (cpu_time (d_cpu d))
                   = Raise ZeroDivisionError).
  { unfold cpu_usage_of. rewrite Ht. unfold int_truediv, float_truediv.
    destruct (clock w (clock_reads w) - prev_epoch =? 0)%Z eqn:Hz; [reflexivity|].
    destruct Hzero as [Heq|Hcpu]; [apply Z.eqb_neq in Hz; lia|].
    now rewrite Hcpu. }
  rewrite Hraise. eexists. split; [reflexivity|]. cbn.
  rewrite lv_reads_app. repeat split.
Qed.

Lemma get_usage_cpu_zero_division_witness :
  exists w' : World,
    get_usage_cpu 0 (world1 (domain1 true 60000000000) entity1_sampled 100000000000)
    = (Raise ZeroDivisionError, w') /\
    heap w' = [entity1_sampled].
Proof.
  destruct (get_usage_cpu_zero_division
              (world1 (domain1 true 60000000000) entity1_sampled 100000000000)
              0 entity1_sampled (domain1 true 60000000000)
              100000000000 50000000000 0 0 eq_refl eq_refl eq_refl eq_refl
              (or_introl eq_refl)) as (w' & Hrun & Hheap & _).
  exists w'. split; [exact Hrun|exact Hheap].
Defined.

(** X10. The rate between two calls. When a call of [get_usage_cpu] has
    returned, at clock reading [t1] with the counter at [c1], the next call
    on the same entity, at reading [t2 <> t1] with the counter at [c2],
    returns [((c2 - c1) / (t2 - t1)) / cpu] when that is at most [1], and
    [1] otherwise: the baseline of a call is what the call before stored. *)
Theorem get_usage_cpu_rate_between_calls (w w1 w2 : World) (vm : nat)
    (e : DomainEntity) (d d2 : Domain) (r1 : option Q) :
  heap w !! vm = Some e ->
  conn w !! get_uuid e = Some d ->
  get_usage_cpu vm w = (Ok r1, w1) ->
  heap w2 = heap w1 ->
  conn w2 !! get_uuid e = Some d2 ->
  d_running d2 = true ->
  clock w2 (clock_reads w2) <> clock w (clock_reads w) ->
  get_cpu e <> 0%Z ->
  exists (usage : Q) (w3 : World),
    get_usage_cpu vm w2 = (Ok (Some usage), w3) /\
    (usage == Qmin (inject_Z (Z.of_N (cpu_time (d_cpu d2)) - Z.of_N (cpu_time (d_cpu d)))
                    / inject_Z (clock w2 (clock_reads w2) - clock w (clock_reads w))
                    / inject_Z (get_cpu e)) 1)%Q.
Proof.
  intros He Hd Hfirst Hheap Hd2 Hr2 Hclock Hcpu.
  assert (He1 : heap w1 !! vm
                = Some (set_time e (clock w (clock_reads w)) (cpu_time (d_cpu d))
                          (system_time (d_cpu d)) (user_time (d_cpu d)))).
  { destruct (d_running d) eqn:Hr.
    - rewrite (get_usage_cpu_running _ _ _ _ He Hd Hr) in Hfirst.
      destruct (cpu_usage_of _ _ _) as [u|ex]; [|discriminate].
      injection Hfirst as _ <-. cbn.
      apply list_lookup_insert_eq. now apply lookup_lt_Some in He.
    - rewrite (get_usage_cpu_stopped _ _ _ _ He Hd Hr) in Hfirst. discriminate. }
  rewrite <- Hheap in He1.
  rewrite (get_usage_cpu_running w2 vm _ d2 He1 Hd2 Hr2).
  unfold cpu_usage_of. cbn [get_time set_time de_time get_cpu de_cpu].
  unfold int_truediv, float_truediv.
  replace (clock w2 (clock_reads w2) - clock w (clock_reads w) =? 0)%Z with false
    by (symmetry; apply Z.eqb_neq; lia).
  replace (de_cpu e =? 0)%Z with false by (symmetry; now apply Z.eqb_neq).
  eexists _, _. split; [reflexivity|].
  rewrite clamp_is_min. now rewrite !Qred_correct.
Qed.

Lemma get_usage_cpu_rate_between_calls_witness :
  exists (usage : Q) (w3 : World),
    get_usage_cpu 0 world_second_call = (Ok (Some usage), w3) /\
    (usage == 1 # 8)%Q.
Proof.
  destruct (get_usage_cpu_rate_between_calls
              (world1 (domain1 true 1000000000) entity1 7)
              (snd (get_usage_cpu 0 (world1 (domain1 true 1000000000) entity1 7)))
              world_second_call 0 entity1
              (domain1 true 1000000000) (domain1 true 2000000000) None
              ltac:(vm_compute; reflexivity) ltac:(vm_compute; reflexivity)
              ltac:(vm_compute; reflexivity) ltac:(vm_compute; reflexivity)
              ltac:(vm_compute; reflexivity) ltac:(vm_compute; reflexivity)
              ltac:(vm_compute; discriminate) ltac:(vm_compute; discriminate))
    as (usage & w3 & Hrun & Husage).
  exists usage, w3. split; [exact Hrun|]. rewrite Husage. reflexivity.
Defined.

(** X11. The sample survives the cache. The entity that a resolution
    returns is the cached object itself: after [get_usage_cpu] has stored a
    sample on it, a resolution of the same handle without [force_update]
    returns the same reference, and the entity behind it holds that
    sample. *)
Theorem resolve_sample_resolve (default_cpu_ratio : Q) (virDomain : virDomain)
    (force_update : bool) (w w1 w2 : World) (vm : nat) (usage : option Q) :
  convert_to_entitydomain default_cpu_ratio virDomain force_update w = (Ok vm, w1) ->
  get_usage_cpu vm w1 = (Ok usage, w2) ->
  convert_to_entitydomain default_cpu_ratio virDomain false w2 = (Ok vm, w2) /\
  exists (e : DomainEntity) (total system user : N),
    heap w2 !! vm = Some e /\
    get_time e = Some (clock w1 (clock_reads w1), total, system, user).
Proof.
  intros Hconv Husage.
  apply convert_to_entitydomain_caches in Hconv.
  destruct (get_usage_cpu_store w1 vm) as (_ & Hcache & _).
  rewrite Husage in Hcache. cbn [snd] in Hcache. split.
  - apply convert_to_entitydomain_cached. now rewrite Hcache.
  - destruct (heap w1 !! vm) as [e|] eqn:He;
      [|rewrite (get_usage_cpu_dangling _ _ He) in Husage; discriminate].
    destruct (conn w1 !! get_uuid e) as [d|] eqn:Hd;
      [|rewrite (get_usage_cpu_undefined _ _ _ He Hd) in Husage; discriminate].
    destruct (d_running d) eqn:Hr;
      [|rewrite (get_usage_cpu_stopped _ _ _ _ He Hd Hr) in Husage; discriminate].
    rewrite (get_usage_cpu_running _ _ _ _ He Hd Hr) in Husage.
    destruct (cpu_usage_of _ _ _) as [u|ex]; [|discriminate].
    injection Husage as _ <-. eexists _, _, _, _. split.
    + cbn. apply list_lookup_insert_eq. now apply lookup_lt_Some in He.
    + reflexivity.
Qed.

Lemma resolve_sample_resolve_witness :
  exists (w1 w2 : World),
    convert_to_entitydomain 1 {| UUIDString := uuid1 |} false world_uncached = (Ok 0%nat, w1) /\
    get_usage_cpu 0 w1 = (Ok None, w2) /\
    convert_to_entitydomain 1 {| UUIDString := uuid1 |} false w2 = (Ok 0%nat, w2).
Proof.
  exists (snd (convert_to_entitydomain 1 {| UUIDString := uuid1 |} false world_uncached)).
  exists (snd (get_usage_cpu 0
                 (snd (convert_to_entitydomain 1 {| UUIDString := uuid1 |} false
                         world_uncached)))).
  assert (H1 : convert_to_entitydomain 1 {| UUIDString := uuid1 |} false world_uncached
               = (Ok 0%nat,
                  snd (convert_to_entitydomain 1 {| UUIDString := uuid1 |} false
                         world_uncached)))
    by (vm_compute; reflexivity).
  assert (H2 : get_usage_cpu 0
                 (snd (convert_to_entitydomain 1 {| UUIDString := uuid1 |} false
                         world_uncached))
               = (Ok None,
                  snd (get_usage_cpu 0
                         (snd (convert_to_entitydomain 1 {| UUIDString := uuid1 |} false
                                 world_uncached)))))
    by (vm_compute; reflexivity).
  split; [exact H1|]. split; [exact H2|].
  exact (proj1 (resolve_sample_resolve 1 {| UUIDString := uuid1 |} false
                  world_uncached _ _ 0 None H1 H2)).
Defined.

(** X12. [get_usage_mem] reads and never writes: whatever it returns or
    raises, the store, the cache, the hypervisor state and the clock are as
    before. Its outcome is decided by the hypervisor alone: [libvirtError]
    when the VM is unknown, [ConsumerNotAlived] when it does not run,
    [ZeroDivisionError] when [actual] is zero, a value otherwise. *)
Theorem get_usage_mem_outcome (w : World) (vm : nat) (e : DomainEntity) :
  heap w !! vm = Some e ->
  let r := get_usage_mem vm w in
  heap (snd r) = heap w /\ cache_entity (snd r) = cache_entity w /\
  conn (snd r) = conn w /\ clock_reads (snd r) = clock_reads w /\
  match conn w !! get_uuid e with
  | None => fst r = Raise LibvirtError
  | Some d =>
      if d_running d
      then if (actual (d_mem d) =? 0)%N
           then fst r = Raise ZeroDivisionError
           else exists usage : Q, fst r = Ok usage
      else fst r = Raise ConsumerNotAlived
  end.
Proof.
  intros He. cbv zeta. destruct (conn w !! get_uuid e) as [d|] eqn:Hd.
  - rewrite (get_usage_mem_defined _ _ _ _ He Hd). cbn.
    repeat (split; [reflexivity|]).
    destruct (d_running d); [|reflexivity]. unfold int_truediv.
    destruct (actual (d_mem d) =? 0)%N eqn:Hz.
    + apply N.eqb_eq in Hz. now rewrite Hz.
    + apply N.eqb_neq in Hz.
      replace (Z.of_N (actual (d_mem d)) =? 0)%Z with false
        by (symmetry; apply Z.eqb_neq; lia).
      now eexists.
  - rewrite (get_usage_mem_undefined _ _ _ He Hd). cbn. repeat split.
Qed.

Lemma get_usage_mem_outcome_witness :
  fst (get_usage_mem 0 (with_conn (world1 (domain1 true 0) entity1 0) ∅))
  = Raise LibvirtError.
Proof.
  pose proof (get_usage_mem_outcome (with_conn (world1 (domain1 true 0) entity1 0) ∅)
                0 entity1 eq_refl) as (_ & _ & _ & _ & Hout).
  cbv zeta in Hout. cbn [conn with_conn] in Hout.
  rewrite (lookup_empty (get_uuid entity1)) in Hout. exact Hout.
Defined.

(** ** Pinning: every outcome *)

Lemma pinVcpu_frame (dom : virDomain) (vcpu : nat) (cpumap : list bool) (w : World) :
  let w' := snd (pinVcpu dom vcpu cpumap w) in
  heap w' = heap w /\ cache_entity w' = cache_entity w /\ clock_reads w' = clock_reads w.
Proof.
  cbv zeta. unfold pinVcpu, bind, emit. cbn.
  destruct (conn w !! UUIDString dom) as [d|]; [destruct (d_running d)|]; cbn;
    repeat split.
Qed.

Lemma for_each_pinVcpu_frame (dom : virDomain) (template_pin : list bool)
    (vcpus : list nat) :
  forall w : World,
    let w' := snd (for_each vcpus (fun vcpu => pinVcpu dom vcpu template_pin) w) in
    heap w' = heap w /\ cache_entity w' = cache_entity w /\ clock_reads w' = clock_reads w.
Proof.
  induction vcpus as [|vcpu rest IH]; intros w; cbv zeta.
  - repeat split.
  - cbn [for_each]. unfold bind.
    pose proof (pinVcpu_frame dom vcpu template_pin w) as (Hh & Hc & Hk).
    destruct (pinVcpu dom vcpu template_pin w) as [[[]|ex] w1]; cbn [snd] in *.
    + destruct (IH w1) as (Hh' & Hc' & Hk'). cbv zeta in *.
      rewrite Hh', Hc', Hk'. now rewrite Hh, Hc, Hk.
    + repeat split; assumption.
Qed.

(** [update_cpu_pinning] changes the hypervisor and the trace only. *)
Lemma update_cpu_pinning_store (w : World) (vm : nat) (template_pin : list bool) :
  let w' := snd (update_cpu_pinning vm template_pin w) in
  heap w' = heap w /\ cache_entity w' = cache_entity w /\ clock_reads w' = clock_reads w.
Proof.
  cbv zeta. unfold update_cpu_pinning.
  destruct (heap w !! vm) as [e|] eqn:He.
  - rewrite (bind_ok (deref vm) _ w w e) by (unfold deref; now rewrite He).
    unfold lookupByUUIDString, vcpuPinInfo.
    destruct (conn w !! get_uuid e) as [d|] eqn:Hd.
    + step_read Hd. cbn [UUIDString]. step_read Hd.
      destruct (update_needed _ _).
      * match goal with |- context [for_each ?l ?f ?w0] =>
          destruct (for_each_pinVcpu_frame {| UUIDString := get_uuid e |} template_pin l w0)
            as (Hh & Hc & Hk)
        end.
        cbv zeta in *. rewrite Hh, Hc, Hk. repeat split.
      * repeat split.
    + erewrite bind_raise by (now apply lv_read_undefined). repeat split.
  - erewrite bind_raise by (unfold deref; now rewrite He). repeat split.
Qed.

Lemma update_cpu_pinning_no_drift (w : World) (vm : nat) (e : DomainEntity) (d : Domain)
    (template_pin : list bool) :
  heap w !! vm = Some e ->
  conn w !! get_uuid e = Some d ->
  update_needed (d_vcpuPinInfo d) template_pin = false ->
  update_cpu_pinning vm template_pin w
  = (Ok tt,
     with_trace w (trace w ++ [LvRead (get_uuid e) QLookupByUUIDString;
                               LvRead (get_uuid e) QVcpuPinInfo])).
Proof.
  intros He Hd Hno. unfold update_cpu_pinning.
  rewrite (bind_ok (deref vm) _ w w e) by (unfold deref; now rewrite He).
  unfold lookupByUUIDString, vcpuPinInfo. step_read Hd. cbn [UUIDString]. step_read Hd.
  rewrite Hno. unfold ret, with_trace. cbn. now rewrite <- app_assoc.
Qed.

Lemma update_needed_nonempty (vm_pin : list (list bool)) (template_pin : list bool) :
  update_needed vm_pin template_pin = true ->
  seq 0 (length vm_pin) = 0%nat :: seq 1 (length vm_pin - 1).
Proof.
  destruct vm_pin as [|p rest]; [discriminate|]. intros _. cbn. now rewrite Nat.sub_0_r.
Qed.

(** On a VM that does not run, the first write is refused and ends the
    loop. *)
Lemma update_cpu_pinning_refused (w : World) (vm : nat) (e : DomainEntity) (d : Domain)
    (template_pin : list bool) :
  heap w !! vm = Some e ->
  conn w !! get_uuid e = Some d ->
  update_needed (d_vcpuPinInfo d) template_pin = true ->
  d_running d = false ->
  update_cpu_pinning vm template_pin w
  = (Raise LibvirtError,
     with_trace w (trace w ++ [LvRead (get_uuid e) QLookupByUUIDString;
                               LvRead (get_uuid e) QVcpuPinInfo;
                               LvPinVcpu (get_uuid e) 0 template_pin])).
Proof.
  intros He Hd Hneed Hr. unfold update_cpu_pinning.
  rewrite (bind_ok (deref vm) _ w w e) by (unfold deref; now rewrite He).
  unfold lookupByUUIDString, vcpuPinInfo. step_read Hd. cbn [UUIDString]. step_read Hd.
  rewrite Hneed, (update_needed_nonempty _ _ Hneed). cbn [for_each].
  apply bind_raise. unfold pinVcpu, bind, emit. cbn. rewrite Hd, Hr.
  unfold with_trace. cbn. now rewrite <- !app_assoc.
Qed.

(** On a VM that runs, every write is accepted. *)
Lemma update_cpu_pinning_repinned (w : World) (vm : nat) (e : DomainEntity) (d : Domain)
    (template_pin : list bool) :
  heap w !! vm = Some e ->
  conn w !! get_uuid e = Some d ->
  update_needed (d_vcpuPinInfo d) template_pin = true ->
  d_running d = true ->
  exists (w' : World) (d' : Domain),
    update_cpu_pinning vm template_pin w = (Ok tt, w') /\
    heap w' = heap w /\
    conn w' !! get_uuid e = Some d' /\
    d_vcpuPinInfo d' = replicate (length (d_vcpuPinInfo d)) template_pin.
Proof.
  intros He Hd Hneed Hr. unfold update_cpu_pinning.
  rewrite (bind_ok (deref vm) _ w w e) by (unfold deref; now rewrite He).
  unfold lookupByUUIDString, vcpuPinInfo. step_read Hd. cbn [UUIDString]. step_read Hd.
  rewrite Hneed.
  match goal with |- context [for_each _ _ ?w0] =>
    destruct (for_each_pinVcpu {| UUIDString := get_uuid e |} template_pin
                (seq 0 (length (d_vcpuPinInfo d))) w0 d Hd Hr)
      as (w' & d' & Hrun & _ & Hd' & Hpin & Hheap & _)
  end.
  exists w', d'. split; [exact Hrun|]. split; [exact Hheap|].
  split; [exact Hd'|]. rewrite Hpin. apply pinned_all.
Qed.

Lemma update_needed_replicate (n : nat) (template_pin : list bool) :
  update_needed (replicate n template_pin) template_pin = false.
Proof.
  apply update_needed_false. apply Forall_forall. intros p Hp.
  now apply elem_of_replicate in Hp as [-> _].
Qed.

(** X13. A successful [update_cpu_pinning] is idempotent: called again with
    the same template right after it has returned, it returns again, issues
    no pin-mask write and leaves the hypervisor as it is. *)
Theorem update_cpu_pinning_idempotent (w w1 : World) (vm : nat) (template_pin : list bool) :
  update_cpu_pinning vm template_pin w = (Ok tt, w1) ->
  exists w2 : World,
    update_cpu_pinning vm template_pin w1 = (Ok tt, w2) /\
    pin_writes (trace w2) = pin_writes (trace w1) /\
    conn w2 = conn w1.
Proof.
  intros Hfirst.
  destruct (heap w !! vm) as [e|] eqn:He; last first.
  { unfold update_cpu_pinning in Hfirst.
    erewrite bind_raise in Hfirst by (unfold deref; now rewrite He). discriminate. }
  destruct (conn w !! get_uuid e) as [d|] eqn:Hd; last first.
  { unfold update_cpu_pinning in Hfirst.
    rewrite (bind_ok (deref vm) _ w w e) in Hfirst by (unfold deref; now rewrite He).
    unfold lookupByUUIDString in Hfirst.
    erewrite bind_raise in Hfirst by (now apply lv_read_undefined). discriminate. }
  assert (Hagain : exists d1 : Domain,
             heap w1 !! vm = Some e /\ conn w1 !! get_uuid e = Some d1 /\
             update_needed (d_vcpuPinInfo d1) template_pin = false).
  { destruct (update_needed (d_vcpuPinInfo d) template_pin) eqn:Hneed.
    - destruct (d_running d) eqn:Hr.
      + destruct (update_cpu_pinning_repinned _ _ _ _ _ He Hd Hneed Hr)
          as (w' & d' & Hrun & Hheap & Hd' & Hpin).
        rewrite Hrun in Hfirst. injection Hfirst as <-.
        exists d'. split; [now rewrite Hheap|]. split; [exact Hd'|].
        rewrite Hpin. apply update_needed_replicate.
      + rewrite (update_cpu_pinning_refused _ _ _ _ _ He Hd Hneed Hr) in Hfirst.
        discriminate.
    - rewrite (update_cpu_pinning_no_drift _ _ _ _ _ He Hd Hneed) in Hfirst.
      injection Hfirst as <-. now exists d. }
  destruct Hagain as (d1 & He1 & Hd1 & Hno).
  rewrite (update_cpu_pinning_no_drift _ _ _ _ _ He1 Hd1 Hno).
  eexists. split; [reflexivity|]. cbn. rewrite pin_writes_app. cbn.
  now rewrite app_nil_r.
Qed.

Lemma update_cpu_pinning_idempotent_witness :
  exists (w1 w2 : World),
    update_cpu_pinning 0 pin23 (world1 (domain1 true 0) entity1 0) = (Ok tt, w1) /\
    length (pin_writes (trace w1)) = 2%nat /\
    update_cpu_pinning 0 pin23 w1 = (Ok tt, w2) /\
    length (pin_writes (trace w2)) = 2%nat.
Proof.
  exists (snd (update_cpu_pinning 0 pin23 (world1 (domain1 true 0) entity1 0))).
  assert (H1 : update_cpu_pinning 0 pin23 (world1 (domain1 true 0) entity1 0)
               = (Ok tt, snd (update_cpu_pinning 0 pin23 (world1 (domain1 true 0) entity1 0))))
    by (vm_compute; reflexivity).
  destruct (update_cpu_pinning_idempotent _ _ 0 pin23 H1) as (w2 & H2 & Hw & _).
  exists w2. split; [exact H1|]. split; [vm_compute; reflexivity|].
  split; [exact H2|]. rewrite Hw. vm_compute. reflexivity.
Defined.

(** X14. On a VM that the hypervisor knows but that does not run,
    [update_cpu_pinning] returns without a write when no mask differs from
    the template; when one differs it issues a single write, for vCPU 0,
    and raises the [libvirtError] of that write: the other vCPUs are not
    tried and the pinning is unchanged. *)
Theorem update_cpu_pinning_stopped_vm (w : World) (vm : nat) (e : DomainEntity)
    (d : Domain) (template_pin : list bool) :
  heap w !! vm = Some e ->
  conn w !! get_uuid e = Some d ->
  d_running d = false ->
  let r := update_cpu_pinning vm template_pin w in
  conn (snd r) = conn w /\
  (Forall (fun vcpu_pin => vcpu_pin = template_pin) (d_vcpuPinInfo d) ->
   fst r = Ok tt /\ pin_writes (trace (snd r)) = pin_writes (trace w)) /\
  (Exists (fun vcpu_pin => vcpu_pin <> template_pin) (d_vcpuPinInfo d) ->
   fst r = Raise LibvirtError /\
   pin_writes (trace (snd r)) = pin_writes (trace w) ++ [(get_uuid e, 0%nat, template_pin)]).
Proof.
  intros He Hd Hr. cbv zeta.
  destruct (update_needed (d_vcpuPinInfo d) template_pin) eqn:Hneed.
  - rewrite (update_cpu_pinning_refused _ _ _ _ _ He Hd Hneed Hr). cbn.
    split; [reflexivity|]. split.
    + intros Hall. apply update_needed_false in Hall. congruence.
    + intros _. split; [reflexivity|]. rewrite pin_writes_app. reflexivity.
  - rewrite (update_cpu_pinning_no_drift _ _ _ _ _ He Hd Hneed). cbn.
    split; [reflexivity|]. split.
    + intros _. split; [reflexivity|]. rewrite pin_writes_app. cbn.
      now rewrite app_nil_r.
    + intros Hex. apply update_needed_true in Hex. congruence.
Qed.

Lemma update_cpu_pinning_stopped_vm_witness :
  fst (update_cpu_pinning 0 pin23 (world1 (domain1 false 0) entity1 0)) = Raise LibvirtError /\
  pin_writes (trace (snd (update_cpu_pinning 0 pin23 (world1 (domain1 false 0) entity1 0))))
  = [(uuid1, 0%nat, pin23)] /\
  fst (update_cpu_pinning 0 pin01 (world1 (domain1 false 0) entity1 0)) = Ok tt.
Proof.
  destruct (update_cpu_pinning_stopped_vm (world1 (domain1 false 0) entity1 0) 0 entity1
              (domain1 false 0) pin23 eq_refl eq_refl eq_refl) as (_ & _ & Hdiff).
  destruct (update_cpu_pinning_stopped_vm (world1 (domain1 false 0) entity1 0) 0 entity1
              (domain1 false 0) pin01 eq_refl eq_refl eq_refl) as (_ & Hsame & _).
  destruct Hdiff as [Hraise Hw]; [apply Exists_cons_hd; discriminate|].
  destruct Hsame as [Hok _]; [repeat constructor|].
  split; [exact Hraise|]. split; [exact Hw|exact Hok].
Defined.

(** X15. [update_cpu_pinning] never touches an entity nor the cache,
    whatever it does to the hypervisor. So the pin snapshot of an entity
    goes stale by the adapter's own writes: when the snapshot was accurate
    and a mask differed from the template, the VM ends pinned to the
    template while the entity still carries the old masks. *)
Theorem update_cpu_pinning_leaves_snapshot (w : World) (vm : nat)
    (template_pin : list bool) :
  let w' := snd (update_cpu_pinning vm template_pin w) in
  heap w' = heap w /\ cache_entity w' = cache_entity w /\
  forall (e : DomainEntity) (d : Domain),
    heap w !! vm = Some e ->
    conn w !! get_uuid e = Some d ->
    d_running d = true ->
    de_cpu_pin e = d_vcpuPinInfo d ->
    Exists (fun vcpu_pin => vcpu_pin <> template_pin) (d_vcpuPinInfo d) ->
    exists (e' : DomainEntity) (d' : Domain),
      heap w' !! vm = Some e' /\ conn w' !! get_uuid e = Some d' /\
      de_cpu_pin e' = d_vcpuPinInfo d /\
      d_vcpuPinInfo d' = replicate (length (d_vcpuPinInfo d)) template_pin /\
      de_cpu_pin e' <> d_vcpuPinInfo d'.
Proof.
  cbv zeta. destruct (update_cpu_pinning_store w vm template_pin) as (Hheap & Hcache & _).
  split; [exact Hheap|]. split; [exact Hcache|].
  intros e d He Hd Hr Hsnap Hex.
  pose proof Hex as Hneed. apply update_needed_true in Hneed.
  destruct (update_cpu_pinning_repinned _ _ _ _ _ He Hd Hneed Hr)
    as (w' & d' & Hrun & Hheap' & Hd' & Hpin).
  rewrite Hrun. cbn [snd]. exists e, d'.
  split; [now rewrite Hheap'|]. split; [exact Hd'|]. split; [exact Hsnap|].
  split; [exact Hpin|]. rewrite Hsnap, Hpin. intros Heq.
  apply Exists_exists in Hex as (p & Hin & Hne). apply Hne.
  rewrite Heq in Hin. now apply elem_of_replicate in Hin as [-> _].
Qed.

Lemma update_cpu_pinning_leaves_snapshot_witness :
  exists (e' : DomainEntity) (d' : Domain),
    heap (snd (update_cpu_pinning 0 pin23 (world1 (domain1 true 0) entity1 0))) !! 0%nat
    = Some e' /\
    conn (snd (update_cpu_pinning 0 pin23 (world1 (domain1 true 0) entity1 0))) !! uuid1
    = Some d' /\
    de_cpu_pin e' = [pin01; pin01] /\ d_vcpuPinInfo d' = [pin23; pin23].
Proof.
  destruct (update_cpu_pinning_leaves_snapshot (world1 (domain1 true 0) entity1 0) 0 pin23)
    as (_ & _ & Hstale).
  destruct (Hstale entity1 (domain1 true 0) eq_refl eq_refl eq_refl eq_refl)
    as (e' & d' & He' & Hd' & Hsnap & Hpin & _).
  { apply Exists_cons_hd. discriminate. }
  exists e', d'. split; [exact He'|]. split; [exact Hd'|].
  split; [exact Hsnap|exact Hpin].
Defined.

(** ** The cache and the store stay consistent *)

Lemma get_usage_mem_store (w : World) (vm : nat) :
  let w' := snd (get_usage_mem vm w) in
  heap w' = heap w /\ cache_entity w' = cache_entity w.
Proof.
  cbv zeta. destruct (heap w !! vm) as [e|] eqn:He.
  - destruct (conn w !! get_uuid e) as [d|] eqn:Hd.
    + now rewrite (get_usage_mem_defined _ _ _ _ He Hd).
    + now rewrite (get_usage_mem_undefined _ _ _ He Hd).
  - now rewrite (get_usage_mem_dangling _ _ He).
Qed.

Lemma cache_wf_same (w w' : World) :
  heap w' = heap w -> cache_entity w' = cache_entity w -> cache_wf w -> cache_wf w'.
Proof. intros Hh Hc Hwf uuid vm. rewrite Hh, Hc. apply Hwf. Qed.

(** X16. The invariant of the adapter: every cached reference leads to an
    entity of the store that carries the UUID it is cached under. Each
    method of the connector keeps it, whatever its arguments and whether it
    returns or raises. *)
Theorem cache_wf_preserved (w : World) :
  cache_wf w ->
  (forall (default_cpu_ratio : Q) (virDomain : virDomain) (force_update : bool),
     cache_wf (snd (convert_to_entitydomain default_cpu_ratio virDomain force_update w))) /\
  (forall vm : nat, cache_wf (snd (get_usage_cpu vm w))) /\
  (forall vm : nat, cache_wf (snd (get_usage_mem vm w))) /\
  (forall (vm : nat) (template_pin : list bool),
     cache_wf (snd (update_cpu_pinning vm template_pin w))) /\
  cache_wf (snd (cache_purge w)).
Proof.
  intros Hwf. split; [|split; [|split; [|split]]].
  - intros default_cpu_ratio virDomain force_update.
    destruct (convert_to_entitydomain_cases default_cpu_ratio virDomain force_update w)
      as [(vm & _ & _ & ->)|[(_ & _ & ->)|(d & _ & _ & ->)]].
    + exact Hwf.
    + exact Hwf.
    + intros uuid vm. cbn.
      destruct (decide (UUIDString virDomain = uuid)) as [<-|Hne].
      * rewrite lookup_insert_eq. intros [= <-]. eexists. split.
        -- apply list_lookup_middle. reflexivity.
        -- reflexivity.
      * rewrite lookup_insert_ne by exact Hne. intros Hc.
        destruct (Hwf uuid vm Hc) as (e & He & Hu). exists e.
        split; [now apply lookup_app_l_Some|exact Hu].
  - intros vm. destruct (get_usage_cpu_store w vm)
      as (_ & Hcache & [Hheap|(e & t & c & s & u & He & Hheap)]).
    + now apply (cache_wf_same w).
    + intros uuid vm' Hc. rewrite Hcache in Hc. rewrite Hheap.
      destruct (Hwf uuid vm' Hc) as (e' & He' & Hu).
      destruct (decide (vm = vm')) as [<-|Hne].
      * rewrite He in He'. injection He' as <-. eexists. split.
        -- apply list_lookup_insert_eq. now apply lookup_lt_Some in He.
        -- exact Hu.
      * exists e'. split; [now rewrite list_lookup_insert_ne|exact Hu].
  - intros vm. destruct (get_usage_mem_store w vm) as (Hheap & Hcache).
    now apply (cache_wf_same w).
  - intros vm template_pin.
    destruct (update_cpu_pinning_store w vm template_pin) as (Hheap & Hcache & _).
    now apply (cache_wf_same w).
  - intros uuid vm. cbn. rewrite lookup_empty. discriminate.
Qed.

Lemma cache_wf_preserved_witness :
  cache_wf world_restarted /\
  cache_wf (snd (convert_to_entitydomain 1 {| UUIDString := uuid1 |} true world_restarted)).
Proof.
  assert (Hwf : cache_wf world_restarted).
  { intros uuid vm Hc. cbn in Hc. apply lookup_singleton_Some in Hc as [<- <-].
    exists entity1_sampled. split; reflexivity. }
  split; [exact Hwf|].
  exact (proj1 (cache_wf_preserved world_restarted Hwf) 1%Q {| UUIDString := uuid1 |} true).
Defined.

(** ** The control loop: what is passed to the outside *)

Lemma budget_event_cases (delay : Q) (time_begin time_end : Z) :
  (exists seconds : Q,
     budget_event delay time_begin time_end = Sleep seconds /\ (0 < seconds)%Q /\
     (inject_Z (time_end - time_begin) / inject_Z ns_per_s < delay)%Q)
  \/
  (exists seconds : Q,
     budget_event delay time_begin time_end = StdoutOverlap seconds /\ (0 <= seconds)%Q /\
     (delay <= inject_Z (time_end - time_begin) / inject_Z ns_per_s)%Q).
Proof.
  unfold budget_event. cbv zeta. destruct (Qgtb _ 0) eqn:Hgt.
  - apply Qgtb_true in Hgt. left. eexists. split; [reflexivity|].
    rewrite Qred_correct. ns_const. split; lra.
  - apply Qgtb_false in Hgt. right. eexists. split; [reflexivity|].
    rewrite Qred_correct. ns_const. split; lra.
Qed.

Lemma sleeps_app (t1 t2 : list Event) : sleeps (t1 ++ t2) = sleeps t1 ++ sleeps t2.
Proof. unfold sleeps. apply flat_map_app. Qed.

Lemma overlaps_app (t1 t2 : list Event) : overlaps (t1 ++ t2) = overlaps t1 ++ overlaps t2.
Proof. unfold overlaps. apply flat_map_app. Qed.

Lemma pool_timestamps_app (t1 t2 : list Event) :
  pool_timestamps (t1 ++ t2) = pool_timestamps t1 ++ pool_timestamps t2.
Proof. unfold pool_timestamps. apply flat_map_app. Qed.

Lemma loop_events_budget (delay : Q) (c : nat -> Z) (k : nat) (n : nat) :
  forall first : nat,
    Forall (fun s => (0 < s)%Q) (sleeps (loop_events delay c k first n)) /\
    Forall (fun s => (0 <= s)%Q) (overlaps (loop_events delay c k first n)) /\
    (length (sleeps (loop_events delay c k first n))
     + length (overlaps (loop_events delay c k first n)) = n)%nat.
Proof.
  induction n as [|n IH]; intros first.
  - cbn. repeat split; constructor.
  - destruct (IH (S first)) as (Hs & Ho & Hlen).
    cbn [loop_events]. rewrite sleeps_app, overlaps_app, !length_app.
    destruct (budget_event_cases delay (c (k + 2 * first + 1)%nat)
                (c (k + 2 * first + 2)%nat))
      as [(s & -> & Hpos & _)|(s & -> & Hpos & _)]; cbn.
    + split; [now constructor|]. split; [exact Ho|]. lia.
    + split; [exact Hs|]. split; [now constructor|]. lia.
Qed.

(** X17. In [n] turns of the loop, [time.sleep] is only ever called with a
    positive duration and the overlap printed is never negative; each turn
    does exactly one of the two. *)
Theorem run_sleeps_positive (delay : Q) (n : nat) (w : World) :
  exists (slept printed : list Q),
    sleeps (trace (snd (run delay n w))) = sleeps (trace w) ++ slept /\
    overlaps (trace (snd (run delay n w))) = overlaps (trace w) ++ printed /\
    Forall (fun s => (0 < s)%Q) slept /\
    Forall (fun s => (0 <= s)%Q) printed /\
    (length slept + length printed = n)%nat.
Proof.
  rewrite run_steps. cbn [snd trace later].
  destruct (loop_events_budget delay (clock w) (clock_reads w) n 0) as (Hs & Ho & Hlen).
  eexists _, _. rewrite sleeps_app, overlaps_app.
  split; [reflexivity|]. split; [reflexivity|]. split; [exact Hs|]. split; [exact Ho|exact Hlen].
Qed.

Lemma loop_events_timestamps (delay : Q) (c : nat -> Z) (k : nat) (n : nat) :
  forall first : nat,
    pool_timestamps (loop_events delay c k first n)
    = map (fun i => time_since_launch (c k) (c (k + 2 * i + 1)%nat)) (seq first n).
Proof.
  induction n as [|n IH]; intros first; [reflexivity|].
  cbn [loop_events seq map]. rewrite pool_timestamps_app, IH.
  cbn. f_equal. destruct (budget_event _ _ _) eqn:Hev; try reflexivity;
    unfold budget_event in Hev; cbv zeta in Hev; destruct (Qgtb _ 0); discriminate.
Qed.

(** X18. When the wall clock never goes back, the number of seconds since
    launch that the loop passes to the pool is never negative and never
    decreases from one turn to the next. *)
Theorem run_timestamps_monotone (delay : Q) (n : nat) (w : World) :
  (forall i j : nat, (i <= j)%nat -> (clock w i <= clock w j)%Z) ->
  exists timestamps : list Z,
    pool_timestamps (trace (snd (run delay n w))) = pool_timestamps (trace w) ++ timestamps /\
    length timestamps = n /\
    Forall (fun ts => (0 <= ts)%Z) timestamps /\
    forall (i j : nat) (a b : Z),
      (i <= j)%nat -> timestamps !! i = Some a -> timestamps !! j = Some b -> (a <= b)%Z.
Proof.
  intros Hmono. rewrite run_steps. cbn [snd trace later].
  rewrite pool_timestamps_app, loop_events_timestamps.
  eexists. split; [reflexivity|]. split; [now rewrite length_map, length_seq|].
  split.
  - apply Forall_forall. intros ts Hts.
    apply list_elem_of_fmap in Hts as (i & -> & _).
    rewrite <- (time_since_launch_same (clock w (clock_reads w))).
    apply time_since_launch_mono.
    apply (Hmono (clock_reads w) (clock_reads w + 2 * i + 1)%nat). lia.
  - intros i j a b Hij Ha Hb.
    rewrite list_lookup_fmap in Ha, Hb.
    destruct (seq 0 n !! i) as [x|] eqn:Hx; [|discriminate].
    destruct (seq 0 n !! j) as [y|] eqn:Hy; [|discriminate].
    apply lookup_seq in Hx as [Hx _]. apply lookup_seq in Hy as [Hy _].
    cbn in Hx, Hy. subst x y.
    cbv [fmap option_fmap option_map] in Ha, Hb.
    injection Ha as <-. injection Hb as <-.
    apply time_since_launch_mono.
    apply (Hmono (clock_reads w + 2 * i + 1)%nat (clock_reads w + 2 * j + 1)%nat). lia.
Qed.

Lemma run_timestamps_monotone_witness :
  exists timestamps : list Z,
    pool_timestamps (trace (snd (run 1 3 world_steady))) = timestamps /\
    Forall (fun ts => (0 <= ts)%Z) timestamps /\ length timestamps = 3%nat.
Proof.
  destruct (run_timestamps_monotone 1 3 world_steady) as (ts & Hts & Hlen & Hpos & _).
  { intros i j Hij. cbn. lia. }
  exists ts. split; [exact Hts|]. split; [exact Hpos|exact Hlen].
Defined.

(** ** Enumerating the domains *)

(** A comprehension whose body returns without changing the state. *)
Lemma map_M_pure {A B C : Type} (f : B -> M C) (h : A -> B) (g : A -> C)
    (l : list A) (w : World) :
  (forall x : A, x ∈ l -> f (h x) w = (Ok (g x), w)) ->
  map_M f (h <$> l) w = (Ok (g <$> l), w).
Proof.
  induction l as [|x rest IH]; intros Hbody; [reflexivity|].
  cbn [fmap list_fmap map_M].
  rewrite (bind_ok _ _ _ _ _ (Hbody x (list_elem_of_here _ _))).
  rewrite (bind_ok _ _ _ _ _ (IH (fun y Hy => Hbody y (list_elem_of_further _ _ _ Hy)))).
  reflexivity.
Qed.

Lemma handle_of_unique (m : gmap string Domain) (ud ud' : string * Domain) :
  ud ∈ map_to_list m -> ud' ∈ map_to_list m -> handle_of ud = handle_of ud' -> ud = ud'.
Proof.
  destruct ud as [u d], ud' as [u' d']. intros Hin Hin' [= <-].
  f_equal. exact (map_to_list_unique m u d d' Hin Hin').
Qed.

Lemma lookupByID_running (domain_id : string -> Z) (w : World) (ud : string * Domain) :
  ids_unique domain_id w ->
  ud ∈ map_to_list (conn w) ->
  is_running ud = true ->
  lookupByID domain_id (domain_id (fst ud)) w = (Ok (handle_of ud), w).
Proof.
  intros Hids Hin Hr. unfold lookupByID.
  destruct (List.find _ _) as [ud'|] eqn:Hfind.
  - apply find_some in Hfind as [Hin' Hp]. apply andb_true_iff in Hp as [Hr' Hid].
    apply Z.eqb_eq in Hid. apply list_elem_of_In in Hin'.
    destruct ud as [u d], ud' as [u' d']. cbn in *.
    apply elem_of_map_to_list in Hin, Hin'.
    rewrite (Hids u' u d' d Hin' Hin Hr' Hr Hid). reflexivity.
  - apply list_elem_of_In in Hin. pose proof (find_none _ _ Hfind ud Hin) as Hp.
    cbn in Hp. rewrite Hr, Z.eqb_refl in Hp. discriminate.
Qed.

Lemma lookupByName_defined (w : World) (ud : string * Domain) :
  names_unique w ->
  ud ∈ map_to_list (conn w) ->
  lookupByName (d_name (snd ud)) w = (Ok (handle_of ud), w).
Proof.
  intros Hnames Hin. unfold lookupByName.
  destruct (List.find _ _) as [ud'|] eqn:Hfind.
  - apply find_some in Hfind as [Hin' Hp]. apply String.eqb_eq in Hp.
    apply list_elem_of_In in Hin'.
    destruct ud as [u d], ud' as [u' d']. cbn in *.
    apply elem_of_map_to_list in Hin, Hin'.
    rewrite (Hnames u' u d' d Hin' Hin Hp). reflexivity.
  - apply list_elem_of_In in Hin. pose proof (find_none _ _ Hfind ud Hin) as Hp.
    cbn in Hp. rewrite String.eqb_refl in Hp. discriminate.
Qed.

Lemma get_vm_alive_run (domain_id : string -> Z) (w : World) :
  ids_unique domain_id w ->
  get_vm_alive domain_id w
  = (Ok (handle_of <$> filter (fun ud => is_running ud = true) (map_to_list (conn w))), w).
Proof.
  intros Hids. unfold get_vm_alive.
  rewrite (bind_ok (listDomainsID domain_id) _ w _ _ eq_refl).
  apply (map_M_pure (lookupByID domain_id) (fun ud => domain_id (fst ud)) handle_of).
  intros ud Hin. apply list_elem_of_filter in Hin as [Hr Hin].
  now apply lookupByID_running.
Qed.

Lemma get_vm_shutdown_run (w : World) :
  names_unique w ->
  get_vm_shutdown w
  = (Ok (handle_of <$> filter (fun ud => is_running ud = false) (map_to_list (conn w))), w).
Proof.
  intros Hnames. unfold get_vm_shutdown.
  rewrite (bind_ok listDefinedDomains _ w _ _ eq_refl).
  apply (map_M_pure lookupByName (fun ud => d_name (snd ud)) handle_of).
  intros ud Hin. apply list_elem_of_filter in Hin as [_ Hin].
  now apply lookupByName_defined.
Qed.

Lemma NoDup_handles (m : gmap string Domain) (P : string * Domain -> Prop)
    `{forall ud, Decision (P ud)} :
  NoDup (handle_of <$> filter P (map_to_list m)).
Proof.
  apply NoDup_fmap_2_strong.
  - intros ud ud' Hin Hin' Heq.
    apply list_elem_of_filter in Hin as [_ Hin]. apply list_elem_of_filter in Hin' as [_ Hin'].
    now apply (handle_of_unique m).
  - apply NoDup_filter, NoDup_map_to_list.
Qed.

Lemma elem_of_handles (m : gmap string Domain) (P : string * Domain -> Prop)
    `{forall ud, Decision (P ud)} (u : string) :
  {| UUIDString := u |} ∈ handle_of <$> filter P (map_to_list m)
  <-> exists d : Domain, m !! u = Some d /\ P (u, d).
Proof.
  rewrite list_elem_of_fmap. split.
  - intros ([u' d] & [= ->] & Hin). apply list_elem_of_filter in Hin as [HP Hin].
    exists d. split; [now apply elem_of_map_to_list|exact HP].
  - intros (d & Hd & HP). exists (u, d). split; [reflexivity|].
    apply list_elem_of_filter. split; [exact HP|now apply elem_of_map_to_list].
Qed.

(** X19. [get_vm_alive] returns one handle for each domain that runs and
    none for any other, without changing the state, and it raises nothing
    (libvirt gives different ids to different running domains). *)
Theorem get_vm_alive_running_domains (domain_id : string -> Z) (w : World) :
  ids_unique domain_id w ->
  exists vms : list virDomain,
    get_vm_alive domain_id w = (Ok vms, w) /\
    NoDup vms /\
    forall u : string,
      {| UUIDString := u |} ∈ vms
      <-> exists d : Domain, conn w !! u = Some d /\ d_running d = true.
Proof.
  intros Hids. eexists. split; [now apply get_vm_alive_run|].
  split; [apply NoDup_handles|]. intros u. apply elem_of_handles.
Qed.

Lemma ids_unique_two_vms : ids_unique sample_domain_id world_two_vms.
Proof.
  intros u1 u2 d1 d2 H1 H2 Hr1 Hr2 _. cbn in H1, H2.
  apply lookup_insert_Some in H1 as [[<- <-]|[_ H1]]; [discriminate|].
  apply lookup_insert_Some in H2 as [[<- <-]|[_ H2]]; [discriminate|].
  apply lookup_singleton_Some in H1 as [<- _].
  apply lookup_singleton_Some in H2 as [<- _]. reflexivity.
Qed.

Lemma names_unique_two_vms : names_unique world_two_vms.
Proof.
  intros u1 u2 d1 d2 H1 H2 Hname. cbn in H1, H2.
  apply lookup_insert_Some in H1 as [[<- <-]|[_ H1]];
    apply lookup_insert_Some in H2 as [[<- <-]|[_ H2]]; try reflexivity.
  - apply lookup_singleton_Some in H2 as [<- <-]. discriminate.
  - apply lookup_singleton_Some in H1 as [<- <-]. discriminate.
  - apply lookup_singleton_Some in H1 as [<- _].
    apply lookup_singleton_Some in H2 as [<- _]. reflexivity.
Qed.

Lemma get_vm_alive_running_domains_witness :
  exists vms : list virDomain,
    get_vm_alive sample_domain_id world_two_vms = (Ok vms, world_two_vms) /\
    {| UUIDString := uuid1 |} ∈ vms /\ {| UUIDString := uuid2 |} ∉ vms.
Proof.
  destruct (get_vm_alive_running_domains sample_domain_id world_two_vms ids_unique_two_vms)
    as (vms & Hrun & _ & Hiff).
  exists vms. split; [exact Hrun|]. split.
  - apply Hiff. exists (domain1 true 1000000000). split; reflexivity.
  - intros Hin. apply Hiff in Hin as (d & Hd & Hr).
    assert (Hd2 : conn world_two_vms !! uuid2 = Some domain2) by reflexivity.
    rewrite Hd2 in Hd. injection Hd as <-. discriminate.
Defined.

(** X20. [get_all_vm] returns every domain that the hypervisor knows
    exactly once, the running ones first and the stopped ones after them,
    with no deduplication needed: a domain is never in both lists (libvirt
    keeps ids and names different). *)
Theorem get_all_vm_every_domain_once (domain_id : string -> Z) (w : World) :
  ids_unique domain_id w ->
  names_unique w ->
  exists alive shutdown : list virDomain,
    get_vm_alive domain_id w = (Ok alive, w) /\
    get_vm_shutdown w = (Ok shutdown, w) /\
    get_all_vm domain_id w = (Ok (alive ++ shutdown), w) /\
    NoDup (alive ++ shutdown) /\
    (forall u : string,
       {| UUIDString := u |} ∈ alive ++ shutdown <-> is_Some (conn w !! u)) /\
    length (alive ++ shutdown) = size (conn w).
Proof.
  intros Hids Hnames.
  pose proof (get_vm_alive_run domain_id w Hids) as Halive.
  pose proof (get_vm_shutdown_run w Hnames) as Hdown.
  eexists _, _. split; [exact Halive|]. split; [exact Hdown|]. split.
  { unfold get_all_vm. rewrite (bind_ok _ _ _ _ _ Halive), (bind_ok _ _ _ _ _ Hdown).
    reflexivity. }
  assert (Hnodup : NoDup
            ((handle_of <$> filter (fun ud => is_running ud = true) (map_to_list (conn w)))
             ++ (handle_of <$> filter (fun ud => is_running ud = false)
                                 (map_to_list (conn w))))).
  { apply NoDup_app. split; [apply NoDup_handles|]. split; [|apply NoDup_handles].
    intros [u] Hin Hin'.
    apply elem_of_handles in Hin as (d & Hd & Hr).
    apply elem_of_handles in Hin' as (d' & Hd' & Hr').
    rewrite Hd in Hd'. injection Hd' as <-. cbn in Hr, Hr'. congruence. }
  assert (Hmem : forall u : string,
            {| UUIDString := u |}
            ∈ (handle_of <$> filter (fun ud => is_running ud = true) (map_to_list (conn w)))
              ++ (handle_of <$> filter (fun ud => is_running ud = false)
                                  (map_to_list (conn w)))
            <-> is_Some (conn w !! u)).
  { intros u. rewrite elem_of_app, !elem_of_handles. split.
    - intros [(d & Hd & _)|(d & Hd & _)]; now exists d.
    - intros [d Hd]. destruct (d_running d) eqn:Hr; [left|right]; now exists d. }
  split; [exact Hnodup|]. split; [exact Hmem|].
  rewrite <- length_map_to_list, <- (length_fmap handle_of (map_to_list (conn w))).
  apply Permutation_length. apply NoDup_Permutation.
  - exact Hnodup.
  - apply NoDup_fmap_2_strong; [|apply NoDup_map_to_list].
    intros ud ud' Hin Hin'. now apply (handle_of_unique (conn w)).
  - intros [u]. rewrite Hmem, list_elem_of_fmap. split.
    + intros [d Hd]. exists (u, d). split; [reflexivity|now apply elem_of_map_to_list].
    + intros ([u' d] & [= ->] & Hin). exists d. now apply elem_of_map_to_list.
Qed.

Lemma get_all_vm_every_domain_once_witness :
  exists vms : list virDomain,
    get_all_vm sample_domain_id world_two_vms = (Ok vms, world_two_vms) /\
    length vms = 2%nat /\ {| UUIDString := uuid2 |} ∈ vms.
Proof.
  destruct (get_all_vm_every_domain_once sample_domain_id world_two_vms
              ids_unique_two_vms names_unique_two_vms)
    as (alive & shutdown & _ & _ & Hall & _ & Hmem & Hlen).
  exists (alive ++ shutdown). split; [exact Hall|]. split.
  - rewrite Hlen. reflexivity.
  - apply Hmem. exists domain2. reflexivity.
Defined.

(** A resolution keeps the domains of the hypervisor and whether each
    runs. *)
Lemma resolved_world_running (default_cpu_ratio : Q) (uuid : string) (d : Domain)
    (w : World) (u : string) :
  d_running <$> conn (resolved_world default_cpu_ratio uuid d w) !! u
  = d_running <$> conn w !! u.
Proof.
  cbn. destruct (bool_decide _); [|reflexivity].
  rewrite lookup_alter. case_decide as Heq; [|reflexivity].
  subst u. now destruct (conn w !! xml_uuid (d_XMLDesc d)).
Qed.

(** Resolving a list of handles of different, known VMs. *)
Lemma map_M_convert (default_cpu_ratio : Q) (vms : list virDomain) :
  forall w : World,
    NoDup (UUIDString <$> vms) ->
    (forall h, h ∈ vms -> is_Some (conn w !! UUIDString h)) ->
    exists (refs : list nat) (w' : World),
      map_M (fun h => convert_to_entitydomain default_cpu_ratio h false) vms w
      = (Ok refs, w') /\
      Forall2 (fun h vm => cache_entity w' !! UUIDString h = Some vm) vms refs /\
      (forall u : string,
         u ∉ UUIDString <$> vms -> cache_entity w' !! u = cache_entity w !! u) /\
      (forall u : string, d_running <$> conn w' !! u = d_running <$> conn w !! u) /\
      (forall (vm : nat) (e : DomainEntity),
         heap w !! vm = Some e -> heap w' !! vm = Some e).
Proof.
  induction vms as [|h rest IH]; intros w Hnodup Hdef.
  - exists [], w. repeat split; auto.
  - rewrite fmap_cons in Hnodup. apply NoDup_cons in Hnodup as [Hh Hrest].
    cbn [map_M].
    assert (Hhead : exists (vm : nat) (w1 : World),
               convert_to_entitydomain default_cpu_ratio h false w = (Ok vm, w1) /\
               cache_entity w1 !! UUIDString h = Some vm /\
               (forall u, u <> UUIDString h -> cache_entity w1 !! u = cache_entity w !! u) /\
               (forall u, d_running <$> conn w1 !! u = d_running <$> conn w !! u) /\
               (forall vm' e, heap w !! vm' = Some e -> heap w1 !! vm' = Some e)).
    { destruct (convert_to_entitydomain_cases default_cpu_ratio h false w)
        as [(vm & _ & Hhit & Hrun)|[(_ & Hnone & _)|(d & _ & _ & Hrun)]].
      - exists vm, w. repeat split; auto.
      - destruct (Hdef h (list_elem_of_here _ _)) as [d Hd]. congruence.
      - eexists _, _. split; [exact Hrun|]. split; [cbn; apply lookup_insert_eq|].
        split; [intros u Hne; cbn; now rewrite lookup_insert_ne|].
        split; [intros u; apply resolved_world_running|].
        intros vm' e He. cbn. now apply lookup_app_l_Some. }
    destruct Hhead as (vm & w1 & Hrun & Hvm & Hcache1 & Hconn1 & Hheap1).
    rewrite (bind_ok _ _ _ _ _ Hrun).
    destruct (IH w1 Hrest) as (refs & w' & Hrest_run & Hall & Hcache & Hconn & Hheap).
    { intros h' Hin. specialize (Hdef h' (list_elem_of_further _ _ _ Hin)).
      specialize (Hconn1 (UUIDString h')).
      destruct Hdef as [d Hd]. rewrite Hd in Hconn1.
      destruct (conn w1 !! UUIDString h'); [now eexists|discriminate]. }
    rewrite (bind_ok _ _ _ _ _ Hrest_run).
    exists (vm :: refs), w'. split; [reflexivity|]. split.
    { constructor; [|exact Hall]. now rewrite (Hcache _ Hh). }
    split.
    { intros u Hu. rewrite fmap_cons in Hu. apply not_elem_of_cons in Hu as [Hne Hu].
      rewrite (Hcache u Hu). now apply Hcache1. }
    split; [intros u; now rewrite Hconn, Hconn1|].
    intros vm' e He. apply Hheap, Hheap1, He.
Qed.

Lemma ids_unique_running (domain_id : string -> Z) (w w' : World) :
  (forall u : string, d_running <$> conn w' !! u = d_running <$> conn w !! u) ->
  ids_unique domain_id w -> ids_unique domain_id w'.
Proof.
  intros Hconn Hids u1 u2 d1 d2 H1 H2 Hr1 Hr2 Hid.
  pose proof (Hconn u1) as E1. pose proof (Hconn u2) as E2.
  rewrite H1 in E1. rewrite H2 in E2.
  destruct (conn w !! u1) as [e1|] eqn:He1; [|discriminate].
  destruct (conn w !! u2) as [e2|] eqn:He2; [|discriminate].
  cbn in E1, E2. injection E1 as E1. injection E2 as E2.
  apply (Hids u1 u2 e1 e2); congruence.
Qed.

Lemma NoDup_handle_uuids (m : gmap string Domain) (P : string * Domain -> Prop)
    `{forall ud, Decision (P ud)} :
  NoDup (UUIDString <$> (handle_of <$> filter P (map_to_list m))).
Proof.
  apply NoDup_fmap_2_strong; [|apply NoDup_handles].
  intros [u] [u'] _ _. cbn. now intros ->.
Qed.

(** Once every running VM is cached, the comprehension only looks up. *)
Lemma get_vm_alive_as_entity_cached (domain_id : string -> Z) (default_cpu_ratio : Q)
    (w : World) :
  ids_unique domain_id w ->
  running_cached w ->
  exists (vms : list virDomain) (refs : list nat),
    get_vm_alive domain_id w = (Ok vms, w) /\
    get_vm_alive_as_entity domain_id default_cpu_ratio w = (Ok refs, w) /\
    Forall2 (fun h vm => cache_entity w !! UUIDString h = Some vm) vms refs.
Proof.
  intros Hids Hcached.
  pose proof (get_vm_alive_run domain_id w Hids) as Halive.
  assert (Hloop : forall vms : list virDomain,
            (forall h, h ∈ vms -> is_Some (cache_entity w !! UUIDString h)) ->
            exists refs : list nat,
              map_M (fun h => convert_to_entitydomain default_cpu_ratio h false) vms w
              = (Ok refs, w) /\
              Forall2 (fun h vm => cache_entity w !! UUIDString h = Some vm) vms refs).
  { induction vms as [|h rest IH]; intros Hall.
    - exists []. split; [reflexivity|constructor].
    - destruct (Hall h (list_elem_of_here _ _)) as [vm Hvm].
      destruct (IH (fun h' Hin => Hall h' (list_elem_of_further _ _ _ Hin)))
        as (refs & Hrun & Hrefs).
      exists (vm :: refs). cbn [map_M].
      rewrite (bind_ok _ _ _ _ _ (convert_to_entitydomain_cached _ _ _ _ Hvm)).
      rewrite (bind_ok _ _ _ _ _ Hrun). split; [reflexivity|]. now constructor. }
  destruct (Hloop (handle_of <$> filter (fun ud => is_running ud = true)
                                   (map_to_list (conn w))))
    as (refs & Hrun & Hrefs).
  { intros [u] Hin. apply elem_of_handles in Hin as (d & Hd & Hr).
    exact (Hcached u d Hd Hr). }
  eexists _, refs. split; [exact Halive|]. split; [|exact Hrefs].
  unfold get_vm_alive_as_entity. now rewrite (bind_ok _ _ _ _ _ Halive).
Qed.

(** X21. [get_vm_alive_as_entity] raises nothing and returns one entity for
    each running VM, in the order of [get_vm_alive]; after it every running
    VM has its entity in the cache, under its UUID, and it is the entity
    returned. Entities that existed are unchanged, and no domain of the
    hypervisor has started or stopped. A second call right after the first
    is a pure lookup: it returns and leaves the whole state as it is. *)
Theorem get_vm_alive_as_entity_caches_running (domain_id : string -> Z)
    (default_cpu_ratio : Q) (w : World) :
  ids_unique domain_id w ->
  exists (vms : list virDomain) (refs refs' : list nat) (w' : World),
    get_vm_alive domain_id w = (Ok vms, w) /\
    get_vm_alive_as_entity domain_id default_cpu_ratio w = (Ok refs, w') /\
    Forall2 (fun h vm => cache_entity w' !! UUIDString h = Some vm) vms refs /\
    running_cached w' /\
    (forall (vm : nat) (e : DomainEntity), heap w !! vm = Some e -> heap w' !! vm = Some e) /\
    (forall u : string, d_running <$> conn w' !! u = d_running <$> conn w !! u) /\
    get_vm_alive_as_entity domain_id default_cpu_ratio w' = (Ok refs', w').
Proof.
  intros Hids. pose proof (get_vm_alive_run domain_id w Hids) as Halive.
  destruct (map_M_convert default_cpu_ratio
              (handle_of <$> filter (fun ud => is_running ud = true) (map_to_list (conn w))) w)
    as (refs & w' & Hrun & Hall & _ & Hconn & Hheap).
  { apply NoDup_handle_uuids. }
  { intros [u] Hin. apply elem_of_handles in Hin as (d & Hd & _). now exists d. }
  assert (Hcached : running_cached w').
  { intros u d' Hd' Hr'.
    assert (Hin : {| UUIDString := u |}
                  ∈ handle_of <$> filter (fun ud => is_running ud = true)
                                    (map_to_list (conn w))).
    { apply elem_of_handles. pose proof (Hconn u) as E. rewrite Hd' in E.
      destruct (conn w !! u) as [d|]; [|discriminate].
      exists d. split; [reflexivity|]. cbn in E. injection E as E.
      unfold is_running. cbn. congruence. }
    apply list_elem_of_lookup in Hin as [i Hi].
    destruct (Forall2_lookup_l _ _ _ _ _ Hall Hi) as (vm & _ & Hvm).
    now exists vm. }
  destruct (get_vm_alive_as_entity_cached domain_id default_cpu_ratio w'
              (ids_unique_running _ _ _ Hconn Hids) Hcached)
    as (_ & refs' & _ & Hagain & _).
  eexists _, refs, refs', w'. split; [exact Halive|]. split.
  { unfold get_vm_alive_as_entity. now rewrite (bind_ok _ _ _ _ _ Halive). }
  split; [exact Hall|]. split; [exact Hcached|].
  split; [exact Hheap|]. split; [exact Hconn|exact Hagain].
Qed.

Lemma get_vm_alive_as_entity_caches_running_witness :
  exists (refs refs' : list nat) (w' : World),
    get_vm_alive_as_entity sample_domain_id 1 world_two_vms = (Ok refs, w') /\
    is_Some (cache_entity w' !! uuid1) /\
    get_vm_alive_as_entity sample_domain_id 1 w' = (Ok refs', w').
Proof.
  destruct (get_vm_alive_as_entity_caches_running sample_domain_id 1 world_two_vms
              ids_unique_two_vms)
    as (vms & refs & refs' & w' & _ & Hrun & _ & Hcached & _ & Hconn & Hagain).
  exists refs, refs', w'. split; [exact Hrun|]. split; [|exact Hagain].
  pose proof (Hconn uuid1) as E.
  assert (Hd : conn world_two_vms !! uuid1 = Some (domain1 true 1000000000)) by reflexivity.
  rewrite Hd in E. destruct (conn w' !! uuid1) as [d'|] eqn:Hd'; [|discriminate].
  apply (Hcached uuid1 d' Hd'). cbn in E. congruence.
Defined.

(** ** Constructing the scheduler *)

Lemma set_required_present {V : Type} (todo : list string) (kwargs : gmap string V) :
  forall self : gmap string (attr_value V),
    Forall (fun a => is_Some (kwargs !! a)) todo ->
    exists self' : gmap string (attr_value V),
      set_required V todo kwargs self = inr self' /\
      forall a : string,
        self' !! a = if decide (a ∈ todo) then Passed <$> kwargs !! a else self !! a.
Proof.
  induction todo as [|a0 rest IH]; intros self Hall.
  - exists self. split; [reflexivity|]. intros a.
    destruct (decide (a ∈ [])) as [Hin|_]; [now apply elem_of_nil in Hin|reflexivity].
  - apply Forall_cons in Hall as [[v Hv] Hrest]. cbn [set_required]. rewrite Hv.
    destruct (IH (<[a0 := Passed v]> self) Hrest) as (self' & Hrun & Hget).
    exists self'. split; [exact Hrun|]. intros a. rewrite Hget.
    destruct (decide (a ∈ rest)) as [Hin|Hnin].
    + rewrite decide_True by (now apply list_elem_of_further). reflexivity.
    + destruct (decide (a = a0)) as [->|Hne].
      * rewrite decide_True by apply list_elem_of_here.
        now rewrite lookup_insert_eq, Hv.
      * rewrite decide_False by (rewrite elem_of_cons; tauto).
        now rewrite lookup_insert_ne.
Qed.

Lemma set_required_missing {V : Type} (todo : list string) (kwargs : gmap string V) :
  forall self : gmap string (attr_value V),
    Exists (fun a => kwargs !! a = None) todo ->
    set_required V todo kwargs self
    = inl (ValueError "Missing required argument" req_attributes).
Proof.
  induction todo as [|a0 rest IH]; intros self Hex.
  - now apply Exists_nil in Hex.
  - cbn [set_required]. destruct (kwargs !! a0) as [v|] eqn:Hv; [|reflexivity].
    apply Exists_cons in Hex as [Hnone|Hrest]; [congruence|]. now apply IH.
Qed.

(** X22. What [SchedulerLocal.__init__] needs and leaves. When one of
    [cpuset], [memset], [connector], [delay] is missing it raises the
    [ValueError] that lists the four, before any collaborator is built.
    [api_url] and [api_port] are needed as well although they are not in
    that list: when one of them is missing the pool is built and then a
    [KeyError] on that key is raised; the API endpoint is neither built nor
    started. With the six present the object carries exactly six
    attributes: the four required ones with the values passed,
    [managers_pool] with the pool built from all the keyword arguments, and
    [api_endpoint] with the endpoint built from that pool, [api_url] and
    [api_port]; the pool is built, the endpoint built and that endpoint
    started, in that order. *)
Theorem SchedulerLocal_init_outcome {V : Type} (kwargs : gmap string V) :
  (Exists (fun a => kwargs !! a = None) req_attributes ->
   SchedulerLocal_init V kwargs
   = (inl (ValueError "Missing required argument" req_attributes), []))
  /\
  (Forall (fun a => is_Some (kwargs !! a)) req_attributes ->
   match kwargs !! "api_url"%string, kwargs !! "api_port"%string with
   | None, _ =>
       SchedulerLocal_init V kwargs
       = (inl (KeyErrorOn "api_url"), [NewSubsetManagerPool kwargs])
   | Some _, None =>
       SchedulerLocal_init V kwargs
       = (inl (KeyErrorOn "api_port"), [NewSubsetManagerPool kwargs])
   | Some api_url, Some api_port =>
       let managers_pool := SubsetManagerPoolObject kwargs in
       let api_endpoint := ApiEndpointObject managers_pool api_url api_port in
       exists self : gmap string (attr_value V),
         SchedulerLocal_init V kwargs
         = (inr self,
            [NewSubsetManagerPool kwargs;
             NewApiEndpoint managers_pool api_url api_port;
             ApiEndpointRun api_endpoint]) /\
         (forall a : string, a ∈ req_attributes -> self !! a = Passed <$> kwargs !! a) /\
         self !! "managers_pool"%string = Some managers_pool /\
         self !! "api_endpoint"%string = Some api_endpoint /\
         (forall a : string,
            a ∉ req_attributes -> a <> "managers_pool"%string ->
            a <> "api_endpoint"%string -> self !! a = None)
   end).
Proof.
  split.
  - intros Hex. unfold SchedulerLocal_init.
    now rewrite (set_required_missing req_attributes kwargs ∅ Hex).
  - intros Hall. unfold SchedulerLocal_init.
    destruct (set_required_present req_attributes kwargs ∅ Hall) as (self & -> & Hget).
    destruct (kwargs !! "api_url"%string) as [api_url|]; [|reflexivity].
    destruct (kwargs !! "api_port"%string) as [api_port|]; [|reflexivity].
    cbv zeta. eexists. split; [reflexivity|].
    assert (Hpool : "managers_pool"%string ∉ req_attributes)
      by (unfold req_attributes; rewrite !elem_of_cons, elem_of_nil;
          intros [H|[H|[H|[H|H]]]]; try discriminate H; exact H).
    assert (Hend : "api_endpoint"%string ∉ req_attributes)
      by (unfold req_attributes; rewrite !elem_of_cons, elem_of_nil;
          intros [H|[H|[H|[H|H]]]]; try discriminate H; exact H).
    split; [|split; [|split]].
    + intros a Hin.
      rewrite !lookup_insert_ne by (intros <-; contradiction).
      rewrite Hget. now rewrite decide_True.
    + rewrite lookup_insert_ne by discriminate. now rewrite lookup_insert_eq.
    + now rewrite lookup_insert_eq.
    + intros a Hnin Hp He.
      rewrite !lookup_insert_ne by congruence.
      rewrite Hget. rewrite decide_False by exact Hnin. apply lookup_empty.
Qed.

Lemma SchedulerLocal_init_outcome_witness :
  SchedulerLocal_init nat
    (<[ "cpuset"%string := 1%nat ]> (<[ "memset"%string := 2%nat ]>
       (<[ "connector"%string := 3%nat ]> (<[ "delay"%string := 4%nat ]> ∅))))
  = (inl (KeyErrorOn "api_url"),
     [NewSubsetManagerPool
        (<[ "cpuset"%string := 1%nat ]> (<[ "memset"%string := 2%nat ]>
           (<[ "connector"%string := 3%nat ]> (<[ "delay"%string := 4%nat ]> ∅))))])
  /\
  SchedulerLocal_init nat (<[ "cpuset"%string := 1%nat ]> ∅)
  = (inl (ValueError "Missing required argument" req_attributes), []).
Proof.
  split.
  - pose proof (proj2 (SchedulerLocal_init_outcome
                         (<[ "cpuset"%string := 1%nat ]> (<[ "memset"%string := 2%nat ]>
                            (<[ "connector"%string := 3%nat ]>
                               (<[ "delay"%string := 4%nat ]> ∅)))))) as Hok.
    assert (Hurl : (<[ "cpuset"%string := 1%nat ]> (<[ "memset"%string := 2%nat ]>
                      (<[ "connector"%string := 3%nat ]>
                         (<[ "delay"%string := 4%nat ]> (∅ : gmap string nat)))))
                   !! "api_url"%string = None) by (vm_compute; reflexivity).
    rewrite Hurl in Hok. apply Hok.
    repeat constructor; vm_compute; eexists; reflexivity.
  - apply (proj1 (SchedulerLocal_init_outcome (<[ "cpuset"%string := 1%nat ]> ∅))).
    apply Exists_cons_tl, Exists_cons_hd. vm_compute. reflexivity.
Defined.
